(** * convert_systems_to_services.py: a shallow embedding and its properties

    The script talks to a GraphQL endpoint, pages through entity lists,
    writes JSON snapshots and issues creation mutations.  Python objects
    are modelled by an inductive type of JSON-shaped values, Python [str]
    by lists of Unicode code points, and side effects (network, files,
    console, clock) by a state-and-exception monad over an explicit
    [world].

    What the model leaves out:
    - floating-point numbers: a body with a fraction, an exponent, [NaN]
      or [Infinity] is reported as undecodable (the queries of the script
      ask for no numeric field);
    - the interpreter's limits on recursion depth and on the digits of an
      integer literal;
    - failures of the file system and of the encoding of the console; a
      file is known by the text of its path, so two spellings of one
      path are two files;
    - the bytes of a response: a body is the text it decodes to, and a
      body that is no valid UTF-8 is an outcome of its own.
    The endpoint is a finite script of outcomes, one per request; when it
    runs out, a request fails as it does against an unreachable host. *)

From Stdlib Require Import List NArith ZArith Bool Lia String Ascii FunInd.
From Stdlib Require Import Decimal DecimalZ DecimalPos DecimalN.
From Stdlib Require DecimalFacts.
Import ListNotations.

Set Implicit Arguments.
Local Open Scope N_scope.

(** ** Python strings and values *)

(** A Python [str] is a sequence of code points. *)
Definition str := list N.

(** [u "abc"] is the Python literal ["abc"] (ASCII source text). *)
Definition u (s : string) : str :=
  List.map N_of_ascii (list_ascii_of_string s).

Definition str_eqb (a b : str) : bool :=
  if list_eq_dec N.eq_dec a b then true else false.

(** The objects the script handles: [None], [bool], [int], [str], [list]
    and [dict] with [str] keys.  A [dict] keeps insertion order, so it is
    an association list; its keys are unique when built by [dict_set]. *)
Unset Elimination Schemes.
Inductive value : Type :=
| VNone
| VBool (b : bool)
| VInt (z : Z)
| VStr (s : str)
| VList (l : list value)
| VDict (d : list (str * value)).
Set Elimination Schemes.

(** [d.get(k)] on the association list. *)
Fixpoint dict_get (d : list (str * value)) (k : str) : option value :=
  match d with
  | [] => None
  | (k', v) :: d' => if str_eqb k' k then Some v else dict_get d' k
  end.

(** [d[k] = v]: an existing key keeps its position, a new key goes last. *)
Fixpoint dict_set (d : list (str * value)) (k : str) (v : value)
  : list (str * value) :=
  match d with
  | [] => [(k, v)]
  | (k', v') :: d' =>
      if str_eqb k' k then (k', v) :: d' else (k', v') :: dict_set d' k v
  end.

(** [dict(pairs)]. *)
Definition dict_of_pairs (pairs : list (str * value)) : list (str * value) :=
  fold_left (fun d kv => dict_set d (fst kv) (snd kv)) pairs [].

(** Python truthiness, as tested by [if x:] and [while x:]. *)
Definition truthy (v : value) : bool :=
  match v with
  | VNone => false
  | VBool b => b
  | VInt z => negb (Z.eqb z 0)
  | VStr s => match s with [] => false | _ => true end
  | VList l => match l with [] => false | _ => true end
  | VDict d => match d with [] => false | _ => true end
  end.

(** ** The [json] module

    [json.dump(data, f, indent=4)] with its defaults ([ensure_ascii],
    separators [','] and [': ']) and [json.loads] with its defaults
    (strict mode), for values without floating-point numbers. *)

Module Json.

(** Lower-case hexadecimal digit of [d < 16]. *)
Definition hex_digit (d : N) : N :=
  if d <? 10 then 48 + d else 87 + d.

(** ['{0:04x}'.format(n)] for [n < 0x10000]. *)
Definition hex4 (n : N) : str :=
  [hex_digit ((n / 4096) mod 16); hex_digit ((n / 256) mod 16);
   hex_digit ((n / 16) mod 16); hex_digit (n mod 16)].

(** One character of [encode_basestring_ascii]: the [ESCAPE_DCT] entries,
    then [\uXXXX] for whatever lies outside [' '..'~'], with a surrogate
    pair above the basic plane. *)
Definition escape_char (c : N) : str :=
  if c =? 34 then [92; 34]
  else if c =? 92 then [92; 92]
  else if c =? 10 then [92; 110]
  else if c =? 13 then [92; 114]
  else if c =? 9 then [92; 116]
  else if c =? 12 then [92; 102]
  else if c =? 8 then [92; 98]
  else if (32 <=? c) && (c <=? 126) then [c]
  else if c <? 65536 then 92 :: 117 :: hex4 c
  else
    let n := c - 65536 in
    let s1 := N.lor 55296 (N.land (N.shiftr n 10) 1023) in
    let s2 := N.lor 56320 (N.land n 1023) in
    (92 :: 117 :: hex4 s1) ++ (92 :: 117 :: hex4 s2).

Definition encode_basestring_ascii (s : str) : str :=
  34 :: flat_map escape_char s ++ [34].

Fixpoint uint_digits (d : Decimal.uint) : str :=
  match d with
  | Nil => []
  | D0 d => 48 :: uint_digits d
  | D1 d => 49 :: uint_digits d
  | D2 d => 50 :: uint_digits d
  | D3 d => 51 :: uint_digits d
  | D4 d => 52 :: uint_digits d
  | D5 d => 53 :: uint_digits d
  | D6 d => 54 :: uint_digits d
  | D7 d => 55 :: uint_digits d
  | D8 d => 56 :: uint_digits d
  | D9 d => 57 :: uint_digits d
  end.

(** [int.__repr__]. *)
Definition int_repr (z : Z) : str :=
  match Z.to_int z with
  | Pos d => uint_digits d
  | Neg d => 45 :: uint_digits d
  end.

(** ['\n' + _indent * level] with [_indent = ' ' * 4]. *)
Definition newline_indent (level : nat) : str :=
  10 :: repeat 32 (4 * level).

(** [_iterencode] of the pure-Python encoder with [indent=4]: items are
    separated by [','] plus a newline and the indentation, keys from
    values by [': '], and empty containers print as [[]] and [{}]. *)
Fixpoint iterencode (v : value) (level : nat) : str :=
  match v with
  | VNone => u "null"
  | VBool true => u "true"
  | VBool false => u "false"
  | VInt z => int_repr z
  | VStr s => encode_basestring_ascii s
  | VList [] => u "[]"
  | VList (x :: xs) =>
      91 :: newline_indent (S level) ++ iterencode x (S level)
      ++ (fix rest (l : list value) : str :=
            match l with
            | [] => []
            | y :: l' =>
                44 :: newline_indent (S level) ++ iterencode y (S level)
                ++ rest l'
            end) xs
      ++ newline_indent level ++ [93]
  | VDict [] => u "{}"
  | VDict ((k, x) :: kxs) =>
      123 :: newline_indent (S level)
      ++ encode_basestring_ascii k ++ [58; 32] ++ iterencode x (S level)
      ++ (fix rest (l : list (str * value)) : str :=
            match l with
            | [] => []
            | (k', y) :: l' =>
                44 :: newline_indent (S level)
                ++ encode_basestring_ascii k' ++ [58; 32]
                ++ iterencode y (S level) ++ rest l'
            end) kxs
      ++ newline_indent level ++ [125]
  end.

(** The text [json.dump(data, f, indent=4)] writes to [f]. *)
Definition dumps (v : value) : str := iterencode v 0.

(** *** Decoding *)

Definition is_ws (c : N) : bool :=
  (c =? 32) || (c =? 9) || (c =? 10) || (c =? 13).

Fixpoint skip_ws (s : str) : str :=
  match s with
  | c :: s' => if is_ws c then skip_ws s' else s
  | [] => []
  end.

Definition unhex (c : N) : option N :=
  if (48 <=? c) && (c <=? 57) then Some (c - 48)
  else if (97 <=? c) && (c <=? 102) then Some (c - 87)
  else if (65 <=? c) && (c <=? 70) then Some (c - 55)
  else None.

Definition unhex4 (a b c d : N) : option N :=
  match unhex a, unhex b, unhex c, unhex d with
  | Some x, Some y, Some z, Some w => Some (x * 4096 + y * 256 + z * 16 + w)
  | _, _, _, _ => None
  end.

Definition is_high_surrogate (c : N) : bool := (55296 <=? c) && (c <=? 56319).
Definition is_low_surrogate (c : N) : bool := (56320 <=? c) && (c <=? 57343).

(** The one-letter escapes of [BACKSLASH]. *)
Definition unescape (e : N) : option N :=
  if e =? 34 then Some 34
  else if e =? 92 then Some 92
  else if e =? 47 then Some 47
  else if e =? 98 then Some 8
  else if e =? 102 then Some 12
  else if e =? 110 then Some 10
  else if e =? 114 then Some 13
  else if e =? 116 then Some 9
  else None.

Definition cons_char (c : N) (r : option (str * str)) : option (str * str) :=
  match r with
  | Some (s, rest) => Some (c :: s, rest)
  | None => None
  end.

(** [scanstring] in strict mode, entered after the opening quote: the
    decoded string and the text after the closing quote.  A [\uXXXX] high
    surrogate directly followed by a [\uXXXX] low surrogate is joined
    into one code point. *)
Fixpoint scanstring (s : str) : option (str * str) :=
  match s with
  | [] => None
  | c :: s1 =>
      if c =? 34 then Some ([], s1)
      else if c =? 92 then
        match s1 with
        | [] => None
        | e :: s2 =>
            if e =? 117 then
              match s2 with
              | h1 :: h2 :: h3 :: h4 :: s3 =>
                  match unhex4 h1 h2 h3 h4 with
                  | None => None
                  | Some uni =>
                      if is_high_surrogate uni then
                        match s3 with
                        | b1 :: b2 :: g1 :: g2 :: g3 :: g4 :: s4 =>
                            if (b1 =? 92) && (b2 =? 117) then
                              match unhex4 g1 g2 g3 g4 with
                              | None => None
                              | Some uni2 =>
                                  if is_low_surrogate uni2 then
                                    cons_char
                                      (65536 + N.lor (N.shiftl (uni - 55296) 10)
                                                     (uni2 - 56320))
                                      (scanstring s4)
                                  else cons_char uni (scanstring s3)
                              end
                            else cons_char uni (scanstring s3)
                        | _ => cons_char uni (scanstring s3)
                        end
                      else cons_char uni (scanstring s3)
                  end
              | _ => None
              end
            else
              match unescape e with
              | Some ch => cons_char ch (scanstring s2)
              | None => None
              end
        end
      else if c <? 32 then None
      else cons_char c (scanstring s1)
  end.

Definition is_digit (c : N) : bool := (48 <=? c) && (c <=? 57).

Definition digit_cons (c : N) (d : Decimal.uint) : Decimal.uint :=
  match c with
  | 48 => D0 d | 49 => D1 d | 50 => D2 d | 51 => D3 d | 52 => D4 d
  | 53 => D5 d | 54 => D6 d | 55 => D7 d | 56 => D8 d | _ => D9 d
  end.

(** The longest run of decimal digits at the head of [s]. *)
Fixpoint scan_digits (s : str) : Decimal.uint * str :=
  match s with
  | c :: s' =>
      if is_digit c then
        let (d, rest) := scan_digits s' in (digit_cons c d, rest)
      else (Nil, s)
  | [] => (Nil, [])
  end.

(** A fraction or an exponent after the integer part makes the literal a
    float (or, when it is cut short, leaves text no caller accepts). *)
Definition float_tail (s : str) : bool :=
  match s with
  | c :: _ => (c =? 46) || (c =? 101) || (c =? 69)
  | [] => false
  end.

(** [NUMBER_RE] without its fraction and exponent groups: an optional
    minus sign, then either a single zero or a digit run that does not
    start with zero. *)
Definition match_number (s : str) : option (value * str) :=
  match s with
  | [] => None
  | c0 :: r0 =>
      let neg := c0 =? 45 in
      let s1 := if neg then r0 else s in
      match s1 with
      | [] => None
      | c :: r =>
          if c =? 48 then
            if float_tail r then None else Some (VInt 0, r)
          else if is_digit c then
            let (d, rest) := scan_digits s1 in
            if float_tail rest then None
            else
              let z := Z.of_uint d in
              Some (VInt (if neg then Z.opp z else z), rest)
          else None
      end
  end.

(** [s] without its prefix [p], when it starts with [p]. *)
Fixpoint strip_prefix (p s : str) : option str :=
  match p with
  | [] => Some s
  | a :: p' =>
      match s with
      | b :: s' => if a =? b then strip_prefix p' s' else None
      | [] => None
      end
  end.

Definition literal (rest_of_word : string) (v : value) (s : str)
  : option (value * str) :=
  match strip_prefix (u rest_of_word) s with
  | Some rest => Some (v, rest)
  | None => None
  end.

(** [scan_once] with the array and object loops of the scanner.  The
    fuel bounds the nesting and the number of items; [loads] passes more
    than the length of the text, which no run can use up.  [None] stands
    for [JSONDecodeError] and for text that holds a float. *)
Fixpoint scan_once (fuel : nat) (s : str) : option (value * str) :=
  match fuel with
  | O => None
  | S fuel =>
      match s with
      | [] => None
      | c :: s1 =>
          if c =? 34 then
            match scanstring s1 with
            | Some (x, rest) => Some (VStr x, rest)
            | None => None
            end
          else if c =? 123 then
            match skip_ws s1 with
            | [] => None
            | c2 :: rest =>
                if c2 =? 125 then Some (VDict [], rest)
                else
                  match parse_members fuel (c2 :: rest) with
                  | Some (pairs, rest') =>
                      Some (VDict (dict_of_pairs pairs), rest')
                  | None => None
                  end
            end
          else if c =? 91 then
            match skip_ws s1 with
            | [] => None
            | c2 :: rest =>
                if c2 =? 93 then Some (VList [], rest)
                else
                  match parse_items fuel (c2 :: rest) with
                  | Some (items, rest') => Some (VList items, rest')
                  | None => None
                  end
            end
          else if c =? 110 then literal "ull" VNone s1
          else if c =? 116 then literal "rue" (VBool true) s1
          else if c =? 102 then literal "alse" (VBool false) s1
          else match_number s
      end
  end

with parse_items (fuel : nat) (s : str) : option (list value * str) :=
  match fuel with
  | O => None
  | S fuel =>
      match scan_once fuel s with
      | None => None
      | Some (v, r) =>
          match skip_ws r with
          | [] => None
          | c :: r1 =>
              if c =? 93 then Some ([v], r1)
              else if c =? 44 then
                match parse_items fuel (skip_ws r1) with
                | Some (vs, rest) => Some (v :: vs, rest)
                | None => None
                end
              else None
          end
      end
  end

with parse_members (fuel : nat) (s : str)
  : option (list (str * value) * str) :=
  match fuel with
  | O => None
  | S fuel =>
      match s with
      | [] => None
      | q :: s1 =>
          if q =? 34 then
            match scanstring s1 with
            | None => None
            | Some (k, r) =>
                match skip_ws r with
                | [] => None
                | c :: r1 =>
                    if c =? 58 then
                      match scan_once fuel (skip_ws r1) with
                      | None => None
                      | Some (v, r2) =>
                          match skip_ws r2 with
                          | [] => None
                          | c' :: r3 =>
                              if c' =? 125 then Some ([(k, v)], r3)
                              else if c' =? 44 then
                                match parse_members fuel (skip_ws r3) with
                                | Some (kvs, rest) => Some ((k, v) :: kvs, rest)
                                | None => None
                                end
                              else None
                          end
                      end
                    else None
                end
            end
          else None
      end
  end.

(** [json.loads]: leading whitespace, one value, trailing whitespace. *)
Definition loads (s : str) : option value :=
  match scan_once (S (List.length s)) (skip_ws s) with
  | Some (v, rest) =>
      match skip_ws rest with
      | [] => Some v
      | _ => None
      end
  | None => None
  end.

End Json.

(** ** Values that come out of [json.loads]

    Such a value has unique keys in every dict, and its strings hold valid
    code points with no high surrogate directly before a low one (the
    decoder joins such a pair into one code point). *)

Fixpoint str_native (s : str) : bool :=
  match s with
  | [] => true
  | c :: s' =>
      (c <? 1114112)
      && (if Json.is_high_surrogate c then
            match s' with
            | c' :: _ => negb (Json.is_low_surrogate c')
            | [] => true
            end
          else true)
      && str_native s'
  end.

Fixpoint distinct (keys : list str) : bool :=
  match keys with
  | [] => true
  | k :: keys' => negb (existsb (str_eqb k) keys') && distinct keys'
  end.

Fixpoint native (v : value) : bool :=
  match v with
  | VStr s => str_native s
  | VList l => forallb native l
  | VDict d =>
      distinct (List.map fst d)
      && forallb (fun kv => match kv with
                            | (k, x) => str_native k && native x
                            end) d
  | _ => true
  end.

(** A bound on the fuel [Json.scan_once] needs for the text of [v]. *)
Fixpoint value_size (v : value) : nat :=
  match v with
  | VList l => S (fold_right (fun x n => S (value_size x + n)) O l)
  | VDict d =>
      S (fold_right (fun kv n => match kv with
                                 | (_, x) => S (value_size x + n)
                                 end) O d)
  | _ => 1%nat
  end.

(** ** The world the script runs in *)

(** Exceptions the modelled operations raise. *)
Inductive exn : Type :=
| KeyError (k : str)
| TypeError
| AttributeError
| NameError (name : str)
| FileNotFoundError
| EOFError
| ConnectionError
| JSONDecodeError
| UnicodeDecodeError
| Exception (msg : str)
| OutOfFuel.

(** What the endpoint does with one [requests.post]: no answer at all, or
    a response with its status code and its body.  The script reads a
    body in one of two ways, by the status: [response.content.decode()]
    on a status other than 200, [response.json()] on status 200.
    [Response] is a response whose body is UTF-8, with the text the
    script gets from it either way.  [Undecodable] is a response whose
    body is no valid UTF-8: [response.content.decode()] raises on it,
    and its text is the one [response.json()] parses, which [requests]
    gets by decoding the bytes leniently with the charset it detects. *)
Inductive net_outcome : Type :=
| Unreachable
| Response (status_code : Z) (text : str)
| Undecodable (status_code : Z) (text : str).

(** A response object as the script uses it: [status_code], the outcome
    of [content.decode()] (no text when the bytes are no UTF-8) and the
    text [json()] parses. *)
Record response : Type := {
  resp_status_code : Z;
  resp_decoded : option str;
  resp_text : str
}.

Record request : Type := {
  req_url : str;
  req_json : value;
  req_headers : list (str * str)
}.

(** Console output.  [str()] of a list or a dict is kept symbolic. *)
Inductive fragment : Type :=
| Text (s : str)
| Repr (v : value).

Inductive out_event : Type :=
| Print (line : list fragment)
| Prompt (s : str).

Record date : Type := { year : N; month : N; day : N }.

Record world : Type := {
  api_token : str;
  net : list net_outcome;
  sent : list request;
  files : list (str * str);
  stdin : list str;
  stdout : list out_event;
  now : date
}.

Definition set_net (w : world) (n : list net_outcome) : world :=
  {| api_token := api_token w; net := n; sent := sent w; files := files w;
     stdin := stdin w; stdout := stdout w; now := now w |}.
Definition set_sent (w : world) (l : list request) : world :=
  {| api_token := api_token w; net := net w; sent := l; files := files w;
     stdin := stdin w; stdout := stdout w; now := now w |}.
Definition set_files (w : world) (f : list (str * str)) : world :=
  {| api_token := api_token w; net := net w; sent := sent w; files := f;
     stdin := stdin w; stdout := stdout w; now := now w |}.
Definition set_stdin (w : world) (l : list str) : world :=
  {| api_token := api_token w; net := net w; sent := sent w; files := files w;
     stdin := l; stdout := stdout w; now := now w |}.
Definition set_stdout (w : world) (l : list out_event) : world :=
  {| api_token := api_token w; net := net w; sent := sent w; files := files w;
     stdin := stdin w; stdout := l; now := now w |}.

(** ** A state-and-exception monad *)

Inductive result (A : Type) : Type :=
| Ok (a : A)
| Raise (e : exn).
Arguments Raise {A} e.

Definition M (A : Type) : Type := world -> result A * world.

Definition ret {A} (a : A) : M A := fun w => (Ok a, w).
Definition raise {A} (e : exn) : M A := fun w => (Raise e, w).
Definition bind {A B} (c : M A) (k : A -> M B) : M B :=
  fun w =>
    match c w with
    | (Ok a, w') => k a w'
    | (Raise e, w') => (Raise e, w')
    end.
Definition lift {A} (r : result A) : M A := fun w => (r, w).

Declare Scope py_scope.
Delimit Scope py_scope with py.
Notation "x <- c ;; k" := (bind c (fun x => k))
  (at level 61, c at next level, right associativity) : py_scope.
Notation "c ;; k" := (bind c (fun _ => k))
  (at level 61, right associativity) : py_scope.
Local Open Scope py_scope.

(** ** Python operations on values *)

(** [o[k]] for a string key [k]. *)
Definition subscript (o : value) (k : str) : result value :=
  match o with
  | VDict d =>
      match dict_get d k with
      | Some v => Ok v
      | None => Raise (KeyError k)
      end
  | _ => Raise TypeError
  end.

(** [o.get(k, default)]: only a [dict] has the method. *)
Definition get (o : value) (k : str) (default : value) : result value :=
  match o with
  | VDict d =>
      match dict_get d k with
      | Some v => Ok v
      | None => Ok default
      end
  | _ => Raise AttributeError
  end.

(** [a + b] with [a] a [str]. *)
Definition str_add (a : str) (b : value) : result value :=
  match b with
  | VStr s => Ok (VStr (a ++ s))
  | _ => Raise TypeError
  end.

(** The items [list.extend(o)] and [for x in o] draw from [o]. *)
Definition iterate (o : value) : result (list value) :=
  match o with
  | VList l => Ok l
  | VDict d => Ok (List.map (fun kv => VStr (fst kv)) d)
  | VStr s => Ok (List.map (fun c => VStr [c]) s)
  | _ => Raise TypeError
  end.

(** [str(v)] as it appears in printed text. *)
Definition format (v : value) : fragment :=
  match v with
  | VNone => Text (u "None")
  | VBool true => Text (u "True")
  | VBool false => Text (u "False")
  | VInt z => Text (Json.int_repr z)
  | VStr s => Text s
  | _ => Repr v
  end.

(** [print(a, b, ...)]: the arguments separated by a space. *)
Definition print (line : list fragment) : M value :=
  fun w => (Ok VNone, set_stdout w (stdout w ++ [Print line])).

(** [input(prompt)]. *)
Definition input (prompt : str) : M str :=
  fun w =>
    let w1 := set_stdout w (stdout w ++ [Prompt prompt]) in
    match stdin w with
    | [] => (Raise EOFError, w1)
    | l :: rest => (Ok l, set_stdin w1 rest)
    end.

(** [for x in items: body(x)]. *)
Fixpoint for_each (items : list value) (body : value -> M value) : M unit :=
  match items with
  | [] => ret tt
  | x :: rest => body x ;; for_each rest body
  end.

(** [while cond: body].  Every loop of the script starts its body with a
    request, and the world answers finitely many, so a budget of one more
    than the answers left is never used up ([OutOfFuel] marks that dead
    branch; it is no Python exception). *)
Fixpoint while_fuel {S : Type} (fuel : nat) (cond : S -> bool)
         (body : S -> M S) (s : S) : M S :=
  if cond s then
    match fuel with
    | O => raise OutOfFuel
    | Datatypes.S fuel' => s' <- body s ;; while_fuel fuel' cond body s'
    end
  else ret s.

Definition while_ {S : Type} (cond : S -> bool) (body : S -> M S) (s : S)
  : M S :=
  fun w => while_fuel (Datatypes.S (List.length (net w))) cond body s w.

(** ** The script: constants *)

Definition OPSLEVEL_ENDPOINT : str := u "https://app.opslevel.com/graphql".

Definition OL_DOMAINS_QUERY : str := u "
query get_all_domains($endCursor: String) {
  account {
    domains(after: $endCursor) {
      nodes {
        id
        name
        description
        aliases
        managedAliases
        owner {
          ... on Team {
            id
            name
            alias
          }
        }
        tags {
          nodes {
            id
            key
            value
          }
        }
        childSystems {
          nodes {
            id
            name
            aliases
            managedAliases
          }
        }
        note
      }
      pageInfo {
        endCursor
        hasNextPage
      }
      totalCount
    }
  }
}
".

Definition OL_SYSTEMS_QUERY : str := u "
query get_all_systems($endCursor: String) {
  account {
    systems(after: $endCursor) {
      nodes {
        id
        name
        description
        aliases
        managedAliases
        owner {
          ... on Team {
            id
            name
            alias
          }
        }
        tags {
          nodes {
            id
            key
            value
          }
        }
        parent {
          id
          name
        }
        childServices {
          nodes {
            id
            name
          }
        }
        childInfrastructureResources {
          nodes {
            id
            name
          }
        }
        note
      }
      pageInfo {
        endCursor
        hasNextPage
      }
    }
  }
}
".

Definition OL_SYSTEM_MUTATION : str := u "
mutation create_system($alias:String, $description:String, $ownerId: ID, $note:String){
  systemCreate(input:{name:$alias, description:$description, ownerId: $ownerId, note:$note}){
    system{
      id
      name
      aliases
      description
      owner{
        ... on Team{
          id
          name
        }
      }
    }
  }
}
".

Definition OL_SERVICE_MUTATION : str := u "
mutation service_create($alias: String!, $description: String, $ownerInput: IdentifierInput) {
  serviceCreate(
    input: {name: $alias, description: $description, ownerInput: $ownerInput}
  ) {
    service {
      id
      name
      description
      aliases
      htmlUrl
      owner {
        alias
      }
      tier {
        alias
      }
      tags {
        totalCount
        pageInfo {
          hasNextPage
          endCursor
        }
        nodes {
          id
          key
          value
        }
      }
    }
    errors {
      message
      path
    }
  }
}
".

Definition OL_SYSTEMS_SERVICE_ASSIGN_MUTATION : str := u "
mutation systemupdate($system: IdentifierInput!, $childServices:[IdentifierInput!]!){
  systemChildAssign(system: $system, childServices: $childServices){
    system{
      id
      name
      aliases
      childServices{
        nodes{
          id
          name
        }
      }
    }
    errors{
      message
      path
    }
  }
}
".

(** ** The script: functions *)

(** [requests.post(url, json=data, headers=headers)]: the call is logged,
    and the endpoint's next outcome is consumed. *)
Definition requests_post (url : str) (json : value)
           (headers : list (str * str)) : M response :=
  fun w =>
    let w1 := set_sent w (sent w ++ [{| req_url := url; req_json := json;
                                        req_headers := headers |}]) in
    match net w with
    | [] => (Raise ConnectionError, w1)
    | Unreachable :: rest => (Raise ConnectionError, set_net w1 rest)
    | Response status_code text :: rest =>
        (Ok {| resp_status_code := status_code; resp_decoded := Some text;
               resp_text := text |}, set_net w1 rest)
    | Undecodable status_code text :: rest =>
        (Ok {| resp_status_code := status_code; resp_decoded := None;
               resp_text := text |}, set_net w1 rest)
    end.

(** [response.content.decode()]: strict UTF-8. *)
Definition content_decode (r : response) : result str :=
  match resp_decoded r with
  | Some text => Ok text
  | None => Raise UnicodeDecodeError
  end.

(** [OPSLEVEL_API_TOKEN], read from the environment when the module
    loads (a run starts only if the variable is set). *)
Definition OPSLEVEL_API_TOKEN : M str := fun w => (Ok (api_token w), w).

(** [response.json()]: a body [Json.loads] cannot read raises (the
    decoder of this model reads no fraction and no exponent, see the
    head of the file). *)
Definition response_json (text : str) : result value :=
  match Json.loads text with
  | Some v => Ok v
  | None => Raise JSONDecodeError
  end.

(** Every caller passes [variables]; the default [None] is not used. *)
Definition opslevel_graphql_query (query : str) (variables : value)
  : M value :=
  token <- OPSLEVEL_API_TOKEN ;;
  let headers :=
    [(u "Content-Type", u "application/json");
     (u "Authorization", u "Bearer " ++ token)] in
  let data := VDict [(u "query", VStr query); (u "variables", variables)] in
  response <- requests_post OPSLEVEL_ENDPOINT data headers ;;
  if negb (Z.eqb (resp_status_code response) 200) then
    body <- lift (content_decode response) ;;
    raise (Exception (u "OpsLevel request failed: " ++ body))
  else lift (response_json (resp_text response)).

(** [open(filename, 'w')] followed by the writes of [json.dump]. *)
Fixpoint fs_write (fs : list (str * str)) (path content : str)
  : list (str * str) :=
  match fs with
  | [] => [(path, content)]
  | (p, c) :: fs' =>
      if str_eqb p path then (p, content) :: fs'
      else (p, c) :: fs_write fs' path content
  end.

Fixpoint fs_read (fs : list (str * str)) (path : str) : option str :=
  match fs with
  | [] => None
  | (p, c) :: fs' => if str_eqb p path then Some c else fs_read fs' path
  end.

Definition save_to_file (filename : str) (data : value) : M value :=
  fun w =>
    (Ok VNone,
     set_files w (fs_write (files w) filename (Json.dumps data))).

Definition zero_pad (width : nat) (n : N) : str :=
  let d := Json.uint_digits (N.to_uint n) in
  repeat 48 (width - List.length d) ++ d.

(** [datetime.now().strftime('%Y%m%d')]. *)
Definition date_suffix_now : M str :=
  fun w =>
    (Ok (zero_pad 4 (year (now w)) ++ zero_pad 2 (month (now w))
         ++ zero_pad 2 (day (now w))), w).

(** The variables a pagination loop carries from one round to the next. *)
Record loop_state : Type := {
  data_acc : list value;
  end_cursor : value;
  has_next_page : value
}.

Definition loop_init : loop_state :=
  {| data_acc := []; end_cursor := VNone; has_next_page := VBool true |}.

Definition fetch_and_save_systems : M value :=
  st <- while_ (fun st => truthy (has_next_page st))
          (fun st =>
             let variables := VDict [(u "endCursor", end_cursor st)] in
             result <- opslevel_graphql_query OL_SYSTEMS_QUERY variables ;;
             d <- lift (subscript result (u "data")) ;;
             a <- lift (subscript d (u "account")) ;;
             c <- lift (subscript a (u "systems")) ;;
             systems <- lift (subscript c (u "nodes")) ;;
             items <- lift (iterate systems) ;;
             d <- lift (subscript result (u "data")) ;;
             a <- lift (subscript d (u "account")) ;;
             c <- lift (subscript a (u "systems")) ;;
             page_info <- lift (subscript c (u "pageInfo")) ;;
             cur <- lift (subscript page_info (u "endCursor")) ;;
             more <- lift (subscript page_info (u "hasNextPage")) ;;
             ret {| data_acc := data_acc st ++ items; end_cursor := cur;
                    has_next_page := more |})
          loop_init ;;
  date_suffix <- date_suffix_now ;;
  let filename := u "systems_data_" ++ date_suffix ++ u ".json" in
  save_to_file filename (VList (data_acc st)) ;;
  print [Text (u "Systems data saved to " ++ filename)] ;;
  ret VNone.

Definition create_service (system : value) : M value :=
  owner <- lift (get system (u "owner") (VStr [])) ;;
  ownerInput <-
    (if truthy owner then
       o <- lift (subscript system (u "owner")) ;;
       i <- lift (subscript o (u "id")) ;;
       ret (VDict [(u "id", i)])
     else ret VNone) ;;
  name <- lift (subscript system (u "name")) ;;
  alias <- lift (str_add (u "SEARCH-") name) ;;
  description <- lift (get system (u "description") (VStr [])) ;;
  let variables :=
    VDict [(u "alias", alias); (u "description", description);
           (u "ownerInput", ownerInput)] in
  opslevel_graphql_query OL_SERVICE_MUTATION variables ;;
  ret VNone.

Definition convert_systems_to_services : M value :=
  while_ (fun st => truthy (has_next_page st))
    (fun st =>
       let variables := VDict [(u "endCursor", end_cursor st)] in
       result <- opslevel_graphql_query OL_SYSTEMS_QUERY variables ;;
       d <- lift (subscript result (u "data")) ;;
       a <- lift (subscript d (u "account")) ;;
       c <- lift (subscript a (u "systems")) ;;
       systems <- lift (subscript c (u "nodes")) ;;
       items <- lift (iterate systems) ;;
       for_each items create_service ;;
       d <- lift (subscript result (u "data")) ;;
       a <- lift (subscript d (u "account")) ;;
       c <- lift (subscript a (u "systems")) ;;
       page_info <- lift (subscript c (u "pageInfo")) ;;
       cur <- lift (subscript page_info (u "endCursor")) ;;
       more <- lift (subscript page_info (u "hasNextPage")) ;;
       ret {| data_acc := []; end_cursor := cur; has_next_page := more |})
    loop_init ;;
  ret VNone.

Definition fetch_and_save_domains : M value :=
  st <- while_ (fun st => truthy (has_next_page st))
          (fun st =>
             let variables := VDict [(u "endCursor", end_cursor st)] in
             result <- opslevel_graphql_query OL_DOMAINS_QUERY variables ;;
             d <- lift (subscript result (u "data")) ;;
             a <- lift (subscript d (u "account")) ;;
             c <- lift (subscript a (u "domains")) ;;
             domains <- lift (subscript c (u "nodes")) ;;
             items <- lift (iterate domains) ;;
             d <- lift (subscript result (u "data")) ;;
             a <- lift (subscript d (u "account")) ;;
             c <- lift (subscript a (u "domains")) ;;
             page_info <- lift (subscript c (u "pageInfo")) ;;
             cur <- lift (subscript page_info (u "endCursor")) ;;
             more <- lift (subscript page_info (u "hasNextPage")) ;;
             ret {| data_acc := data_acc st ++ items; end_cursor := cur;
                    has_next_page := more |})
          loop_init ;;
  date_suffix <- date_suffix_now ;;
  let filename := u "domains_data_" ++ date_suffix ++ u ".json" in
  save_to_file filename (VList (data_acc st)) ;;
  print [Text (u "Domains data saved to " ++ filename)] ;;
  ret VNone.

(** The function ends without a [return]: its value is [None]. *)
Definition convert_domain_to_system (domain : value) : M value :=
  owner <- lift (get domain (u "owner") (VStr [])) ;;
  owner_id <-
    (if truthy owner then
       o <- lift (subscript domain (u "owner")) ;;
       lift (subscript o (u "id"))
     else ret VNone) ;;
  name <- lift (subscript domain (u "name")) ;;
  description <- lift (get domain (u "description") (VStr [])) ;;
  note <- lift (get domain (u "note") (VStr [])) ;;
  let variables :=
    VDict [(u "alias", name); (u "description", description);
           (u "ownerId", owner_id); (u "note", note)] in
  result <- opslevel_graphql_query OL_SYSTEM_MUTATION variables ;;
  print [Text (u "RESULT,"); Text (u " "); format result] ;;
  d <- lift (subscript result (u "data")) ;;
  c <- lift (subscript d (u "systemCreate")) ;;
  s <- lift (subscript c (u "system")) ;;
  system_id <- lift (subscript s (u "id")) ;;
  name' <- lift (subscript domain (u "name")) ;;
  print [Text (u "Domain "); format name';
         Text (u " converted to system with ID "); format system_id] ;;
  ret VNone.

Definition convert_domains_to_systems : M value :=
  while_ (fun st => truthy (has_next_page st))
    (fun st =>
       let variables := VDict [(u "endCursor", end_cursor st)] in
       result <- opslevel_graphql_query OL_DOMAINS_QUERY variables ;;
       d <- lift (subscript result (u "data")) ;;
       a <- lift (subscript d (u "account")) ;;
       c <- lift (subscript a (u "domains")) ;;
       domains <- lift (subscript c (u "nodes")) ;;
       items <- lift (iterate domains) ;;
       for_each items convert_domain_to_system ;;
       d <- lift (subscript result (u "data")) ;;
       a <- lift (subscript d (u "account")) ;;
       c <- lift (subscript a (u "domains")) ;;
       page_info <- lift (subscript c (u "pageInfo")) ;;
       cur <- lift (subscript page_info (u "endCursor")) ;;
       more <- lift (subscript page_info (u "hasNextPage")) ;;
       ret {| data_acc := []; end_cursor := cur; has_next_page := more |})
    loop_init ;;
  ret VNone.

(** Run [c] and hand its outcome, normal or exceptional, to the caller:
    the [try:] part of a [try]/[except] statement. *)
Definition try_ {A} (c : M A) : M (result A) :=
  fun w => let (r, w') := c w in (Ok r, w').

Section Namespace.

(** [update_systems_with_services] calls two names the file never
    binds.  [globals] says what such a name is bound to when the call
    runs; [None] is an unbound name. *)
Variable globals : str -> option (value -> M value).

Definition call_global (name : str) (arg : value) : M value :=
  match globals name with
  | Some f => f arg
  | None => raise (NameError name)
  end.

Definition update_systems_with_services_in : M value :=
  domains_data_file <-
    input (u "Please enter the path to the domains_data.json file: ") ;;
  r <- try_ (call_global (u "load_domains_from_file")
                         (VStr domains_data_file)) ;;
  match r with
  | Raise FileNotFoundError =>
      print [Text (u "File " ++ domains_data_file
                   ++ u " not found. Please try again.")] ;;
      ret VNone
  | Raise e => raise e
  | Ok domains_data =>
      while_ (fun st => truthy (has_next_page st))
        (fun st =>
           let variables := VDict [(u "endCursor", end_cursor st)] in
           result <- opslevel_graphql_query OL_SYSTEMS_QUERY variables ;;
           d <- lift (subscript result (u "data")) ;;
           a <- lift (subscript d (u "account")) ;;
           c <- lift (subscript a (u "systems")) ;;
           systems <- lift (subscript c (u "nodes")) ;;
           items <- lift (iterate systems) ;;
           for_each items (call_global (u "update_system_with_service")) ;;
           d <- lift (subscript result (u "data")) ;;
           a <- lift (subscript d (u "account")) ;;
           c <- lift (subscript a (u "systems")) ;;
           page_info <- lift (subscript c (u "pageInfo")) ;;
           cur <- lift (subscript page_info (u "endCursor")) ;;
           more <- lift (subscript page_info (u "hasNextPage")) ;;
           ret {| data_acc := []; end_cursor := cur;
                  has_next_page := more |})
        loop_init ;;
      ret VNone
  end.

End Namespace.

(** The names bound at module level, in source order: the imports, the
    constants and the [def]s.  Neither [load_domains_from_file] nor
    [update_system_with_service] is among them. *)
Definition module_names : list str :=
  List.map u
    ["os"; "requests"; "json"; "datetime"; "OPSLEVEL_API_TOKEN";
     "OPSLEVEL_ENDPOINT"; "OL_DOMAINS_QUERY"; "OL_SYSTEMS_QUERY";
     "OL_SYSTEM_MUTATION"; "OL_SERVICE_MUTATION";
     "OL_SYSTEMS_SERVICE_ASSIGN_MUTATION"; "opslevel_graphql_query";
     "save_to_file"; "fetch_and_save_systems"; "create_service";
     "convert_systems_to_services"; "fetch_and_save_domains";
     "convert_domain_to_system"; "convert_domains_to_systems";
     "update_systems_with_services"; "main"]%string.

(** What a call [name(arg)] finds in the module's namespace when it runs:
    the one-argument functions the file defines, and nothing for any
    other name.  (The calls the file makes to names it does bind are
    modelled directly, not through this table.) *)
Definition module_globals (name : str) : option (value -> M value) :=
  if negb (existsb (str_eqb name) module_names) then None
  else if str_eqb name (u "create_service") then Some create_service
  else if str_eqb name (u "convert_domain_to_system")
       then Some convert_domain_to_system
  else None.

Definition update_systems_with_services : M value :=
  update_systems_with_services_in module_globals.

Definition main : M value :=
  print [Text (u "Select an option:")] ;;
  print [Text (u "1. Fetch systems and write to a file.")] ;;
  print [Text (u "2. Convert systems to services.")] ;;
  print [Text (u "3. Fetch domains and write to a file.")] ;;
  print [Text (u "4. Convert domains to systems.")] ;;
  choice <- input (u "Enter your choice (1/2/3/4): ") ;;
  if str_eqb choice (u "1") then fetch_and_save_systems ;; ret VNone
  else if str_eqb choice (u "2") then convert_systems_to_services ;; ret VNone
  else if str_eqb choice (u "3") then fetch_and_save_domains ;; ret VNone
  else if str_eqb choice (u "4") then convert_domains_to_systems ;; ret VNone
  else if str_eqb choice (u "5") then update_systems_with_services ;; ret VNone
  else
    print [Text (u "Invalid choice. Please enter 1, 2, 3, 4, or 5.")] ;;
    ret VNone.

(** ** Vocabulary of the specification *)

(** The value found by following [path] through nested dicts. *)
Fixpoint lookup_path (v : value) (path : list str) : option value :=
  match path with
  | [] => Some v
  | k :: path' =>
      match v with
      | VDict d =>
          match dict_get d k with
          | Some v' => lookup_path v' path'
          | None => None
          end
      | _ => None
      end
  end.

(** A success status in the sense of HTTP: the 2xx class. *)
Definition http_success (status_code : Z) : bool :=
  (200 <=? status_code)%Z && (status_code <? 300)%Z.

(** The request [opslevel_graphql_query query variables] posts. *)
Definition graphql_request (token query : str) (variables : value) : request :=
  {| req_url := OPSLEVEL_ENDPOINT;
     req_json := VDict [(u "query", VStr query); (u "variables", variables)];
     req_headers := [(u "Content-Type", u "application/json");
                     (u "Authorization", u "Bearer " ++ token)] |}.

(** ASCII text in which the apostrophe stands for the double quote, to
    write JSON examples. *)
Definition jtext (s : string) : str :=
  List.map (fun c => if c =? 39 then 34 else c) (u s).

(** A world for examples: nothing sent, written or printed yet. *)
Definition example_world (answers : list net_outcome) (lines : list str)
  : world :=
  {| api_token := u "secret"; net := answers; sent := []; files := [];
     stdin := lines; stdout := [];
     now := {| year := 2024; month := 3; day := 7 |} |}.

(** The path of the new identifier in the response of the creation
    mutation. *)
Definition system_id_path : list str :=
  [u "data"; u "systemCreate"; u "system"; u "id"].

(** The description, or the note, a record carries over: the stored value,
    or the empty string for a record without the key. *)
Definition carried (d : list (str * value)) (k : str) : value :=
  match dict_get d k with
  | Some v => v
  | None => VStr []
  end.

(** The domain of the specification's example and a response naming the
    created system. *)
Definition payments_domain : value :=
  VDict [(u "name", VStr (u "Payments")); (u "description", VStr (u "d"));
         (u "owner", VDict [(u "id", VStr (u "T1"))]);
         (u "note", VStr (u "n"))].

Definition system_created_body : str :=
  jtext ("{'data': {'systemCreate': "
         ++ "{'system': {'id': 'S1', 'name': 'Payments'}}}}")%string.

(** The owner of a record as the specification sees it: absent (no key,
    or [None]) or present with an identifier; [None] for anything else. *)
Definition owner_id_of (d : list (str * value)) : option (option value) :=
  match dict_get d (u "owner") with
  | None => Some None
  | Some VNone => Some None
  | Some (VDict o) =>
      match dict_get o (u "id") with
      | Some i => Some (Some i)
      | None => None
      end
  | Some _ => None
  end.

(** The [ownerInput] variable for such an owner. *)
Definition owner_input (owner : option value) : value :=
  match owner with
  | Some i => VDict [(u "id", i)]
  | None => VNone
  end.

(** A falsy owner: the key is missing, or its value tests false. *)
Definition owner_falsy (d : list (str * value)) : bool :=
  match dict_get d (u "owner") with
  | None => true
  | Some o => negb (truthy o)
  end.

Definition checkout_system : value := VDict [(u "name", VStr (u "Checkout"))].

(** A computation that leaves one component of the world as it found it,
    whether it returns or raises. *)
Definition preserves {X A : Type} (field : world -> X) (c : M A) : Prop :=
  forall w, field (snd (c w)) = field w.

(** The value the converters compute for the owner of a record: [None]
    (the Python value) for a falsy owner, the owner's [id] for a dict that
    has one; no value when the lookup of the [id] fails. *)
Definition owner_variable (d : list (str * value)) : option value :=
  match dict_get d (u "owner") with
  | None => Some VNone
  | Some o =>
      if truthy o then
        match o with
        | VDict od => dict_get od (u "id")
        | _ => None
        end
      else Some VNone
  end.

(** A response of the creation mutation that reports validation errors
    in place of a created system. *)
Definition validation_error_body : str :=
  jtext ("{'data': {'systemCreate': null}, "
         ++ "'errors': [{'message': 'Name taken'}]}")%string.

(** The choices the menu defines. *)
Definition menu_choices : list str :=
  List.map u ["1"; "2"; "3"; "4"; "5"]%string.

(** What [main] prints before it reads the choice. *)
Definition menu_output : list out_event :=
  [Print [Text (u "Select an option:")];
   Print [Text (u "1. Fetch systems and write to a file.")];
   Print [Text (u "2. Convert systems to services.")];
   Print [Text (u "3. Fetch domains and write to a file.")];
   Print [Text (u "4. Convert domains to systems.")];
   Prompt (u "Enter your choice (1/2/3/4): ")].

(** A world in which the reconciliation option is chosen and the path
    typed names no existing file. *)
Definition missing_snapshot_world : world :=
  example_world [] [u "5"; u "domains_data_20240307.json"].

(** A loader that finds no file, as [open] would report it. *)
Definition loader_file_not_found (name : str) : option (value -> M value) :=
  if str_eqb name (u "load_domains_from_file")
  then Some (fun _ => raise FileNotFoundError)
  else None.

(** One page of systems in the shape the queries ask for. *)
Definition page_body (kind : string) (nodes : string) (cursor : string)
           (more : string) : str :=
  jtext ("{'data': {'account': {'" ++ kind ++ "': {'nodes': [" ++ nodes
         ++ "], 'pageInfo': {'endCursor': " ++ cursor
         ++ ", 'hasNextPage': " ++ more ++ "}}}}}")%string.

(** A run whose second page fails, over an older snapshot of the day. *)
Definition failing_second_page_world : world :=
  set_files
    (example_world
       [Response 200 (page_body "systems" "{'name': 'A'}" "'c1'" "true");
        Response 502 (u "Bad Gateway")] [])
    [(u "systems_data_20240307.json", u "[]")].

(** A page as the specification describes it. *)
Record page : Type := {
  nodes : list value;
  endCursor : value;
  hasNextPage : bool
}.

(** The response object [r] carries page [p] of the entities of [kind]. *)
Definition is_page (kind : str) (r : value) (p : page) : Prop :=
  lookup_path r [u "data"; u "account"; kind; u "nodes"]
  = Some (VList (nodes p)) /\
  lookup_path r [u "data"; u "account"; kind; u "pageInfo"; u "endCursor"]
  = Some (endCursor p) /\
  lookup_path r [u "data"; u "account"; kind; u "pageInfo"; u "hasNextPage"]
  = Some (VBool (hasNextPage p)).

(** The endpoint answers with status 200 and a body that parses to a
    response carrying [p]. *)
Definition serves (kind : str) (o : net_outcome) (p : page) : Prop :=
  exists text r,
    o = Response 200 text /\ Json.loads text = Some r /\ is_page kind r p.

(** The request of one round of pagination. *)
Definition page_request (token query : str) (cursor : value) : request :=
  graphql_request token query (VDict [(u "endCursor", cursor)]).

(** One round of the loops of [fetch_and_save_systems] and
    [fetch_and_save_domains], which differ in the query and in the key of
    the entity kind only. *)
Definition fetch_page (query kind : str) (st : loop_state) : M loop_state :=
  let variables := VDict [(u "endCursor", end_cursor st)] in
  result <- opslevel_graphql_query query variables ;;
  d <- lift (subscript result (u "data")) ;;
  a <- lift (subscript d (u "account")) ;;
  c <- lift (subscript a kind) ;;
  entities <- lift (subscript c (u "nodes")) ;;
  items <- lift (iterate entities) ;;
  d <- lift (subscript result (u "data")) ;;
  a <- lift (subscript d (u "account")) ;;
  c <- lift (subscript a kind) ;;
  page_info <- lift (subscript c (u "pageInfo")) ;;
  cur <- lift (subscript page_info (u "endCursor")) ;;
  more <- lift (subscript page_info (u "hasNextPage")) ;;
  ret {| data_acc := data_acc st ++ items; end_cursor := cur;
         has_next_page := more |}.

(** The name of a snapshot file. *)
Definition snapshot_name (prefix : str) (today : date) : str :=
  prefix ++ (zero_pad 4 (year today) ++ zero_pad 2 (month today)
             ++ zero_pad 2 (day today)) ++ u ".json".

(** The world after a snapshot run that fetched [pages]. *)
Definition after_snapshot (w : world) (query prefix message : str)
           (rest : list net_outcome) (init : list page) (last : page) : world :=
  set_stdout
    (set_files
       (set_net
          (set_sent w
             (sent w ++ List.map (page_request (api_token w) query)
                                 (VNone :: List.map endCursor init)))
          rest)
       (fs_write (files w) (snapshot_name prefix (now w))
          (Json.dumps (VList (List.concat (List.map nodes (init ++ [last])))))))
    (stdout w ++ [Print [Text (message ++ snapshot_name prefix (now w))]]).

(** The stub transport of the specification: three pages of sizes 2, 2
    and 1. *)
Definition first_two_pages : list page :=
  [{| nodes := [VDict [(u "name", VStr (u "A"))];
                VDict [(u "name", VStr (u "B"))]];
      endCursor := VStr (u "c1"); hasNextPage := true |};
   {| nodes := [VDict [(u "name", VStr (u "C"))];
                VDict [(u "name", VStr (u "D"))]];
      endCursor := VStr (u "c2"); hasNextPage := true |}].

Definition third_page : page :=
  {| nodes := [VDict [(u "name", VStr (u "E"))]];
     endCursor := VNone; hasNextPage := false |}.

Definition three_answers (kind : string) : list net_outcome :=
  [Response 200 (page_body kind "{'name': 'A'}, {'name': 'B'}" "'c1'" "true");
   Response 200 (page_body kind "{'name': 'C'}, {'name': 'D'}" "'c2'" "true");
   Response 200 (page_body kind "{'name': 'E'}" "null" "false")].


(** ** Notions used in the proofs about the codec *)

(** The text [t] does not start with the [\uXXXX] escape of a low
    surrogate. *)
Definition no_low_escape_ahead (t : str) : Prop :=
  forall g1 g2 g3 g4 t',
    t = 92 :: 117 :: g1 :: g2 :: g3 :: g4 :: t' ->
    exists uni2,
      Json.unhex4 g1 g2 g3 g4 = Some uni2 /\
      Json.is_low_surrogate uni2 = false.

(** The text after an integer literal does not go on with a digit, a
    fraction or an exponent. *)
Definition ends_number (rest : str) : bool :=
  match rest with
  | [] => true
  | c :: _ => negb (Json.is_digit c) && negb (Json.float_tail rest)
  end.

(** How [escape_char] sorts the code points. *)
Inductive escape_class (c : N) : str -> Prop :=
| EscShort e : Json.unescape e = Some c -> escape_class c [92; e]
| EscLiteral : c <> 34 -> c <> 92 -> 32 <= c -> c <= 126 ->
               escape_class c [c]
| EscU : c < 65536 -> (c < 32 \/ 126 < c) ->
         escape_class c (92 :: 117 :: Json.hex4 c)
| EscPair : 65536 <= c ->
            escape_class c
              ((92 :: 117 :: Json.hex4 (55296 + (c - 65536) / 1024))
               ++ (92 :: 117 :: Json.hex4 (56320 + (c - 65536) mod 1024))).


(** The scanner reads the text of [v] back, at any indentation and before
    any text that cannot continue a number. *)
Definition decodes (v : value) : Prop :=
  forall level fuel rest,
    native v = true ->
    (value_size v <= fuel)%nat ->
    ends_number rest = true ->
    Json.scan_once fuel (Json.iterencode v level ++ rest) = Some (v, rest).

(** Two records with text that needs every kind of escape. *)
Definition sample_records : list value :=
  [VDict [(u "id", VStr (u "Z2lkOi8v"));
          (u "name", VStr (u "Pay" ++ [34; 92; 10] ++ u "ments"));
          (u "aliases", VList [VStr [233; 128512]; VStr []]);
          (u "owner", VNone);
          (u "childSystems", VDict [(u "nodes", VList [])])];
   VDict [(u "id", VStr [55357]); (u "count", VInt (-12));
          (u "ok", VBool true)]].

(** ** Notions used in the proofs about the loops *)

(** A computation that never ends on the marker of an exhausted loop
    budget. *)
Definition within_budget {A : Type} (c : M A) : Prop :=
  forall w, fst (c w) <> Raise OutOfFuel.

(** A computation that leaves no more answers pending than it found. *)
Definition consumes {A : Type} (c : M A) : Prop :=
  forall w, (List.length (net (snd (c w))) <= List.length (net w))%nat.

(** ** Text as an HTTP body carries it

    A decoded body is a sequence of Unicode scalar values: code points
    below 0x110000 that are no surrogates. *)
Definition is_scalar (c : N) : bool :=
  (c <? 55296) || ((57343 <? c) && (c <? 1114112)).

Definition scalar_text (s : str) : bool := forallb is_scalar s.

(** [r] is what is left of [s] after some prefix. *)
Definition suffix (r s : str) : Prop := exists p, s = p ++ r.

(** The graph of [Json.scanstring]: [scanned s x r] when the scan of [s]
    yields the string [x] and leaves [r]. *)
Inductive scanned : str -> str -> str -> Prop :=
| ScanQuote s1 : scanned (34 :: s1) [] s1
| ScanLiteral c s1 x r :
    c <> 34 -> c <> 92 -> 32 <= c ->
    scanned s1 x r -> scanned (c :: s1) (c :: x) r
| ScanShort e ch s2 x r :
    Json.unescape e = Some ch ->
    scanned s2 x r -> scanned (92 :: e :: s2) (ch :: x) r
| ScanU h1 h2 h3 h4 uni s3 x r :
    Json.unhex4 h1 h2 h3 h4 = Some uni ->
    (Json.is_high_surrogate uni = true -> no_low_escape_ahead s3) ->
    scanned s3 x r ->
    scanned (92 :: 117 :: h1 :: h2 :: h3 :: h4 :: s3) (uni :: x) r
| ScanPair h1 h2 h3 h4 g1 g2 g3 g4 uni uni2 joined s4 x r :
    Json.unhex4 h1 h2 h3 h4 = Some uni ->
    Json.is_high_surrogate uni = true ->
    Json.unhex4 g1 g2 g3 g4 = Some uni2 ->
    Json.is_low_surrogate uni2 = true ->
    joined = 65536 + N.lor (N.shiftl (uni - 55296) 10) (uni2 - 56320) ->
    scanned s4 x r ->
    scanned (92 :: 117 :: h1 :: h2 :: h3 :: h4
             :: 92 :: 117 :: g1 :: g2 :: g3 :: g4 :: s4)
            (joined :: x) r.

Functional Scheme scanstring_ind := Induction for Json.scanstring Sort Prop.

(** [r] is what is left of [s] after a prefix that is not empty. *)
Definition consumed (r s : str) : Prop :=
  suffix r s /\ (List.length r < List.length s)%nat.

(** The check [native] makes of the entries of a dict. *)
Definition entry_native (kv : str * value) : bool :=
  match kv with
  | (k, x) => str_native k && native x
  end.

(** Every answer the endpoint still holds has a body of scalar text. *)
Definition scalar_answers (w : world) : Prop :=
  Forall (fun o => match o with
                   | Response _ text => scalar_text text = true
                   | Undecodable _ text => scalar_text text = true
                   | Unreachable => True
                   end) (net w).

(** ** Vocabulary of the further properties *)


(** [r] followed by [k] when [r] is a value: sequencing of steps that
    touch no world. *)
Definition and_then {A B} (r : result A) (k : A -> result B) : result B :=
  match r with
  | Ok a => k a
  | Raise e => Raise e
  end.

(** The variables [create_service] builds before it posts (the statements
    ahead of the call of [opslevel_graphql_query]), or the exception that
    building them raises. *)
Definition service_variables (system : value) : result value :=
  and_then (get system (u "owner") (VStr [])) (fun owner =>
  and_then (if truthy owner then
              and_then (subscript system (u "owner")) (fun o =>
              and_then (subscript o (u "id")) (fun i =>
              Ok (VDict [(u "id", i)])))
            else Ok VNone) (fun ownerInput =>
  and_then (subscript system (u "name")) (fun name =>
  and_then (str_add (u "SEARCH-") name) (fun alias =>
  and_then (get system (u "description") (VStr [])) (fun description =>
  Ok (VDict [(u "alias", alias); (u "description", description);
             (u "ownerInput", ownerInput)])))))).

(** The same for [convert_domain_to_system]. *)
Definition system_variables (domain : value) : result value :=
  and_then (get domain (u "owner") (VStr [])) (fun owner =>
  and_then (if truthy owner then
              and_then (subscript domain (u "owner")) (fun o =>
              subscript o (u "id"))
            else Ok VNone) (fun owner_id =>
  and_then (subscript domain (u "name")) (fun name =>
  and_then (get domain (u "description") (VStr [])) (fun description =>
  and_then (get domain (u "note") (VStr [])) (fun note =>
  Ok (VDict [(u "alias", name); (u "description", description);
             (u "ownerId", owner_id); (u "note", note)])))))).

(** The exceptions a record can cause while the variables are built. *)
Definition record_error (e : exn) : Prop :=
  e = AttributeError \/ e = TypeError
  \/ e = KeyError (u "id") \/ e = KeyError (u "name").

(** A Python [str]. *)
Definition is_text (v : value) : bool :=
  match v with
  | VStr _ => true
  | _ => false
  end.

(** A Python [dict]. *)
Definition is_dict (v : value) : bool :=
  match v with
  | VDict _ => true
  | _ => false
  end.

(** Records for examples: one without a name, one whose owner is a team
    name where a mapping is expected, one whose name is [None]. *)
Definition nameless_record : value :=
  VDict [(u "id", VStr (u "Z2lk")); (u "description", VStr (u "d"))].

Definition flat_owner_record : value :=
  VDict [(u "name", VStr (u "Checkout")); (u "owner", VStr (u "team-a"))].

Definition null_name_record : value :=
  VDict [(u "name", VNone); (u "note", VStr (u "n"))].

(** ** The conversion loops *)

(** The world after some requests were posted, the answers up to [rest]
    used up and some lines printed. *)
Definition after_requests (w : world) (requests : list request)
           (rest : list net_outcome) (printed : list out_event) : world :=
  {| api_token := api_token w; net := rest; sent := sent w ++ requests;
     files := files w; stdin := stdin w; stdout := stdout w ++ printed;
     now := now w |}.

(** An answer [opslevel_graphql_query] returns from: status 200 and a
    body that parses. *)
Definition accepted (o : net_outcome) : Prop :=
  exists text r, o = Response 200 text /\ Json.loads text = Some r.

(** One round of the loops of [convert_systems_to_services],
    [convert_domains_to_systems] and [update_systems_with_services],
    which differ in the query, in the key of the entity kind and in the
    function called on each record. *)
Definition convert_page (query kind : str) (convert : value -> M value)
           (st : loop_state) : M loop_state :=
  let variables := VDict [(u "endCursor", end_cursor st)] in
  result <- opslevel_graphql_query query variables ;;
  d <- lift (subscript result (u "data")) ;;
  a <- lift (subscript d (u "account")) ;;
  c <- lift (subscript a kind) ;;
  entities <- lift (subscript c (u "nodes")) ;;
  items <- lift (iterate entities) ;;
  for_each items convert ;;
  d <- lift (subscript result (u "data")) ;;
  a <- lift (subscript d (u "account")) ;;
  c <- lift (subscript a kind) ;;
  page_info <- lift (subscript c (u "pageInfo")) ;;
  cur <- lift (subscript page_info (u "endCursor")) ;;
  more <- lift (subscript page_info (u "hasNextPage")) ;;
  ret {| data_acc := []; end_cursor := cur; has_next_page := more |}.

(** The conversion of one record: the record, the variables of its
    mutation, the answer of the endpoint and the lines printed. *)
Record conversion : Type := {
  conv_source : value;
  conv_variables : value;
  conv_answer : net_outcome;
  conv_output : list out_event
}.

(** One round: the answer to the page request, the conversions of the
    records of the page in the order served, and the page information. *)
Record round : Type := {
  page_answer : net_outcome;
  conversions : list conversion;
  next_cursor : value;
  more_pages : bool
}.

Definition round_page (r : round) : page :=
  {| nodes := List.map conv_source (conversions r);
     endCursor := next_cursor r;
     hasNextPage := more_pages r |}.

(** The answers a round uses, in order. *)
Definition round_script (r : round) : list net_outcome :=
  page_answer r :: List.map conv_answer (conversions r).

Definition mutation_request (token mutation : str) (c : conversion)
  : request :=
  graphql_request token mutation (conv_variables c).

(** The requests of some rounds: per round the page request, then one
    mutation per record. *)
Fixpoint round_requests (token query mutation : str) (cursor : value)
         (rounds : list round) : list request :=
  match rounds with
  | [] => []
  | r :: rounds' =>
      page_request token query cursor
      :: List.map (mutation_request token mutation) (conversions r)
      ++ round_requests token query mutation (next_cursor r) rounds'
  end.

Definition round_output (rounds : list round) : list out_event :=
  flat_map (fun r => flat_map conv_output (conversions r)) rounds.

(** The cursor after some rounds. *)
Definition cursor_after (cursor : value) (rounds : list round) : value :=
  fold_left (fun _ r => next_cursor r) rounds cursor.

(** [convert] carries out conversion [c]: given the answer, it posts the
    mutation with the variables, prints the output and returns. *)
Definition converts (convert : value -> M value) (mutation : str)
           (c : conversion) : Prop :=
  forall w rest,
    net w = conv_answer c :: rest ->
    convert (conv_source c) w
    = (Ok VNone,
       after_requests w [mutation_request (api_token w) mutation c] rest
         (conv_output c)).

(** A conversion as [create_service] carries it out: any accepted answer
    will do, and nothing is printed. *)
Definition service_conversion (c : conversion) : Prop :=
  service_variables (conv_source c) = Ok (conv_variables c)
  /\ accepted (conv_answer c)
  /\ conv_output c = [].

(** A conversion as [convert_domain_to_system] carries it out: the answer
    names the new system, and two lines are printed. *)
Definition system_conversion (c : conversion) : Prop :=
  system_variables (conv_source c) = Ok (conv_variables c)
  /\ exists text r name system_id,
      conv_answer c = Response 200 text
      /\ Json.loads text = Some r
      /\ lookup_path r system_id_path = Some system_id
      /\ lookup_path (conv_source c) [u "name"] = Some name
      /\ conv_output c
         = [Print [Text (u "RESULT,"); Text (u " "); format r];
            Print [Text (u "Domain "); format name;
                   Text (u " converted to system with ID ");
                   format system_id]].

(** A well-formed round of a conversion loop. *)
Definition round_served (kind : str) (conversion_ok : conversion -> Prop)
           (r : round) : Prop :=
  serves kind (page_answer r) (round_page r)
  /\ Forall conversion_ok (conversions r).

(** A record that stops a conversion loop: [convert] raises [e] on it,
    having used the answers [used], posted [requests] and printed
    [printed]. *)
Definition stops (convert : value -> M value) (record : value)
           (used : list net_outcome) (requests : str -> list request)
           (printed : list out_event) (e : exn) : Prop :=
  forall w rest,
    net w = used ++ rest ->
    convert record w
    = (Raise e, after_requests w (requests (api_token w)) rest printed).

(** Conversions and rounds for examples: records that have a name only,
    served on two pages. *)
Definition service_created_body : str :=
  jtext ("{'data': {'serviceCreate': "
         ++ "{'service': {'id': 'V1'}, 'errors': []}}}")%string.

Definition service_of (name : string) : conversion :=
  {| conv_source := VDict [(u "name", VStr (u name))];
     conv_variables :=
       VDict [(u "alias", VStr (u "SEARCH-" ++ u name));
              (u "description", VStr []); (u "ownerInput", VNone)];
     conv_answer := Response 200 service_created_body;
     conv_output := [] |}.

Definition system_created_response : value :=
  match Json.loads system_created_body with
  | Some r => r
  | None => VNone
  end.

Definition system_of (name : string) : conversion :=
  {| conv_source := VDict [(u "name", VStr (u name))];
     conv_variables :=
       VDict [(u "alias", VStr (u name)); (u "description", VStr []);
              (u "ownerId", VNone); (u "note", VStr [])];
     conv_answer := Response 200 system_created_body;
     conv_output :=
       [Print [Text (u "RESULT,"); Text (u " ");
               format system_created_response];
        Print [Text (u "Domain "); Text (u name);
               Text (u " converted to system with ID "); Text (u "S1")]] |}.

Definition first_round (kind : string) (make : string -> conversion) : round :=
  {| page_answer :=
       Response 200
         (page_body kind "{'name': 'A'}, {'name': 'B'}" "'c1'" "true");
     conversions := [make "A"; make "B"]%string;
     next_cursor := VStr (u "c1");
     more_pages := true |}.

Definition last_round (kind : string) (make : string -> conversion) : round :=
  {| page_answer := Response 200 (page_body kind "{'name': 'E'}" "null" "false");
     conversions := [make "E"]%string;
     next_cursor := VNone;
     more_pages := false |}.

(** A page of three records, for the examples of a batch that stops at
    its second record. *)
Definition three_record_page (kind : string) (second : string)
  : net_outcome :=
  Response 200
    (page_body kind ("{'name': 'A'}, " ++ second ++ ", {'name': 'E'}")
       "null" "false").

(** The choices of [main] that go to the network. *)
Definition online_choices : list str := List.map u ["1"; "2"; "3"; "4"]%string.

(** The world [main] hands to the selected operation: the menu printed
    and the line of the choice read. *)
Definition after_menu (w : world) (lines : list str) : world :=
  set_stdout (set_stdin w lines) (stdout w ++ menu_output).

(** A world with answers pending and a snapshot on disk, in which the
    reconciliation option is chosen and the snapshot named. *)
Definition reconciliation_world : world :=
  set_files
    (example_world (three_answers "systems")
       [u "5"; u "domains_data_20240307.json"])
    [(u "domains_data_20240307.json", u "[]")].

(** ** Dates and file names *)

(** A date of the years that [strftime('%Y')] writes on four digits
    everywhere. *)
Definition is_date (d : date) : bool :=
  (1000 <=? year d) && (year d <=? 9999)
  && (1 <=? month d) && (month d <=? 12)
  && (1 <=? day d) && (day d <=? 31).

(** The number a string of decimal digits writes. *)
Definition digits_value (s : str) : N :=
  fold_left (fun a c => 10 * a + (c - 48)) s 0.

(** The numbers below [n]. *)
Definition below (n : N) : list N :=
  List.map N.of_nat (seq 0 (N.to_nat n)).

(** [zero_pad width] writes [n] on exactly [width] decimal digits that
    read back as [n]. *)
Definition pads_exactly (width : nat) (n : N) : bool :=
  Nat.eqb (List.length (zero_pad width n)) width
  && forallb Json.is_digit (zero_pad width n)
  && (digits_value (zero_pad width n) =? n).

(** A page whose [hasNextPage] is [null], and one whose [hasNextPage] is
    the string ["false"]. *)
Definition null_flag_page : str :=
  page_body "systems" "{'name': 'A'}" "'c1'" "null".

Definition text_flag_page : str :=
  page_body "systems" "{'name': 'A'}" "'c1'" "'false'".


(** A loader that finds the file and cannot parse it. *)
Definition loader_corrupt_file (name : str) : option (value -> M value) :=
  if str_eqb name (u "load_domains_from_file")
  then Some (fun _ => raise JSONDecodeError)
  else None.

(** The world in which [update_systems_with_services] calls the loader:
    the prompt printed and the path read. *)
Definition after_prompt (w : world) (lines : list str) : world :=
  set_stdin
    (set_stdout w
       (stdout w ++
        [Prompt (u "Please enter the path to the domains_data.json file: ")]))
    lines.

(** A namespace in which the loader alone is bound, to a function that
    returns an empty snapshot. *)
Definition loader_only (name : str) : option (value -> M value) :=
  if str_eqb name (u "load_domains_from_file")
  then Some (fun _ => ret (VList []))
  else None.

(** The records a snapshot run hands to [save_to_file]: what its loop
    has accumulated when it ends. *)
Definition fetched_records (query kind : str) (w : world)
  : option (list value) :=
  match while_ (fun st => truthy (has_next_page st))
               (fetch_page query kind) loop_init w with
  | (Ok st, _) => Some (data_acc st)
  | (Raise _, _) => None
  end.
(** ** Properties *)

Arguments u : simpl never.

Lemma opslevel_graphql_query_run query variables w :
  opslevel_graphql_query query variables w =
  let w1 := set_sent w (sent w ++ [graphql_request (api_token w) query variables]) in
  match net w with
  | [] => (Raise ConnectionError, w1)
  | Unreachable :: rest => (Raise ConnectionError, set_net w1 rest)
  | Response status_code text :: rest =>
      if Z.eqb status_code 200 then (response_json text, set_net w1 rest)
      else (Raise (Exception (u "OpsLevel request failed: " ++ text)),
            set_net w1 rest)
  | Undecodable status_code text :: rest =>
      if Z.eqb status_code 200 then (response_json text, set_net w1 rest)
      else (Raise UnicodeDecodeError, set_net w1 rest)
  end.
Proof.
  unfold opslevel_graphql_query, bind, OPSLEVEL_API_TOKEN, requests_post,
    graphql_request, lift, raise, content_decode.
  destruct (net w) as [|[|st body|st body] rest]; cbn; try reflexivity;
    destruct (Z.eqb st 200); reflexivity.
Qed.

(** *** The transport *)

(** C4, as stated, fails: a response with status 201 is a success in the
    sense of HTTP, yet the transport raises, because the code compares the
    status with 200 and nothing else. *)
Lemma opslevel_graphql_query_201_raises :
  let w := example_world [Response 201 (jtext "{'data': null}")] [] in
  http_success 201 = true /\
  fst (opslevel_graphql_query OL_SYSTEM_MUTATION VNone w)
  = Raise (Exception (u "OpsLevel request failed: " ++ jtext "{'data': null}")).
Proof. split; reflexivity. Qed.

(** C4 (amended): the transport returns on status 200 only, where it
    hands back the parsed top-level object, whatever that object holds
    (an [errors] field included).  On any other status it raises: its
    own error, whose message ends with the body, when the body is UTF-8,
    and [UnicodeDecodeError], from decoding the body for the message,
    when it is not.  So the transport's error is raised exactly when the
    status differs from 200 and the body decodes. *)
Theorem opslevel_graphql_query_status :
  forall query variables w o rest,
    net w = o :: rest ->
    let r := fst (opslevel_graphql_query query variables w) in
    ((exists msg, r = Raise (Exception msg))
     <-> exists status_code text,
           o = Response status_code text /\ status_code <> 200%Z)
    /\ (forall status_code text,
           o = Response status_code text -> status_code <> 200%Z ->
           r = Raise (Exception (u "OpsLevel request failed: " ++ text)))
    /\ (forall status_code text,
           o = Undecodable status_code text -> status_code <> 200%Z ->
           r = Raise UnicodeDecodeError)
    /\ (forall text v,
           o = Response 200 text \/ o = Undecodable 200 text ->
           Json.loads text = Some v -> r = Ok v)
    /\ (forall v,
           r = Ok v ->
           exists text, o = Response 200 text \/ o = Undecodable 200 text).
Proof.
  intros query variables w o rest Hnet r. subst r.
  rewrite opslevel_graphql_query_run, Hnet. cbn zeta.
  destruct o as [|st text|st text]; cbn [fst].
  - repeat split; try discriminate.
    + intros [msg H]. discriminate H.
    + intros (st & text & H & _). discriminate H.
    + intros text v [H|H]; discriminate H.
  - destruct (Z.eqb_spec st 200) as [->|E]; cbn [fst]; unfold response_json.
    + repeat split; try discriminate.
      * intros [msg H]. destruct (Json.loads text); discriminate H.
      * intros (st & text' & H & Hst). injection H as <- _.
        contradiction.
      * intros st text' H Hst. injection H as <- _. contradiction.
      * intros text' v [H|H] Hv; [|discriminate H].
        injection H as <-. rewrite Hv. reflexivity.
      * intros v H. exists text. left. reflexivity.
    + repeat split; try discriminate.
      * intros _. exists st, text. split; [reflexivity | exact E].
      * intros _. eexists. reflexivity.
      * intros st' text' H _. injection H as _ <-. reflexivity.
      * intros text' v [H|H] _; [|discriminate H].
        injection H as H _. contradiction.
  - destruct (Z.eqb_spec st 200) as [->|E]; cbn [fst]; unfold response_json.
    + repeat split; try discriminate.
      * intros [msg H]. destruct (Json.loads text); discriminate H.
      * intros (st & text' & H & _). discriminate H.
      * intros st text' H Hst. injection H as <- _. contradiction.
      * intros text' v [H|H] Hv; [discriminate H|].
        injection H as <-. rewrite Hv. reflexivity.
      * intros v H. exists text. right. reflexivity.
    + repeat split; try discriminate.
      * intros [msg H]. discriminate H.
      * intros (st' & text' & H & _). discriminate H.
      * intros text' v [H|H] _; [discriminate H|].
        injection H as H _. contradiction.
Qed.

Lemma opslevel_graphql_query_status_witness :
  (let w := example_world
              [Response 200
                 (jtext "{'data': null, 'errors': [{'message': 'no'}]}")] [] in
   fst (opslevel_graphql_query OL_SYSTEM_MUTATION VNone w)
   = Ok (VDict [(u "data", VNone);
                (u "errors", VList [VDict [(u "message", VStr (u "no"))]])]))
  /\ (let w := example_world [Undecodable 502 (u "Bad Gateway")] [] in
      fst (opslevel_graphql_query OL_SYSTEM_MUTATION VNone w)
      = Raise UnicodeDecodeError).
Proof.
  split; intros w.
  - refine (proj1 (proj2 (proj2 (proj2
              (@opslevel_graphql_query_status OL_SYSTEM_MUTATION VNone w
                 _ [] eq_refl)))) _ _ (or_introl eq_refl) _).
    vm_compute. reflexivity.
  - refine (proj1 (proj2 (proj2
              (@opslevel_graphql_query_status OL_SYSTEM_MUTATION VNone w
                 _ [] eq_refl))) 502%Z _ eq_refl _).
    discriminate.
Defined.

(** *** Computations that leave part of the world alone *)

Section Preserves.
Context {X : Type} (field : world -> X).

Lemma preserves_ret {A} (a : A) : preserves field (ret a).
Proof. intros w. reflexivity. Qed.

Lemma preserves_raise {A} (e : exn) : preserves field (@raise A e).
Proof. intros w. reflexivity. Qed.

Lemma preserves_lift {A} (r : result A) : preserves field (lift r).
Proof. intros w. reflexivity. Qed.

Lemma preserves_bind {A B} (c : M A) (k : A -> M B) :
  preserves field c -> (forall a, preserves field (k a)) ->
  preserves field (bind c k).
Proof.
  intros Hc Hk w. unfold bind. specialize (Hc w).
  destruct (c w) as [[a|e] w']; cbn [snd] in *.
  - rewrite Hk. exact Hc.
  - exact Hc.
Qed.

Lemma preserves_if {A} (b : bool) (c1 c2 : M A) :
  preserves field c1 -> preserves field c2 ->
  preserves field (if b then c1 else c2).
Proof. destruct b; auto. Qed.

Lemma preserves_try {A} (c : M A) :
  preserves field c -> preserves field (try_ c).
Proof.
  intros Hc w. unfold try_. specialize (Hc w).
  destruct (c w) as [r w']. exact Hc.
Qed.

Lemma preserves_for_each items body :
  (forall x, preserves field (body x)) ->
  preserves field (for_each items body).
Proof.
  intros Hb. induction items as [|x items IH]; cbn [for_each].
  - apply preserves_ret.
  - apply preserves_bind; [apply Hb | intros _; exact IH].
Qed.

Lemma preserves_while_fuel {S} fuel cond (body : S -> M S) s :
  (forall s', preserves field (body s')) ->
  preserves field (while_fuel fuel cond body s).
Proof.
  intros Hb. revert s.
  induction fuel as [|fuel IH]; intros s; cbn [while_fuel];
    destruct (cond s); try apply preserves_ret.
  - apply preserves_raise.
  - apply preserves_bind; [apply Hb | intros s'; apply IH].
Qed.

Lemma preserves_while {S} cond (body : S -> M S) s :
  (forall s', preserves field (body s')) ->
  preserves field (while_ cond body s).
Proof. intros Hb w. unfold while_. apply preserves_while_fuel, Hb. Qed.

End Preserves.

Lemma print_preserves_sent line : preserves sent (print line).
Proof. intros w. reflexivity. Qed.

Lemma print_preserves_files line : preserves files (print line).
Proof. intros w. reflexivity. Qed.

Lemma print_preserves_net line : preserves net (print line).
Proof. intros w. reflexivity. Qed.

Lemma input_preserves_sent prompt : preserves sent (input prompt).
Proof. intros w. unfold input. destruct (stdin w); reflexivity. Qed.

Lemma input_preserves_net prompt : preserves net (input prompt).
Proof. intros w. unfold input. destruct (stdin w); reflexivity. Qed.

Lemma input_preserves_files prompt : preserves files (input prompt).
Proof. intros w. unfold input. destruct (stdin w); reflexivity. Qed.

Lemma opslevel_graphql_query_preserves_files query variables :
  preserves files (opslevel_graphql_query query variables).
Proof.
  intros w. rewrite opslevel_graphql_query_run. cbn zeta.
  destruct (net w) as [|[|st text|st text] rest]; try reflexivity;
    destruct (Z.eqb st 200); reflexivity.
Qed.

(** One request, whatever the endpoint answers. *)
Lemma opslevel_graphql_query_sent query variables w :
  sent (snd (opslevel_graphql_query query variables w))
  = sent w ++ [graphql_request (api_token w) query variables].
Proof.
  rewrite opslevel_graphql_query_run. cbn zeta.
  destruct (net w) as [|[|st text|st text] rest]; try reflexivity;
    destruct (Z.eqb st 200); reflexivity.
Qed.

Lemma opslevel_graphql_query_token query variables w :
  api_token (snd (opslevel_graphql_query query variables w)) = api_token w.
Proof.
  rewrite opslevel_graphql_query_run. cbn zeta.
  destruct (net w) as [|[|st text|st text] rest]; try reflexivity;
    destruct (Z.eqb st 200); reflexivity.
Qed.

(** A request followed by code that posts nothing. *)
Lemma query_then_sent {B} query variables (k : value -> M B) w :
  (forall a, preserves sent (k a)) ->
  sent (snd (bind (opslevel_graphql_query query variables) k w))
  = sent w ++ [graphql_request (api_token w) query variables].
Proof.
  intros Hk. unfold bind.
  pose proof (opslevel_graphql_query_sent query variables w) as Hs.
  destruct (opslevel_graphql_query query variables w) as [[a|e] w'];
    cbn [snd] in *.
  - rewrite Hk. exact Hs.
  - exact Hs.
Qed.

Ltac preserves_tac :=
  repeat first
    [ apply preserves_ret | apply preserves_raise | apply preserves_lift
    | apply print_preserves_sent | apply print_preserves_files
    | apply print_preserves_net
    | apply input_preserves_sent | apply input_preserves_net
    | apply input_preserves_files
    | apply opslevel_graphql_query_preserves_files
    | apply preserves_bind; [|intros ?]
    | apply preserves_if ].

(** *** Entity conversion *)

Ltac run_bind := unfold bind, lift, ret, raise; cbn beta iota zeta.

(** Two worlds are equal when their fields are. *)
Ltac world_eq :=
  unfold set_stdout, set_net, set_sent, set_stdin, set_files;
  cbn [api_token net sent files stdin stdout now];
  rewrite <- ?app_assoc; reflexivity.

(** C2, as stated, fails on its last clause: on the specification's own
    example the function sends the stated variables, but what it returns
    is [None], not the identifier [S1] of the response. *)
Lemma convert_domain_to_system_returns_None :
  let w := example_world [Response 200 system_created_body] [] in
  match Json.loads system_created_body with
  | Some r => lookup_path r system_id_path = Some (VStr (u "S1"))
  | None => False
  end /\
  fst (convert_domain_to_system payments_domain w) = Ok VNone /\
  fst (convert_domain_to_system payments_domain w) <> Ok (VStr (u "S1")).
Proof.
  split; [vm_compute; reflexivity|]. split; [vm_compute; reflexivity|].
  vm_compute. discriminate.
Qed.

(** C2 (amended): for a domain record with name, description, owner id and
    note, the function posts the creation mutation with the variables
    alias = name, description, ownerId = the owner's id and note; when the
    response holds an identifier at [data.systemCreate.system.id], the
    function prints it in its confirmation line and returns [None]. *)
Theorem convert_domain_to_system_variables :
  forall d name description o owner_id note,
    dict_get d (u "name") = Some name ->
    dict_get d (u "description") = Some description ->
    dict_get d (u "owner") = Some (VDict o) ->
    dict_get o (u "id") = Some owner_id ->
    dict_get d (u "note") = Some note ->
    let variables :=
      VDict [(u "alias", name); (u "description", description);
             (u "ownerId", owner_id); (u "note", note)] in
    (forall w,
        sent (snd (convert_domain_to_system (VDict d) w))
        = sent w ++ [graphql_request (api_token w) OL_SYSTEM_MUTATION variables]) /\
    (forall w text rest r system_id,
        net w = Response 200 text :: rest ->
        Json.loads text = Some r ->
        lookup_path r system_id_path = Some system_id ->
        convert_domain_to_system (VDict d) w
        = (Ok VNone,
           set_stdout
             (set_net
                (set_sent w (sent w ++ [graphql_request (api_token w)
                                          OL_SYSTEM_MUTATION variables]))
                rest)
             (stdout w ++
              [Print [Text (u "RESULT,"); Text (u " "); format r];
               Print [Text (u "Domain "); format name;
                      Text (u " converted to system with ID ");
                      format system_id]]))).
Proof.
  intros d name description o owner_id note Hn Hd Ho Hi Hnote variables.
  assert (To : truthy (VDict o) = true).
  { destruct o; [discriminate Hi | reflexivity]. }
  split.
  - intros w. unfold convert_domain_to_system.
    run_bind. cbn [get subscript]. rewrite Ho, Hn, Hd, Hnote, To.
    cbn beta iota. cbn [subscript]. rewrite Hi. cbn beta iota.
    rewrite opslevel_graphql_query_run. cbn zeta.
    destruct (net w) as [|[|st text|st text] rest]; cbn; try reflexivity.
    all: destruct (Z.eqb st 200); [|reflexivity].
    all: unfold response_json; destruct (Json.loads text) as [r|]; [|reflexivity].
    all: unfold print; cbn.
    all: destruct r as [| | | | |dr]; try reflexivity.
    all: cbn; destruct (dict_get dr (u "data")) as [r1|]; [|reflexivity].
    all: destruct r1 as [| | | | |d1]; try reflexivity.
    all: cbn; destruct (dict_get d1 (u "systemCreate")) as [r2|]; [|reflexivity].
    all: destruct r2 as [| | | | |d2]; try reflexivity.
    all: cbn; destruct (dict_get d2 (u "system")) as [r3|]; [|reflexivity].
    all: destruct r3 as [| | | | |d3]; try reflexivity.
    all: cbn; destruct (dict_get d3 (u "id")) as [r4|]; [|reflexivity].
    all: reflexivity.
  - intros w text rest r system_id Hnet Hr Hp.
    unfold convert_domain_to_system.
    run_bind. cbn [get subscript]. rewrite Ho, Hn, Hd, Hnote, To.
    cbn beta iota. cbn [subscript]. rewrite Hi. cbn beta iota.
    rewrite opslevel_graphql_query_run. cbn zeta. rewrite Hnet.
    cbn. unfold response_json. rewrite Hr. unfold print. 
    unfold system_id_path in Hp. cbn [lookup_path] in Hp.
    destruct r as [| | | | |dr]; try discriminate Hp.
    cbn. destruct (dict_get dr (u "data")) as [r1|]; [|discriminate Hp].
    destruct r1 as [| | | | |d1]; try discriminate Hp.
    cbn. destruct (dict_get d1 (u "systemCreate")) as [r2|]; [|discriminate Hp].
    destruct r2 as [| | | | |d2]; try discriminate Hp.
    cbn. destruct (dict_get d2 (u "system")) as [r3|]; [|discriminate Hp].
    destruct r3 as [| | | | |d3]; try discriminate Hp.
    cbn. destruct (dict_get d3 (u "id")) as [r4|]; [|discriminate Hp].
    injection Hp as ->. world_eq.
Qed.

Lemma convert_domain_to_system_variables_witness :
  let w := example_world [Response 200 system_created_body] [] in
  sent (snd (convert_domain_to_system payments_domain w))
  = sent w ++ [graphql_request (api_token w) OL_SYSTEM_MUTATION
                 (VDict [(u "alias", VStr (u "Payments"));
                         (u "description", VStr (u "d"));
                         (u "ownerId", VStr (u "T1"));
                         (u "note", VStr (u "n"))])].
Proof.
  intros w.
  exact (proj1 (@convert_domain_to_system_variables
                  [(u "name", VStr (u "Payments"));
                   (u "description", VStr (u "d"));
                   (u "owner", VDict [(u "id", VStr (u "T1"))]);
                   (u "note", VStr (u "n"))]
                  (VStr (u "Payments")) (VStr (u "d"))
                  [(u "id", VStr (u "T1"))] (VStr (u "T1")) (VStr (u "n"))
                  eq_refl eq_refl eq_refl eq_refl eq_refl) w).
Defined.

(** C3: for a system record, [create_service] posts the service-creation
    mutation with alias ["SEARCH-"] followed by the name and with the
    description carried over; with an owner present [ownerInput] holds
    exactly the owner's identifier, and with the owner absent it is
    [None], and no exception comes from building the variables. *)
Theorem create_service_variables :
  forall d name owner,
    dict_get d (u "name") = Some (VStr name) ->
    owner_id_of d = Some owner ->
    forall w,
      sent (snd (create_service (VDict d) w))
      = sent w ++ [graphql_request (api_token w) OL_SERVICE_MUTATION
                     (VDict [(u "alias", VStr (u "SEARCH-" ++ name));
                             (u "description", carried d (u "description"));
                             (u "ownerInput", owner_input owner)])]
      /\ (forall text rest r,
             net w = Response 200 text :: rest ->
             Json.loads text = Some r ->
             fst (create_service (VDict d) w) = Ok VNone).
Proof.
  intros d name owner Hn Ho w.
  unfold create_service. run_bind. cbn [get subscript].
  unfold owner_id_of in Ho. unfold carried.
  assert (Hfin : forall oi,
    let variables := VDict [(u "alias", VStr (u "SEARCH-" ++ name));
                            (u "description",
                             match dict_get d (u "description") with
                             | Some v => v | None => VStr [] end);
                            (u "ownerInput", oi)] in
    let out := (let (r, w') := opslevel_graphql_query OL_SERVICE_MUTATION variables w in
                match r with Ok _ => (Ok VNone, w') | Raise e => (@Raise value e, w') end) in
    sent (snd out) = sent w ++ [graphql_request (api_token w) OL_SERVICE_MUTATION variables]
    /\ (forall text rest r, net w = Response 200 text :: rest ->
          Json.loads text = Some r -> fst out = Ok VNone)).
  { intros oi variables out. subst out.
    rewrite opslevel_graphql_query_run. cbn zeta.
    destruct (net w) as [|[|st text|st text] rest] eqn:Hnet.
    - split; [reflexivity | intros; discriminate].
    - split; [reflexivity | intros; discriminate].
    - destruct (Z.eqb st 200) eqn:Hst.
      + unfold response_json.
        destruct (Json.loads text) as [r|] eqn:Hr.
        * split; [reflexivity | intros; reflexivity].
        * split; [reflexivity|]. intros text' rest' r' H1 H2.
          injection H1 as _ E _. subst. congruence.
      + split; [reflexivity|]. intros text' rest' r' H1 H2.
        injection H1 as E _ _. subst. discriminate Hst.
    - split; [|intros; discriminate].
      destruct (Z.eqb st 200); [|reflexivity].
      destruct (response_json text); reflexivity. }
  destruct (dict_get d (u "owner")) as [ov|] eqn:Hov.
  - destruct ov as [| | | | |o]; try discriminate Ho.
    + injection Ho as <-. cbn [truthy]. cbn beta iota. rewrite Hn.
      cbn [str_add]. cbn beta iota.
      destruct (dict_get d (u "description")); apply Hfin.
    + destruct (dict_get o (u "id")) as [i|] eqn:Hi; [|discriminate Ho].
      injection Ho as <-.
      assert (To : truthy (VDict o) = true).
      { destruct o; [discriminate Hi | reflexivity]. }
      rewrite To. cbn beta iota. cbn [subscript]. rewrite Hi, Hn. cbn [str_add]. cbn beta iota.
      destruct (dict_get d (u "description")); apply Hfin.
  - injection Ho as <-. cbn [truthy]. cbn beta iota. rewrite Hn.
    cbn [str_add]. cbn beta iota.
    destruct (dict_get d (u "description")); apply Hfin.
Qed.

Lemma create_service_variables_witness :
  let w := example_world [] [] in
  sent (snd (create_service checkout_system w))
  = sent w ++ [graphql_request (api_token w) OL_SERVICE_MUTATION
                 (VDict [(u "alias", VStr (u "SEARCH-Checkout"));
                         (u "description", VStr []);
                         (u "ownerInput", VNone)])].
Proof.
  intros w.
  exact (proj1 (@create_service_variables
                  [(u "name", VStr (u "Checkout"))] (u "Checkout") None
                  eq_refl eq_refl w)).
Defined.

(** C10: for a record (a dict with a name) whose owner is missing, [None],
    an empty mapping, an empty string or any other falsy value, both
    converters get as far as posting their mutation, so building the
    variables raised nothing, and the owner variable they post is
    [None]. *)
Theorem falsy_owner_posts_null :
  forall d name,
    dict_get d (u "name") = Some (VStr name) ->
    owner_falsy d = true ->
    forall w,
      sent (snd (create_service (VDict d) w))
      = sent w ++ [graphql_request (api_token w) OL_SERVICE_MUTATION
                     (VDict [(u "alias", VStr (u "SEARCH-" ++ name));
                             (u "description", carried d (u "description"));
                             (u "ownerInput", VNone)])]
      /\
      sent (snd (convert_domain_to_system (VDict d) w))
      = sent w ++ [graphql_request (api_token w) OL_SYSTEM_MUTATION
                     (VDict [(u "alias", VStr name);
                             (u "description", carried d (u "description"));
                             (u "ownerId", VNone);
                             (u "note", carried d (u "note"))])].
Proof.
  intros d name Hn Hf w. unfold owner_falsy in Hf.
  assert (Ht : truthy match dict_get d (u "owner") with
                      | Some v => v | None => VStr [] end = false).
  { destruct (dict_get d (u "owner")) as [o|]; [|reflexivity].
    destruct (truthy o); [discriminate Hf | reflexivity]. }
  split.
  - unfold create_service.
    unfold bind at 1. unfold lift at 1. cbn [get].
    replace (match dict_get d (u "owner") with
             | Some v => Ok v | None => Ok (VStr []) end)
      with (Ok match dict_get d (u "owner") with
               | Some v => v | None => VStr [] end)
      by (destruct (dict_get d (u "owner")); reflexivity).
    cbn beta iota. rewrite Ht.
    unfold bind at 1, ret at 1. cbn beta iota.
    unfold bind at 1, lift at 1. cbn [subscript]. rewrite Hn. cbn beta iota.
    unfold bind at 1, lift at 1. cbn [str_add]. cbn beta iota.
    unfold bind at 1, lift at 1. cbn [get]. unfold carried.
    destruct (dict_get d (u "description")); cbn beta iota;
      apply query_then_sent; intros a; preserves_tac.
  - unfold convert_domain_to_system.
    unfold bind at 1. unfold lift at 1. cbn [get].
    replace (match dict_get d (u "owner") with
             | Some v => Ok v | None => Ok (VStr []) end)
      with (Ok match dict_get d (u "owner") with
               | Some v => v | None => VStr [] end)
      by (destruct (dict_get d (u "owner")); reflexivity).
    cbn beta iota. rewrite Ht.
    unfold bind at 1, ret at 1. cbn beta iota.
    unfold bind at 1, lift at 1. cbn [subscript]. rewrite Hn. cbn beta iota.
    unfold bind at 1, lift at 1. cbn [get]. unfold carried.
    destruct (dict_get d (u "description")); cbn beta iota;
      unfold bind at 1, lift at 1; cbn [get];
      destruct (dict_get d (u "note")); cbn beta iota;
      apply query_then_sent; intros a; preserves_tac.
Qed.

Lemma falsy_owner_posts_null_witness :
  let w := example_world [] [] in
  let d := [(u "name", VStr (u "Checkout")); (u "owner", VDict [])] in
  sent (snd (create_service (VDict d) w))
  = sent w ++ [graphql_request (api_token w) OL_SERVICE_MUTATION
                 (VDict [(u "alias", VStr (u "SEARCH-" ++ u "Checkout"));
                         (u "description", carried d (u "description"));
                         (u "ownerInput", VNone)])].
Proof.
  intros w d.
  exact (proj1 (@falsy_owner_posts_null d (u "Checkout") eq_refl eq_refl w)).
Defined.

(** The code after the mutation: with no identifier at the expected path
    of the response, one of the four subscripts raises. *)
Lemma system_id_subscripts_raise (r : value) (k : value -> M value) w :
  lookup_path r system_id_path = None ->
  exists e,
    (d <- lift (subscript r (u "data")) ;;
     c <- lift (subscript d (u "systemCreate")) ;;
     s <- lift (subscript c (u "system")) ;;
     system_id <- lift (subscript s (u "id")) ;;
     k system_id) w = (Raise e, w)
    /\ (e = TypeError \/ exists key, In key system_id_path /\ e = KeyError key).
Proof.
  unfold system_id_path. cbn [lookup_path]. intros Hp.
  unfold bind, lift.
  destruct r as [| | | | |dr]; cbn [subscript];
    try (eexists; split; [reflexivity | left; reflexivity]).
  destruct (dict_get dr (u "data")) as [r1|];
    [|eexists; split; [reflexivity | right; eexists; split; [|reflexivity]; cbn; auto]].
  destruct r1 as [| | | | |d1]; cbn [subscript];
    try (eexists; split; [reflexivity | left; reflexivity]).
  destruct (dict_get d1 (u "systemCreate")) as [r2|];
    [|eexists; split; [reflexivity | right; eexists; split; [|reflexivity]; cbn; auto]].
  destruct r2 as [| | | | |d2]; cbn [subscript];
    try (eexists; split; [reflexivity | left; reflexivity]).
  destruct (dict_get d2 (u "system")) as [r3|];
    [|eexists; split; [reflexivity | right; eexists; split; [|reflexivity]; cbn; auto]].
  destruct r3 as [| | | | |d3]; cbn [subscript];
    try (eexists; split; [reflexivity | left; reflexivity]).
  destruct (dict_get d3 (u "id")) as [r4|]; [discriminate Hp|].
  eexists; split; [reflexivity | right; eexists; split; [|reflexivity]; cbn; auto].
Qed.

(** C5: when the response of the creation mutation has no identifier at
    [data.systemCreate.system.id], [convert_domain_to_system] does not
    return normally on any domain: an exception propagates to the caller.
    For a domain the function can convert, the exception is the [KeyError]
    or [TypeError] of the failed subscript, raised after the mutation was
    posted, and the confirmation line is never printed. *)
Theorem convert_domain_to_system_malformed_response :
  forall domain w text rest r,
    net w = Response 200 text :: rest ->
    Json.loads text = Some r ->
    lookup_path r system_id_path = None ->
    (exists e, fst (convert_domain_to_system domain w) = Raise e) /\
    (forall d name owner_id,
        domain = VDict d ->
        dict_get d (u "name") = Some name ->
        owner_variable d = Some owner_id ->
        exists e,
          convert_domain_to_system domain w
          = (Raise e,
             set_stdout
               (set_net
                  (set_sent w
                     (sent w ++
                      [graphql_request (api_token w) OL_SYSTEM_MUTATION
                         (VDict [(u "alias", name);
                                 (u "description", carried d (u "description"));
                                 (u "ownerId", owner_id);
                                 (u "note", carried d (u "note"))])]))
                  rest)
               (stdout w ++
                [Print [Text (u "RESULT,"); Text (u " "); format r]]))
          /\ (e = TypeError \/
              exists key, In key system_id_path /\ e = KeyError key)).
Proof.
  intros domain w text rest r Hnet Hr Hp.
  assert (Hq : forall variables,
             opslevel_graphql_query OL_SYSTEM_MUTATION variables w
             = (Ok r, set_net (set_sent w (sent w ++
                  [graphql_request (api_token w) OL_SYSTEM_MUTATION variables])) rest)).
  { intros variables. rewrite opslevel_graphql_query_run, Hnet. cbn.
    unfold response_json. rewrite Hr. reflexivity. }
  assert (Htail : forall variables name_lookup,
    exists e,
      (result <- opslevel_graphql_query OL_SYSTEM_MUTATION variables ;;
       print [Text (u "RESULT,"); Text (u " "); format result] ;;
       d <- lift (subscript result (u "data")) ;;
       c <- lift (subscript d (u "systemCreate")) ;;
       s <- lift (subscript c (u "system")) ;;
       system_id <- lift (subscript s (u "id")) ;;
       name' <- lift name_lookup ;;
       print [Text (u "Domain "); format name';
              Text (u " converted to system with ID "); format system_id] ;;
       ret VNone) w
      = (Raise e,
         set_stdout
           (set_net (set_sent w (sent w ++
              [graphql_request (api_token w) OL_SYSTEM_MUTATION variables])) rest)
           (stdout w ++ [Print [Text (u "RESULT,"); Text (u " "); format r]]))
      /\ (e = TypeError \/ exists key, In key system_id_path /\ e = KeyError key)).
  { intros variables name_lookup. unfold bind at 1. rewrite Hq.
    unfold bind at 1. unfold print at 1. cbn beta iota.
    match goal with
    | |- exists e, ?c ?w1 = _ /\ _ =>
        destruct (@system_id_subscripts_raise r
                    (fun system_id =>
                       name' <- lift name_lookup ;;
                       print [Text (u "Domain "); format name';
                              Text (u " converted to system with ID ");
                              format system_id] ;;
                       ret VNone) w1 Hp) as [e [He Hk]]
    end.
    exists e. split; [|exact Hk]. rewrite He. f_equal. }
  split.
  - unfold convert_domain_to_system.
    unfold bind at 1, lift at 1.
    destruct (get domain (u "owner") (VStr [])) as [owner|e];
      [|eexists; reflexivity].
    unfold bind at 1.
    destruct (truthy owner).
    + unfold bind at 1, lift at 1.
      destruct (subscript domain (u "owner")) as [o|e];
        [|eexists; reflexivity].
      unfold lift at 1.
      destruct (subscript o (u "id")) as [i|e]; [|eexists; reflexivity].
      unfold bind at 1, lift at 1.
      destruct (subscript domain (u "name")) as [n|e] eqn:Hname;
        [|eexists; reflexivity].
      unfold bind at 1, lift at 1.
      destruct (get domain (u "description") (VStr [])) as [ds|e];
        [|eexists; reflexivity].
      unfold bind at 1, lift at 1.
      destruct (get domain (u "note") (VStr [])) as [nt|e];
        [|eexists; reflexivity].
      destruct (Htail (VDict [(u "alias", n); (u "description", ds);
                              (u "ownerId", i); (u "note", nt)])
                      (Ok n)) as [e [He _]].
      exists e. rewrite He. reflexivity.
    + unfold ret at 1.
      unfold bind at 1, lift at 1.
      destruct (subscript domain (u "name")) as [n|e] eqn:Hname;
        [|eexists; reflexivity].
      unfold bind at 1, lift at 1.
      destruct (get domain (u "description") (VStr [])) as [ds|e];
        [|eexists; reflexivity].
      unfold bind at 1, lift at 1.
      destruct (get domain (u "note") (VStr [])) as [nt|e];
        [|eexists; reflexivity].
      destruct (Htail (VDict [(u "alias", n); (u "description", ds);
                              (u "ownerId", VNone); (u "note", nt)])
                      (Ok n)) as [e [He _]].
      exists e. rewrite He. reflexivity.
  - intros d name owner_id -> Hn Ho. unfold owner_variable in Ho.
    unfold convert_domain_to_system.
    unfold bind at 1. unfold lift at 1. cbn [get].
    assert (Hov : forall (k : value -> M value),
      (let (r0, w') :=
         (if truthy match dict_get d (u "owner") with
                    | Some v => v | None => VStr [] end
          then o <- lift (subscript (VDict d) (u "owner")) ;;
               lift (subscript o (u "id"))
          else ret VNone) w in
       match r0 with Ok a => k a w' | Raise e => (Raise e, w') end)
      = k owner_id w).
    { intros k. cbn [subscript].
      destruct (dict_get d (u "owner")) as [o|]; cbn [truthy].
      - destruct (truthy o) eqn:To.
        + destruct o as [| | | | |od]; try discriminate Ho.
          unfold bind, lift. cbn [subscript]. rewrite Ho. reflexivity.
        + injection Ho as <-. reflexivity.
      - injection Ho as <-. reflexivity. }
    replace (match dict_get d (u "owner") with
             | Some v => Ok v | None => Ok (VStr []) end)
      with (Ok match dict_get d (u "owner") with
               | Some v => v | None => VStr [] end)
      by (destruct (dict_get d (u "owner")); reflexivity).
    cbn beta iota. unfold bind at 1. rewrite Hov.
    unfold bind at 1, lift at 1. cbn [subscript]. rewrite Hn. cbn beta iota.
    unfold bind at 1, lift at 1. cbn [get]. unfold carried.
    destruct (dict_get d (u "description")); cbn beta iota;
      unfold bind at 1, lift at 1; cbn [get];
      destruct (dict_get d (u "note")); cbn beta iota;
      match goal with
      | |- context [opslevel_graphql_query _ ?v] =>
          destruct (Htail v (Ok name)) as [e [He Hk]]
      end; exists e; (split; [exact He | exact Hk]).
Qed.

Lemma convert_domain_to_system_malformed_response_witness :
  let w := example_world [Response 200 validation_error_body] [] in
  exists e, fst (convert_domain_to_system payments_domain w) = Raise e.
Proof.
  intros w.
  refine (proj1 (@convert_domain_to_system_malformed_response
                   payments_domain w validation_error_body []
                   (VDict [(u "data", VDict [(u "systemCreate", VNone)]);
                           (u "errors",
                            VList [VDict [(u "message",
                                           VStr (u "Name taken"))]])])
                   eq_refl _ eq_refl)).
  vm_compute. reflexivity.
Defined.

(** *** The dispatcher *)

Lemma str_eqb_false (a b : str) : a <> b -> str_eqb a b = false.
Proof.
  intros H. unfold str_eqb.
  destruct (list_eq_dec N.eq_dec a b); [contradiction | reflexivity].
Qed.

Lemma str_eqb_refl (a : str) : str_eqb a a = true.
Proof.
  unfold str_eqb. destruct (list_eq_dec N.eq_dec a a); congruence.
Qed.

Lemma str_eqb_eq (a b : str) : str_eqb a b = true -> a = b.
Proof.
  unfold str_eqb. destruct (list_eq_dec N.eq_dec a b); congruence.
Qed.

Lemma print_run line w :
  print line w = (Ok VNone, set_stdout w (stdout w ++ [Print line])).
Proof. reflexivity. Qed.

Lemma set_stdout_twice w a b : set_stdout (set_stdout w a) b = set_stdout w b.
Proof. reflexivity. Qed.

Lemma stdout_set_stdout w a : stdout (set_stdout w a) = a.
Proof. reflexivity. Qed.

Lemma stdin_set_stdout w a : stdin (set_stdout w a) = stdin w.
Proof. reflexivity. Qed.

Lemma set_stdin_set_stdout w a r :
  set_stdin (set_stdout w a) r = set_stdout (set_stdin w r) a.
Proof. reflexivity. Qed.

(** C7: when the line read is none of the five defined choices, [main]
    prints the menu and the invalid-choice message and returns; it reads
    no second line, posts no request, consumes no answer and writes no
    file. *)
Theorem main_invalid_choice :
  forall w choice rest,
    stdin w = choice :: rest ->
    ~ In choice menu_choices ->
    main w
    = (Ok VNone,
       set_stdout (set_stdin w rest)
         (stdout w ++ menu_output ++
          [Print [Text (u "Invalid choice. Please enter 1, 2, 3, 4, or 5.")]]))
    /\ sent (snd (main w)) = sent w
    /\ net (snd (main w)) = net w
    /\ files (snd (main w)) = files w
    /\ stdin (snd (main w)) = rest.
Proof.
  intros w choice rest Hin Hc.
  assert (Hmain : main w
    = (Ok VNone,
       set_stdout (set_stdin w rest)
         (stdout w ++ menu_output ++
          [Print [Text (u "Invalid choice. Please enter 1, 2, 3, 4, or 5.")]]))).
  { unfold main.
    do 5 (unfold bind at 1; rewrite print_run; cbn beta iota;
          rewrite ?set_stdout_twice, ?stdout_set_stdout).
    unfold bind at 1. unfold input.
    rewrite stdin_set_stdout, Hin, stdout_set_stdout, set_stdout_twice.
    cbn beta iota.
    unfold menu_choices in Hc. cbn [List.map In] in Hc.
    rewrite !str_eqb_false by (intros ->; apply Hc; auto 10).
    unfold bind at 1. rewrite print_run. cbn beta iota. unfold ret.
    rewrite set_stdin_set_stdout, set_stdout_twice, stdout_set_stdout.
    unfold menu_output. rewrite <- !List.app_assoc. reflexivity. }
  rewrite Hmain. repeat split.
Qed.

Lemma main_invalid_choice_witness :
  let w := example_world [Response 200 system_created_body] [u "9"; u "1"] in
  sent (snd (main w)) = sent w /\ net (snd (main w)) = net w.
Proof.
  intros w.
  pose proof (@main_invalid_choice w (u "9") [u "1"] eq_refl) as H.
  assert (Hc : ~ In (u "9") menu_choices).
  { vm_compute. intros [H1|[H1|[H1|[H1|[H1|[]]]]]]; discriminate H1. }
  destruct (H Hc) as (_ & H1 & H2 & _). split; assumption.
Defined.

(** *** Reconciliation *)

(** The handler of [update_systems_with_services] as written: were
    [load_domains_from_file] bound to a function that raises
    [FileNotFoundError], the message would be printed and the function
    would return without a request. *)
Lemma update_systems_with_services_in_handler :
  forall globals w path rest,
    stdin w = path :: rest ->
    globals (u "load_domains_from_file")
    = Some (fun _ => raise FileNotFoundError) ->
    update_systems_with_services_in globals w
    = (Ok VNone,
       set_stdout (set_stdin w rest)
         (stdout w ++
          [Prompt (u "Please enter the path to the domains_data.json file: ");
           Print [Text (u "File " ++ path
                        ++ u " not found. Please try again.")]])).
Proof.
  intros globals w path rest Hin Hg.
  unfold update_systems_with_services_in, bind, input, try_, call_global.
  cbn [stdin set_stdout]. rewrite Hin, Hg.
  unfold raise, print, ret. f_equal. world_eq.
Qed.

Lemma update_systems_with_services_in_handler_witness :
  let w := example_world [] [u "domains_data_20240307.json"] in
  fst (update_systems_with_services_in loader_file_not_found w) = Ok VNone.
Proof.
  intros w.
  rewrite (@update_systems_with_services_in_handler loader_file_not_found w
             (u "domains_data_20240307.json") [] eq_refl eq_refl).
  reflexivity.
Defined.

(** In the file itself the name is bound nowhere. *)
Lemma load_domains_from_file_unbound :
  ~ In (u "load_domains_from_file") module_names /\
  module_globals (u "load_domains_from_file") = None.
Proof.
  split; [|reflexivity].
  intros H. apply (in_map (str_eqb (u "load_domains_from_file"))) in H.
  rewrite str_eqb_refl in H. vm_compute in H.
  repeat (destruct H as [H|H]; [discriminate H|]). exact H.
Qed.

(** C8 (the code departs from it): with the reconciliation option chosen
    and a path that names no file, the run does not reach the handler.
    The call of the unbound name [load_domains_from_file] raises
    [NameError], which [except FileNotFoundError] does not catch: the
    error propagates out of [main] and no not-found message is printed. *)
Theorem update_systems_with_services_missing_file :
  fs_read (files missing_snapshot_world) (u "domains_data_20240307.json") = None
  /\ main missing_snapshot_world
     = (Raise (NameError (u "load_domains_from_file")),
        set_stdout (set_stdin missing_snapshot_world [])
          (menu_output ++
           [Prompt (u "Please enter the path to the domains_data.json file: ")])).
Proof. split; reflexivity. Qed.

(** *** Snapshots *)

Lemma save_tail_returns (prefix message : str) (records : list value) w :
  exists w',
    (date_suffix <- date_suffix_now ;;
     save_to_file (prefix ++ date_suffix ++ u ".json") (VList records) ;;
     print [Text (message ++ (prefix ++ date_suffix ++ u ".json"))] ;;
     ret VNone) w = (Ok VNone, w').
Proof. eexists. reflexivity. Qed.

(** A failure of [c ;; k] with [k] unable to fail is a failure of [c]. *)
Lemma bind_failure_preserves {X A B} (field : world -> X)
      (c : M A) (k : A -> M B) :
  preserves field c ->
  (forall a w1, exists b w', k a w1 = (Ok b, w')) ->
  forall w e, fst (bind c k w) = Raise e ->
              field (snd (bind c k w)) = field w.
Proof.
  intros Hc Hk w e. unfold bind. specialize (Hc w).
  destruct (c w) as [[a|e'] w1]; cbn [snd] in *.
  - destruct (Hk a w1) as (b & w' & Hkw). rewrite Hkw. discriminate.
  - intros _. exact Hc.
Qed.

(** C9: when [fetch_and_save_systems] or [fetch_and_save_domains] ends
    with an exception (a transport error, a response that does not parse
    or lacks a field, at any page), the files are what they were before
    the run: the snapshot is written only after the last page. *)
Theorem snapshot_untouched_on_failure :
  forall w e,
    (fst (fetch_and_save_systems w) = Raise e ->
     files (snd (fetch_and_save_systems w)) = files w) /\
    (fst (fetch_and_save_domains w) = Raise e ->
     files (snd (fetch_and_save_domains w)) = files w).
Proof.
  intros w e. split.
  - apply bind_failure_preserves.
    + apply preserves_while. intros s'. preserves_tac.
    + intros st w1.
      destruct (@save_tail_returns (u "systems_data_")
                  (u "Systems data saved to ") (data_acc st) w1) as [w' Hw'].
      exists VNone, w'. exact Hw'.
  - apply bind_failure_preserves.
    + apply preserves_while. intros s'. preserves_tac.
    + intros st w1.
      destruct (@save_tail_returns (u "domains_data_")
                  (u "Domains data saved to ") (data_acc st) w1) as [w' Hw'].
      exists VNone, w'. exact Hw'.
Qed.

Lemma snapshot_untouched_on_failure_witness :
  files (snd (fetch_and_save_systems failing_second_page_world))
  = [(u "systems_data_20240307.json", u "[]")].
Proof.
  refine (proj1 (@snapshot_untouched_on_failure failing_second_page_world
                   (Exception (u "OpsLevel request failed: Bad Gateway"))) _).
  vm_compute. reflexivity.
Defined.

(** *** Pagination *)

Lemma fetch_page_serves query kind st w o p rest :
  net w = o :: rest ->
  serves kind o p ->
  fetch_page query kind st w
  = (Ok {| data_acc := data_acc st ++ nodes p; end_cursor := endCursor p;
           has_next_page := VBool (hasNextPage p) |},
     set_net (set_sent w (sent w ++ [page_request (api_token w) query
                                       (end_cursor st)])) rest).
Proof.
  intros Hnet (text & r & -> & Hr & Hn & Hc & Hm).
  unfold fetch_page. cbn zeta. unfold bind at 1.
  rewrite opslevel_graphql_query_run, Hnet. cbn.
  unfold response_json. rewrite Hr.
  cbn [lookup_path] in Hn, Hc, Hm.
  unfold bind, lift, ret.
  destruct r as [| | | | |dr]; try discriminate Hn. cbn [subscript].
  destruct (dict_get dr (u "data")) as [r1|]; [|discriminate Hn].
  destruct r1 as [| | | | |d1]; try discriminate Hn. cbn [subscript].
  destruct (dict_get d1 (u "account")) as [r2|]; [|discriminate Hn].
  destruct r2 as [| | | | |d2]; try discriminate Hn. cbn [subscript].
  destruct (dict_get d2 kind) as [r3|]; [|discriminate Hn].
  destruct r3 as [| | | | |d3]; try discriminate Hn. cbn [subscript].
  destruct (dict_get d3 (u "nodes")) as [r5|]; [|discriminate Hn].
  injection Hn as ->. cbn [iterate].
  destruct (dict_get d3 (u "pageInfo")) as [r4|]; [|discriminate Hc].
  destruct r4 as [| | | | |d4]; try discriminate Hc. cbn [subscript].
  destruct (dict_get d4 (u "endCursor")) as [r6|]; [|discriminate Hc].
  injection Hc as ->.
  destruct (dict_get d4 (u "hasNextPage")) as [r7|]; [|discriminate Hm].
  injection Hm as ->. reflexivity.
Qed.

Lemma while_fetch_pages query kind :
  forall init last answers rest st w fuel,
    truthy (has_next_page st) = true ->
    net w = answers ++ rest ->
    Forall2 (serves kind) answers (init ++ [last]) ->
    Forall (fun p => hasNextPage p = true) init ->
    hasNextPage last = false ->
    (List.length init < fuel)%nat ->
    while_fuel fuel (fun st => truthy (has_next_page st))
               (fetch_page query kind) st w
    = (Ok {| data_acc := data_acc st ++ List.concat (List.map nodes (init ++ [last]));
             end_cursor := endCursor last;
             has_next_page := VBool false |},
       set_net
         (set_sent w
            (sent w ++ List.map (page_request (api_token w) query)
                                (end_cursor st :: List.map endCursor init)))
         rest).
Proof.
  induction init as [|p init IH];
    intros last answers rest st w fuel Hst Hnet Hserve Hmore Hlast Hfuel.
  - cbn [Datatypes.app] in Hserve.
    inversion Hserve as [|o p' answers' ps' Ho Hrest]; subst.
    inversion Hrest; subst. cbn [Datatypes.app] in Hnet.
    destruct fuel as [|fuel]; [inversion Hfuel|].
    cbn [while_fuel]. rewrite Hst. unfold bind.
    rewrite (fetch_page_serves query st w Hnet Ho).
    destruct fuel; cbn [while_fuel has_next_page truthy]; rewrite Hlast;
      cbn [List.map List.concat Datatypes.app]; rewrite app_nil_r; reflexivity.
  - cbn [Datatypes.app] in Hserve.
    inversion Hserve as [|o p' answers' ps' Ho Hrest]; subst.
    cbn [Datatypes.app] in Hnet. inversion Hmore as [|? ? Hp Hmore']; subst.
    destruct fuel as [|fuel]; [inversion Hfuel|].
    cbn [while_fuel]. rewrite Hst. unfold bind.
    rewrite (fetch_page_serves query st w Hnet Ho).
    rewrite (IH last answers' rest _ _ fuel); cbn [has_next_page truthy net set_net];
      try assumption; try reflexivity.
    + f_equal.
      * cbn [data_acc List.map List.concat Datatypes.app]. rewrite <- app_assoc. reflexivity.
      * unfold set_net, set_sent;
          cbn [api_token net sent files stdin stdout now end_cursor List.map].
        rewrite <- app_assoc. reflexivity.
    + cbn [List.length] in Hfuel. lia.
Qed.

Lemma fetch_and_save_systems_rounds :
  fetch_and_save_systems
  = (st <- while_ (fun st => truthy (has_next_page st))
             (fetch_page OL_SYSTEMS_QUERY (u "systems")) loop_init ;;
     date_suffix <- date_suffix_now ;;
     let filename := u "systems_data_" ++ date_suffix ++ u ".json" in
     save_to_file filename (VList (data_acc st)) ;;
     print [Text (u "Systems data saved to " ++ filename)] ;;
     ret VNone).
Proof. reflexivity. Qed.

Lemma fetch_and_save_domains_rounds :
  fetch_and_save_domains
  = (st <- while_ (fun st => truthy (has_next_page st))
             (fetch_page OL_DOMAINS_QUERY (u "domains")) loop_init ;;
     date_suffix <- date_suffix_now ;;
     let filename := u "domains_data_" ++ date_suffix ++ u ".json" in
     save_to_file filename (VList (data_acc st)) ;;
     print [Text (u "Domains data saved to " ++ filename)] ;;
     ret VNone).
Proof. reflexivity. Qed.

Lemma snapshot_run query kind prefix message w answers rest init last :
  net w = answers ++ rest ->
  Forall2 (serves kind) answers (init ++ [last]) ->
  Forall (fun p => hasNextPage p = true) init ->
  hasNextPage last = false ->
  (st <- while_ (fun st => truthy (has_next_page st))
           (fetch_page query kind) loop_init ;;
   date_suffix <- date_suffix_now ;;
   let filename := prefix ++ date_suffix ++ u ".json" in
   save_to_file filename (VList (data_acc st)) ;;
   print [Text (message ++ filename)] ;;
   ret VNone) w
  = (Ok VNone, after_snapshot w query prefix message rest init last).
Proof.
  intros Hnet Hserve Hmore Hlast.
  unfold bind at 1. unfold while_.
  rewrite (@while_fetch_pages query kind init last answers rest loop_init w
             (S (List.length (net w)))); try assumption; try reflexivity.
  rewrite Hnet, length_app.
  apply Forall2_length in Hserve. rewrite Hserve, length_app.
  cbn [List.length]. lia.
Qed.

(** C1: when the endpoint answers the coming requests with well-formed
    pages, all but the last with [hasNextPage] true, the loop of
    [fetch_and_save_systems] (and of [fetch_and_save_domains]) ends after
    one request per page, the first with an absent cursor and each next
    one with the [endCursor] of the page before, and what it accumulated,
    and then wrote, is the concatenation of the pages' nodes in the order
    served. *)
Theorem pagination_concatenates_pages :
  forall w answers rest init last,
    net w = answers ++ rest ->
    Forall (fun p => hasNextPage p = true) init ->
    hasNextPage last = false ->
    (Forall2 (serves (u "systems")) answers (init ++ [last]) ->
     fetch_and_save_systems w
     = (Ok VNone,
        after_snapshot w OL_SYSTEMS_QUERY (u "systems_data_")
          (u "Systems data saved to ") rest init last)
     /\ List.length (sent (snd (fetch_and_save_systems w)))
        = (List.length (sent w) + List.length (init ++ [last]))%nat) /\
    (Forall2 (serves (u "domains")) answers (init ++ [last]) ->
     fetch_and_save_domains w
     = (Ok VNone,
        after_snapshot w OL_DOMAINS_QUERY (u "domains_data_")
          (u "Domains data saved to ") rest init last)
     /\ List.length (sent (snd (fetch_and_save_domains w)))
        = (List.length (sent w) + List.length (init ++ [last]))%nat).
Proof.
  intros w answers rest init last Hnet Hmore Hlast.
  assert (Hlen : forall query prefix message,
    List.length (sent (after_snapshot w query prefix message rest init last))
    = (List.length (sent w) + List.length (init ++ [last]))%nat).
  { intros. unfold after_snapshot, set_stdout, set_files, set_net, set_sent.
    cbn [sent]. rewrite !length_app. cbn [List.length List.map].
    rewrite !length_map. lia. }
  split; intros Hserve.
  - rewrite fetch_and_save_systems_rounds.
    rewrite (@snapshot_run OL_SYSTEMS_QUERY (u "systems") (u "systems_data_")
               (u "Systems data saved to ") w answers rest init last);
      try assumption.
    split; [reflexivity | apply Hlen].
  - rewrite fetch_and_save_domains_rounds.
    rewrite (@snapshot_run OL_DOMAINS_QUERY (u "domains") (u "domains_data_")
               (u "Domains data saved to ") w answers rest init last);
      try assumption.
    split; [reflexivity | apply Hlen].
Qed.

Lemma pagination_concatenates_pages_witness :
  let w := example_world (three_answers "systems") [] in
  fetch_and_save_systems w
  = (Ok VNone,
     after_snapshot w OL_SYSTEMS_QUERY (u "systems_data_")
       (u "Systems data saved to ") [] first_two_pages third_page).
Proof.
  intros w.
  assert (Hmore : Forall (fun p => hasNextPage p = true) first_two_pages).
  { repeat constructor. }
  assert (Hserve : Forall2 (serves (u "systems")) (three_answers "systems")
                     (first_two_pages ++ [third_page])).
  { repeat (apply Forall2_cons || apply Forall2_nil);
      (eexists; eexists; split; [reflexivity|];
       split; [vm_compute; reflexivity | repeat split]). }
  exact (proj1 (proj1 (@pagination_concatenates_pages w
                  (three_answers "systems") [] first_two_pages third_page
                  (eq_sym (app_nil_r _)) Hmore eq_refl) Hserve)).
Defined.

(** *** The JSON codec: characters *)

Lemma unhex_hex_digit d : d < 16 -> Json.unhex (Json.hex_digit d) = Some d.
Proof.
  intros H. unfold Json.hex_digit, Json.unhex.
  destruct (N.ltb_spec d 10) as [Hd|Hd].
  - replace ((48 <=? 48 + d) && (48 + d <=? 57)) with true.
    + f_equal. lia.
    + symmetry. apply andb_true_iff. split; apply N.leb_le; lia.
  - replace ((48 <=? 87 + d) && (87 + d <=? 57)) with false.
    + replace ((97 <=? 87 + d) && (87 + d <=? 102)) with true.
      * f_equal. lia.
      * symmetry. apply andb_true_iff. split; apply N.leb_le; lia.
    + symmetry. apply andb_false_iff. right. apply N.leb_gt. lia.
Qed.

Lemma unhex4_hex4 n :
  n < 65536 ->
  Json.unhex4 (Json.hex_digit ((n / 4096) mod 16))
              (Json.hex_digit ((n / 256) mod 16))
              (Json.hex_digit ((n / 16) mod 16))
              (Json.hex_digit (n mod 16)) = Some n.
Proof.
  intros H. unfold Json.unhex4.
  rewrite !unhex_hex_digit by (apply N.mod_lt; discriminate).
  f_equal. zify. Z.to_euclidean_division_equations. lia.
Qed.

Lemma lor_shiftl_add a b k :
  b < 2 ^ k -> N.lor (N.shiftl a k) b = a * 2 ^ k + b.
Proof.
  intros H.
  assert (Hland : N.land (N.shiftl a k) b = 0).
  { apply N.bits_inj. intros i. rewrite N.land_spec, N.bits_0.
    destruct (N.lt_ge_cases i k) as [Hi|Hi].
    - rewrite N.shiftl_spec_low by exact Hi. reflexivity.
    - destruct (N.eq_dec b 0) as [->|Hb].
      + rewrite N.bits_0. apply andb_false_r.
      + rewrite (N.bits_above_log2 b i).
        * apply andb_false_r.
        * apply N.log2_lt_pow2; [lia|].
          apply N.lt_le_trans with (2 ^ k); [exact H|].
          apply N.pow_le_mono_r; [discriminate | exact Hi]. }
  rewrite <- N.lxor_lor by exact Hland.
  rewrite <- N.add_nocarry_lxor by exact Hland.
  rewrite N.shiftl_mul_pow2. reflexivity.
Qed.

(** The surrogate pair of the encoder, in arithmetic. *)
Lemma high_surrogate_of n :
  n < 1048576 ->
  N.lor 55296 (N.land (N.shiftr n 10) 1023) = 55296 + n / 1024.
Proof.
  intros H.
  change 1023 with (N.ones 10). rewrite N.land_ones, N.shiftr_div_pow2.
  change (2 ^ 10) with 1024.
  assert (Hq : n / 1024 < 1024) by (apply N.Div0.div_lt_upper_bound; exact H).
  rewrite N.mod_small by exact Hq.
  change 55296 with (N.shiftl 54 10) at 1.
  rewrite lor_shiftl_add by exact Hq. reflexivity.
Qed.

Lemma low_surrogate_of n :
  N.lor 56320 (N.land n 1023) = 56320 + n mod 1024.
Proof.
  change 1023 with (N.ones 10). rewrite N.land_ones.
  change (2 ^ 10) with 1024.
  change 56320 with (N.shiftl 55 10) at 1.
  rewrite lor_shiftl_add by (apply N.mod_lt; discriminate). reflexivity.
Qed.

Lemma join_surrogates n :
  n < 1048576 ->
  65536 + N.lor (N.shiftl (55296 + n / 1024 - 55296) 10)
                (56320 + n mod 1024 - 56320) = 65536 + n.
Proof.
  intros H.
  rewrite (N.add_comm 55296), N.add_sub, (N.add_comm 56320), N.add_sub.
  rewrite lor_shiftl_add by (apply N.mod_lt; discriminate).
  change (2 ^ 10) with 1024.
  rewrite N.mul_comm, <- N.div_mod by discriminate. reflexivity.
Qed.

(** *** The JSON codec: strings *)

Lemma scanstring_short e ch t :
  Json.unescape e = Some ch ->
  Json.scanstring (92 :: e :: t) = Json.cons_char ch (Json.scanstring t).
Proof.
  intros H. cbn [Json.scanstring].
  change (92 =? 34) with false. change (92 =? 92) with true. cbn beta iota.
  destruct (N.eqb_spec e 117) as [->|_].
  - discriminate H.
  - rewrite H. reflexivity.
Qed.

Lemma scanstring_literal c t :
  c <> 34 -> c <> 92 -> 32 <= c ->
  Json.scanstring (c :: t) = Json.cons_char c (Json.scanstring t).
Proof.
  intros H1 H2 H3. cbn [Json.scanstring].
  destruct (N.eqb_spec c 34); [contradiction|].
  destruct (N.eqb_spec c 92); [contradiction|].
  destruct (N.ltb_spec c 32); [lia | reflexivity].
Qed.

Lemma scanstring_u h1 h2 h3 h4 uni t :
  Json.unhex4 h1 h2 h3 h4 = Some uni ->
  (Json.is_high_surrogate uni = true -> no_low_escape_ahead t) ->
  Json.scanstring (92 :: 117 :: h1 :: h2 :: h3 :: h4 :: t)
  = Json.cons_char uni (Json.scanstring t).
Proof.
  intros Hu Hnext. cbn [Json.scanstring].
  change (92 =? 34) with false. change (92 =? 92) with true.
  change (117 =? 117) with true. cbn beta iota. rewrite Hu.
  destruct (Json.is_high_surrogate uni); [|reflexivity].
  specialize (Hnext eq_refl).
  destruct t as [|b1 [|b2 [|g1 [|g2 [|g3 [|g4 t']]]]]]; try reflexivity.
  destruct (N.eqb_spec b1 92) as [->|]; [|reflexivity].
  destruct (N.eqb_spec b2 117) as [->|]; [|reflexivity].
  cbn [andb].
  destruct (Hnext g1 g2 g3 g4 t' eq_refl) as (uni2 & -> & ->). reflexivity.
Qed.

Lemma scanstring_u_pair h1 h2 h3 h4 g1 g2 g3 g4 uni uni2 t :
  Json.unhex4 h1 h2 h3 h4 = Some uni ->
  Json.is_high_surrogate uni = true ->
  Json.unhex4 g1 g2 g3 g4 = Some uni2 ->
  Json.is_low_surrogate uni2 = true ->
  Json.scanstring (92 :: 117 :: h1 :: h2 :: h3 :: h4
                   :: 92 :: 117 :: g1 :: g2 :: g3 :: g4 :: t)
  = Json.cons_char (65536 + N.lor (N.shiftl (uni - 55296) 10) (uni2 - 56320))
                   (Json.scanstring t).
Proof.
  intros Hu Hh Hu2 Hl. cbn [Json.scanstring].
  change (92 =? 34) with false. change (92 =? 92) with true.
  change (117 =? 117) with true. cbn beta iota.
  rewrite Hu, Hh. cbn [andb]. rewrite Hu2, Hl. reflexivity.
Qed.

Lemma escape_char_class c :
  c < 1114112 -> escape_class c (Json.escape_char c).
Proof.
  intros Hc. unfold Json.escape_char.
  destruct (N.eqb_spec c 34) as [->|]; [apply EscShort; reflexivity|].
  destruct (N.eqb_spec c 92) as [->|]; [apply EscShort; reflexivity|].
  destruct (N.eqb_spec c 10) as [->|]; [apply EscShort; reflexivity|].
  destruct (N.eqb_spec c 13) as [->|]; [apply EscShort; reflexivity|].
  destruct (N.eqb_spec c 9) as [->|]; [apply EscShort; reflexivity|].
  destruct (N.eqb_spec c 12) as [->|]; [apply EscShort; reflexivity|].
  destruct (N.eqb_spec c 8) as [->|]; [apply EscShort; reflexivity|].
  destruct (N.leb_spec 32 c) as [H32|H32]; cbn [andb].
  - destruct (N.leb_spec c 126) as [H126|H126].
    + apply EscLiteral; assumption.
    + destruct (N.ltb_spec c 65536) as [Hb|Hb].
      * apply EscU; [assumption | right; assumption].
      * cbn zeta.
        rewrite high_surrogate_of, low_surrogate_of by lia.
        apply EscPair. assumption.
  - destruct (N.ltb_spec c 65536) as [Hb|Hb]; [|lia].
    apply EscU; [assumption | left; assumption].
Qed.

Lemma scanstring_class c e t :
  escape_class c e ->
  c < 1114112 ->
  (Json.is_high_surrogate c = true -> no_low_escape_ahead t) ->
  Json.scanstring (e ++ t) = Json.cons_char c (Json.scanstring t).
Proof.
  intros Hcls Hc Hnext. destruct Hcls as [e He|H1 H2 H3 H4|Hb Hr|Ha].
  - apply scanstring_short. exact He.
  - apply scanstring_literal; assumption.
  - unfold Json.hex4. cbn [Datatypes.app].
    apply scanstring_u; [apply unhex4_hex4; exact Hb | exact Hnext].
  - set (n := c - 65536).
    assert (Hn : n < 1048576) by (subst n; lia).
    assert (Hq : n / 1024 < 1024) by (apply N.Div0.div_lt_upper_bound; exact Hn).
    assert (Hm : n mod 1024 < 1024) by (apply N.mod_lt; discriminate).
    unfold Json.hex4. cbn [Datatypes.app].
    rewrite (@scanstring_u_pair _ _ _ _ _ _ _ _
               (55296 + n / 1024) (56320 + n mod 1024)).
    + rewrite join_surrogates by exact Hn.
      replace (65536 + n) with c by (subst n; lia). reflexivity.
    + apply unhex4_hex4. revert Hq. generalize (n / 1024). intros; lia.
    + unfold Json.is_high_surrogate. apply andb_true_iff.
      revert Hq. generalize (n / 1024). intros.
      split; apply N.leb_le; lia.
    + apply unhex4_hex4. revert Hm. generalize (n mod 1024). intros; lia.
    + unfold Json.is_low_surrogate. apply andb_true_iff.
      revert Hm. generalize (n mod 1024). intros.
      split; apply N.leb_le; lia.
Qed.

Lemma u_escape_no_low n t :
  n < 65536 ->
  Json.is_low_surrogate n = false ->
  no_low_escape_ahead (92 :: 117 :: Json.hex4 n ++ t).
Proof.
  intros Hn Hlow g1 g2 g3 g4 t' Heq.
  unfold Json.hex4 in Heq. cbn [Datatypes.app] in Heq.
  injection Heq as <- <- <- <- _.
  exists n. split; [apply unhex4_hex4; exact Hn | exact Hlow].
Qed.

Lemma class_no_low_escape c e t :
  escape_class c e ->
  c < 1114112 ->
  Json.is_low_surrogate c = false ->
  no_low_escape_ahead (e ++ t).
Proof.
  intros Hcls Hc Hlow.
  destruct Hcls as [e He|H1 H2 H3 H4|Hb Hr|Ha].
  - intros g1 g2 g3 g4 t' Heq.
    cbn [Datatypes.app] in Heq. injection Heq as -> _. discriminate He.
  - intros g1 g2 g3 g4 t' Heq.
    cbn [Datatypes.app] in Heq. injection Heq as Hc92 _. contradiction.
  - apply (@u_escape_no_low c t Hb Hlow).
  - assert (Hq : (c - 65536) / 1024 < 1024)
      by (apply N.Div0.div_lt_upper_bound; lia).
    revert Hq. generalize ((c - 65536) / 1024). intros q Hq.
    cbn [Datatypes.app]. rewrite <- List.app_assoc.
    apply u_escape_no_low; [lia|].
    unfold Json.is_low_surrogate. apply andb_false_iff. left.
    apply N.leb_gt. lia.
Qed.

Lemma scanstring_escaped s rest :
  str_native s = true ->
  Json.scanstring (flat_map Json.escape_char s ++ 34 :: rest) = Some (s, rest).
Proof.
  induction s as [|c s IH]; intros Hs.
  - reflexivity.
  - cbn [str_native] in Hs.
    apply andb_true_iff in Hs. destruct Hs as [Hs Hs'].
    apply andb_true_iff in Hs. destruct Hs as [Hc Hnext].
    apply N.ltb_lt in Hc.
    cbn [flat_map]. rewrite <- app_assoc.
    rewrite (@scanstring_class c); [| apply escape_char_class; exact Hc
                                    | exact Hc |].
    + rewrite IH by exact Hs'. reflexivity.
    + intros Hhigh. rewrite Hhigh in Hnext.
      destruct s as [|c' s'].
      * intros g1 g2 g3 g4 t' Heq. discriminate Heq.
      * cbn [flat_map]. rewrite <- app_assoc.
        cbn [str_native] in Hs'.
        apply andb_true_iff in Hs'. destruct Hs' as [Hs' _].
        apply andb_true_iff in Hs'. destruct Hs' as [Hc' _].
        apply N.ltb_lt in Hc'.
        apply class_no_low_escape with (c := c');
          [apply escape_char_class; exact Hc' | exact Hc' |].
        apply negb_true_iff. exact Hnext.
Qed.

Lemma scanstring_encoded s rest :
  str_native s = true ->
  exists t, Json.encode_basestring_ascii s ++ rest = 34 :: t
            /\ Json.scanstring t = Some (s, rest).
Proof.
  intros Hs. exists (flat_map Json.escape_char s ++ 34 :: rest). split.
  - unfold Json.encode_basestring_ascii. cbn [Datatypes.app].
    rewrite <- app_assoc. reflexivity.
  - apply scanstring_escaped. exact Hs.
Qed.

(** *** The JSON codec: integers *)

Lemma scan_digits_uint d rest :
  match rest with
  | c :: _ => Json.is_digit c = false
  | [] => True
  end ->
  Json.scan_digits (Json.uint_digits d ++ rest) = (d, rest).
Proof.
  intros Hrest.
  induction d; cbn [Json.uint_digits Datatypes.app Json.scan_digits];
    try (change (Json.is_digit _) with true; cbn beta iota;
         rewrite IHd; reflexivity).
  destruct rest as [|c rest]; [reflexivity|].
  cbn [Json.scan_digits]. rewrite Hrest. reflexivity.
Qed.

Lemma to_uint_head p d : Pos.to_uint p <> D0 d.
Proof.
  intros H.
  pose proof (DecimalPos.Unsigned.to_of (Pos.to_uint p)) as Hn.
  rewrite DecimalPos.Unsigned.of_to in Hn. cbn [N.to_uint] in Hn.
  destruct (uint_eq_dec (nzhead (Pos.to_uint p)) Nil) as [E|E].
  - apply DecimalFacts.unorm_0 in E. rewrite <- Hn in E.
    exact (DecimalPos.Unsigned.to_uint_nonzero p E).
  - rewrite (DecimalFacts.unorm_nzhead _ E) in Hn. rewrite H in Hn at 1.
    exact (DecimalFacts.nzhead_nonzero _ _ (eq_sym Hn)).
Qed.

Lemma ends_number_float_tail rest :
  ends_number rest = true -> Json.float_tail rest = false.
Proof.
  destruct rest as [|c rest]; [reflexivity|].
  unfold ends_number. intros H. apply andb_true_iff in H.
  destruct H as [_ H]. apply negb_true_iff in H. exact H.
Qed.

Lemma ends_number_no_digit rest :
  ends_number rest = true ->
  match rest with
  | c :: _ => Json.is_digit c = false
  | [] => True
  end.
Proof.
  destruct rest as [|c rest]; [trivial|].
  unfold ends_number. intros H. apply andb_true_iff in H.
  destruct H as [H _]. apply negb_true_iff in H. exact H.
Qed.

(** The digits of a positive number, read back. *)
Lemma match_digits (p : positive) (rest : str) (neg : bool) :
  ends_number rest = true ->
  exists c t,
    Json.uint_digits (Pos.to_uint p) ++ rest = c :: t /\
    Json.is_digit c = true /\ c <> 45 /\
    (let s1 := c :: t in
     (if c =? 48 then
        if Json.float_tail t then None else Some (VInt 0, t)
      else if Json.is_digit c then
        let (d, rest') := Json.scan_digits s1 in
        if Json.float_tail rest' then None
        else
          let z := Z.of_uint d in
          Some (VInt (if neg then Z.opp z else z), rest')
      else None)
     = Some (VInt (if neg then Z.neg p else Z.pos p), rest)).
Proof.
  intros Hrest.
  pose proof (scan_digits_uint (Pos.to_uint p) rest
                (ends_number_no_digit rest Hrest)) as Hscan.
  pose proof (ends_number_float_tail rest Hrest) as Hft.
  pose proof (DecimalPos.Unsigned.of_to p) as Hof.
  pose proof (@to_uint_head p) as Hhead.
  pose proof (DecimalPos.Unsigned.to_uint_nonnil p) as Hnil.
  assert (Hz : Z.of_uint (Pos.to_uint p) = Z.pos p).
  { unfold Z.of_uint. rewrite Hof. reflexivity. }
  destruct (Pos.to_uint p) as [|d|d|d|d|d|d|d|d|d|d] eqn:E;
    [contradiction | exfalso; exact (Hhead d eq_refl) | ..];
    cbn [Json.uint_digits Datatypes.app] in *;
    eexists; eexists; (split; [reflexivity|]);
    (split; [reflexivity|]); (split; [discriminate|]);
    cbn zeta; rewrite Hscan, Hft, Hz;
    destruct neg; reflexivity.
Qed.

Lemma match_number_int_repr z rest :
  ends_number rest = true ->
  Json.match_number (Json.int_repr z ++ rest) = Some (VInt z, rest).
Proof.
  intros Hrest. unfold Json.int_repr.
  destruct z as [|p|p]; cbn [Z.to_int].
  - cbn. rewrite (ends_number_float_tail rest Hrest). reflexivity.
  - destruct (match_digits p rest false Hrest) as (c & t & Heq & Hd & Hc & Hrun).
    rewrite Heq. unfold Json.match_number.
    destruct (N.eqb_spec c 45) as [|_]; [contradiction|].
    cbn zeta in *. cbn beta iota. exact Hrun.
  - destruct (match_digits p rest true Hrest) as (c & t & Heq & Hd & Hc & Hrun).
    cbn [Datatypes.app]. rewrite Heq. unfold Json.match_number.
    change (45 =? 45) with true. cbn zeta in *. cbn beta iota. exact Hrun.
Qed.

Lemma int_repr_head z rest :
  exists c t, Json.int_repr z ++ rest = c :: t /\
              (c = 45 \/ Json.is_digit c = true).
Proof.
  unfold Json.int_repr. destruct z as [|p|p]; cbn [Z.to_int].
  - eexists; eexists; split; [reflexivity | right; reflexivity].
  - destruct (match_digits p [] false eq_refl)
      as (c & t & Heq & Hd & _).
    rewrite List.app_nil_r in Heq. rewrite Heq.
    eexists; eexists; split; [reflexivity | right; exact Hd].
  - eexists; eexists; split; [reflexivity | left; reflexivity].
Qed.

(** *** The JSON codec: values *)

Lemma value_ind' (P : value -> Prop) :
  P VNone -> (forall b, P (VBool b)) -> (forall z, P (VInt z)) ->
  (forall s, P (VStr s)) ->
  (forall l, Forall P l -> P (VList l)) ->
  (forall d, Forall (fun kv => P (snd kv)) d -> P (VDict d)) ->
  forall v, P v.
Proof.
  intros HNone HBool HInt HStr HList HDict.
  fix IH 1. intros [| b | z | s | l | d].
  - exact HNone.
  - apply HBool.
  - apply HInt.
  - apply HStr.
  - apply HList. induction l as [|x l IHl]; constructor; [apply IH | exact IHl].
  - apply HDict. induction d as [|[k x] d IHd]; constructor;
      [apply IH | exact IHd].
Qed.

Lemma iterencode_list x xs level :
  Json.iterencode (VList (x :: xs)) level
  = 91 :: Json.newline_indent (S level) ++ Json.iterencode x (S level)
    ++ flat_map (fun y => 44 :: Json.newline_indent (S level)
                          ++ Json.iterencode y (S level)) xs
    ++ Json.newline_indent level ++ [93].
Proof.
  cbn [Json.iterencode]. do 4 f_equal.
  induction xs as [|y xs IH]; [reflexivity|].
  cbn [flat_map]. rewrite <- IH.
  cbn [Datatypes.app]. rewrite <- !List.app_assoc. reflexivity.
Qed.

Lemma iterencode_dict k x kxs level :
  Json.iterencode (VDict ((k, x) :: kxs)) level
  = 123 :: Json.newline_indent (S level)
    ++ Json.encode_basestring_ascii k ++ [58; 32]
    ++ Json.iterencode x (S level)
    ++ flat_map (fun kv => 44 :: Json.newline_indent (S level)
                           ++ Json.encode_basestring_ascii (fst kv) ++ [58; 32]
                           ++ Json.iterencode (snd kv) (S level)) kxs
    ++ Json.newline_indent level ++ [125].
Proof.
  cbn [Json.iterencode]. do 6 f_equal.
  induction kxs as [|[k' y] kxs IH]; [reflexivity|].
  cbn [flat_map fst snd]. rewrite <- IH.
  cbn [Datatypes.app]. rewrite <- !List.app_assoc. reflexivity.
Qed.

Lemma skip_ws_spaces n t :
  Json.skip_ws (repeat 32 n ++ t) = Json.skip_ws t.
Proof. induction n as [|n IH]; [reflexivity | exact IH]. Qed.

Lemma skip_ws_newline_indent level t :
  Json.skip_ws (Json.newline_indent level ++ t) = Json.skip_ws t.
Proof.
  unfold Json.newline_indent. cbn [Datatypes.app Json.skip_ws].
  change (Json.is_ws 10) with true. cbn beta iota. apply skip_ws_spaces.
Qed.

Lemma skip_ws_stop c t :
  Json.is_ws c = false -> Json.skip_ws (c :: t) = c :: t.
Proof. intros H. cbn [Json.skip_ws]. rewrite H. reflexivity. Qed.

(** The first character of an encoded value. *)
Lemma iterencode_head v level rest :
  exists c t,
    Json.iterencode v level ++ rest = c :: t /\
    Json.is_ws c = false /\ c <> 93 /\ c <> 125.
Proof.
  destruct v as [| [|] | z | s | [|x xs] | [|[k x] kxs]].
  - exists 110. eexists. repeat split; discriminate.
  - exists 116. eexists. repeat split; discriminate.
  - exists 102. eexists. repeat split; discriminate.
  - cbn [Json.iterencode].
    destruct (int_repr_head z rest) as (c & t & Heq & [->|Hd]).
    + exists 45, t. repeat split; [exact Heq | discriminate..].
    + exists c, t. unfold Json.is_digit in Hd.
      apply andb_true_iff in Hd. destruct Hd as [H1 H2].
      apply N.leb_le in H1, H2. unfold Json.is_ws.
      repeat split; [exact Heq | | lia..].
      destruct (N.eqb_spec c 32); [lia|]. destruct (N.eqb_spec c 9); [lia|].
      destruct (N.eqb_spec c 10); [lia|]. destruct (N.eqb_spec c 13); [lia|].
      reflexivity.
  - exists 34. eexists. repeat split; discriminate.
  - exists 91. eexists. repeat split; discriminate.
  - exists 91. eexists. rewrite iterencode_list.
    repeat split; discriminate.
  - exists 123. eexists. repeat split; discriminate.
  - exists 123. eexists. rewrite iterencode_dict.
    repeat split; discriminate.
Qed.

Lemma skip_ws_iterencode v level rest :
  Json.skip_ws (Json.iterencode v level ++ rest)
  = Json.iterencode v level ++ rest.
Proof.
  destruct (iterencode_head v level rest) as (c & t & Heq & Hws & _).
  rewrite Heq. apply skip_ws_stop. exact Hws.
Qed.

Lemma scan_once_S fuel c s1 :
  Json.scan_once (S fuel) (c :: s1)
  = if c =? 34 then
      match Json.scanstring s1 with
      | Some (x, rest) => Some (VStr x, rest)
      | None => None
      end
    else if c =? 123 then
      match Json.skip_ws s1 with
      | [] => None
      | c2 :: rest =>
          if c2 =? 125 then Some (VDict [], rest)
          else
            match Json.parse_members fuel (c2 :: rest) with
            | Some (pairs, rest') => Some (VDict (dict_of_pairs pairs), rest')
            | None => None
            end
      end
    else if c =? 91 then
      match Json.skip_ws s1 with
      | [] => None
      | c2 :: rest =>
          if c2 =? 93 then Some (VList [], rest)
          else
            match Json.parse_items fuel (c2 :: rest) with
            | Some (items, rest') => Some (VList items, rest')
            | None => None
            end
      end
    else if c =? 110 then Json.literal "ull" VNone s1
    else if c =? 116 then Json.literal "rue" (VBool true) s1
    else if c =? 102 then Json.literal "alse" (VBool false) s1
    else Json.match_number (c :: s1).
Proof. reflexivity. Qed.

Lemma parse_items_S fuel s :
  Json.parse_items (S fuel) s
  = match Json.scan_once fuel s with
    | None => None
    | Some (v, r) =>
        match Json.skip_ws r with
        | [] => None
        | c :: r1 =>
            if c =? 93 then Some ([v], r1)
            else if c =? 44 then
              match Json.parse_items fuel (Json.skip_ws r1) with
              | Some (vs, rest) => Some (v :: vs, rest)
              | None => None
              end
            else None
        end
    end.
Proof. reflexivity. Qed.

Lemma parse_members_S fuel q s1 :
  Json.parse_members (S fuel) (q :: s1)
  = if q =? 34 then
      match Json.scanstring s1 with
      | None => None
      | Some (k, r) =>
          match Json.skip_ws r with
          | [] => None
          | c :: r1 =>
              if c =? 58 then
                match Json.scan_once fuel (Json.skip_ws r1) with
                | None => None
                | Some (v, r2) =>
                    match Json.skip_ws r2 with
                    | [] => None
                    | c' :: r3 =>
                        if c' =? 125 then Some ([(k, v)], r3)
                        else if c' =? 44 then
                          match Json.parse_members fuel (Json.skip_ws r3) with
                          | Some (kvs, rest) => Some ((k, v) :: kvs, rest)
                          | None => None
                          end
                        else None
                    end
                end
              else None
          end
      end
    else None.
Proof. reflexivity. Qed.

Lemma ends_number_newline_indent level t :
  ends_number (Json.newline_indent level ++ t) = true.
Proof. reflexivity. Qed.

Lemma parse_items_encoded level tail :
  forall xs x fuel,
    Forall decodes (x :: xs) ->
    forallb native (x :: xs) = true ->
    (fold_right (fun y n => S (value_size y + n)) O (x :: xs) <= fuel)%nat ->
    Json.parse_items fuel
      (Json.iterencode x (S level)
       ++ flat_map (fun y => 44 :: Json.newline_indent (S level)
                             ++ Json.iterencode y (S level)) xs
       ++ Json.newline_indent level ++ 93 :: tail)
    = Some (x :: xs, tail).
Proof.
  induction xs as [|y ys IH]; intros x fuel HP Hnat Hsize;
    inversion HP as [|? ? Hx HPxs]; subst;
    cbn [forallb] in Hnat; apply andb_true_iff in Hnat;
    destruct Hnat as [Hnx Hnxs];
    cbn [fold_right] in Hsize;
    (destruct fuel as [|f]; [lia|]);
    rewrite parse_items_S.
  - cbn [flat_map Datatypes.app].
    rewrite (Hx (S level) f); [| exact Hnx | lia | reflexivity].
    rewrite skip_ws_newline_indent, skip_ws_stop by reflexivity.
    reflexivity.
  - cbn [flat_map]. cbn [Datatypes.app]. rewrite <- !List.app_assoc.
    rewrite (Hx (S level) f); [| exact Hnx | lia | reflexivity].
    rewrite skip_ws_stop by reflexivity.
    change (44 =? 93) with false. change (44 =? 44) with true. cbn beta iota.
    rewrite skip_ws_newline_indent, skip_ws_iterencode.
    rewrite (IH y f HPxs Hnxs).
    + reflexivity.
    + cbn [fold_right]. lia.
Qed.

Lemma parse_members_encoded level tail :
  forall kxs k x fuel,
    Forall (fun kv => decodes (snd kv)) ((k, x) :: kxs) ->
    forallb (fun kv => match kv with
                       | (k', y) => str_native k' && native y
                       end) ((k, x) :: kxs) = true ->
    (fold_right (fun kv n => match kv with
                             | (_, y) => S (value_size y + n)
                             end) O ((k, x) :: kxs) <= fuel)%nat ->
    Json.parse_members fuel
      (Json.encode_basestring_ascii k ++ [58; 32]
       ++ Json.iterencode x (S level)
       ++ flat_map (fun kv => 44 :: Json.newline_indent (S level)
                              ++ Json.encode_basestring_ascii (fst kv)
                              ++ [58; 32]
                              ++ Json.iterencode (snd kv) (S level)) kxs
       ++ Json.newline_indent level ++ 125 :: tail)
    = Some ((k, x) :: kxs, tail).
Proof.
  induction kxs as [|[k' y] kys IH]; intros k x fuel HP Hnat Hsize;
    inversion HP as [|? ? Hx HPxs]; subst; cbn [snd] in Hx;
    cbn [forallb] in Hnat; apply andb_true_iff in Hnat;
    destruct Hnat as [Hnx Hnxs];
    apply andb_true_iff in Hnx; destruct Hnx as [Hk Hnx];
    cbn [fold_right] in Hsize;
    (destruct fuel as [|f]; [lia|]);
    match goal with
    | |- Json.parse_members _ (_ ++ ?r) = _ =>
        destruct (scanstring_encoded k r Hk) as (t & Heq & Hscan)
    end;
    rewrite Heq, parse_members_S;
    change (34 =? 34) with true; cbn beta iota; rewrite Hscan;
    cbn [Datatypes.app]; rewrite skip_ws_stop by reflexivity;
    change (58 =? 58) with true; cbn beta iota;
    change (Json.skip_ws (32 :: ?s)) with (Json.skip_ws s);
    rewrite skip_ws_iterencode.
  - cbn [flat_map Datatypes.app].
    rewrite (Hx (S level) f); [| exact Hnx | lia | reflexivity].
    rewrite skip_ws_newline_indent, skip_ws_stop by reflexivity.
    reflexivity.
  - cbn [flat_map fst snd]. cbn [Datatypes.app]. rewrite <- !List.app_assoc.
    rewrite (Hx (S level) f); [| exact Hnx | lia | reflexivity].
    rewrite skip_ws_stop by reflexivity.
    change (44 =? 125) with false. change (44 =? 44) with true.
    cbn beta iota. rewrite skip_ws_newline_indent.
    match goal with
    | |- context [Json.skip_ws (Json.encode_basestring_ascii ?a ++ ?r)] =>
        replace (Json.skip_ws (Json.encode_basestring_ascii a ++ r))
          with (Json.encode_basestring_ascii a ++ r) by reflexivity
    end.
    cbn [Datatypes.app] in IH |- *.
    rewrite (IH k' y f HPxs Hnxs).
    + reflexivity.
    + cbn [fold_right]. lia.
Qed.

Lemma str_eqb_sym (a b : str) : str_eqb a b = str_eqb b a.
Proof.
  unfold str_eqb.
  destruct (list_eq_dec N.eq_dec a b), (list_eq_dec N.eq_dec b a);
    congruence.
Qed.

Lemma dict_set_fresh acc k v :
  existsb (str_eqb k) (List.map fst acc) = false ->
  dict_set acc k v = acc ++ [(k, v)].
Proof.
  induction acc as [|[k' v'] acc IH]; intros H; [reflexivity|].
  cbn [List.map fst existsb] in H. apply orb_false_iff in H.
  destruct H as [H1 H2]. cbn [dict_set Datatypes.app].
  rewrite str_eqb_sym, H1, IH by exact H2. reflexivity.
Qed.

Lemma fold_dict_set_distinct :
  forall d acc,
    distinct (List.map fst d) = true ->
    (forall kv, In kv d ->
                existsb (str_eqb (fst kv)) (List.map fst acc) = false) ->
    fold_left (fun a kv => dict_set a (fst kv) (snd kv)) d acc = acc ++ d.
Proof.
  induction d as [|[k v] d IH]; intros acc Hd Hacc.
  - cbn [fold_left]. rewrite List.app_nil_r. reflexivity.
  - cbn [List.map fst distinct] in Hd. apply andb_true_iff in Hd.
    destruct Hd as [Hk Hd]. apply negb_true_iff in Hk.
    cbn [fold_left fst snd].
    rewrite dict_set_fresh by (apply (Hacc (k, v)); left; reflexivity).
    rewrite IH; [rewrite <- List.app_assoc; reflexivity | exact Hd |].
    intros kv Hin. rewrite List.map_app, existsb_app.
    rewrite (Hacc kv) by (right; exact Hin).
    cbn [List.map fst existsb orb]. rewrite orb_false_r.
    destruct (str_eqb (fst kv) k) eqn:E; [|reflexivity].
    apply str_eqb_eq in E. subst k.
    assert (Hex : existsb (str_eqb (fst kv)) (List.map fst d) = true).
    { apply existsb_exists. exists (fst kv). split.
      - apply in_map. exact Hin.
      - apply str_eqb_refl. }
    rewrite Hex in Hk. discriminate Hk.
Qed.

Lemma dict_of_pairs_distinct d :
  distinct (List.map fst d) = true -> dict_of_pairs d = d.
Proof.
  intros H. unfold dict_of_pairs.
  rewrite fold_dict_set_distinct; [reflexivity | exact H |].
  intros kv _. reflexivity.
Qed.

Lemma digit_or_minus_tests c :
  c = 45 \/ Json.is_digit c = true ->
  (c =? 34) = false /\ (c =? 123) = false /\ (c =? 91) = false /\
  (c =? 110) = false /\ (c =? 116) = false /\ (c =? 102) = false.
Proof.
  intros [->|H]; [repeat split|].
  unfold Json.is_digit in H. apply andb_true_iff in H.
  destruct H as [H1 H2]. apply N.leb_le in H1, H2.
  repeat split; apply N.eqb_neq; lia.
Qed.

(** The scanner inverts the encoder on every native value. *)
Lemma iterencode_decodes : forall v, decodes v.
Proof.
  induction v as [| b | z | s | l IHl | d IHd] using value_ind';
    intros level fuel rest Hnat Hsize Hrest;
    (destruct fuel as [|f]; [cbn in Hsize; lia|]).
  - reflexivity.
  - destruct b; reflexivity.
  - cbn [Json.iterencode].
    destruct (int_repr_head z rest) as (c & t & Heq & Hc).
    pose proof (match_number_int_repr z rest Hrest) as Hnum.
    rewrite Heq in Hnum |- *. rewrite scan_once_S.
    destruct (digit_or_minus_tests Hc) as (-> & -> & -> & -> & -> & ->).
    exact Hnum.
  - cbn [Json.iterencode]. cbn [native] in Hnat.
    destruct (scanstring_encoded s rest Hnat) as (t & Heq & Hscan).
    rewrite Heq, scan_once_S. change (34 =? 34) with true. cbn beta iota.
    rewrite Hscan. reflexivity.
  - destruct l as [|x xs]; [reflexivity|].
    rewrite iterencode_list. cbn [native] in Hnat.
    cbn [value_size] in Hsize. apply le_S_n in Hsize.
    repeat first [rewrite <- List.app_assoc | progress cbn [Datatypes.app]].
    rewrite scan_once_S.
    change (91 =? 34) with false. change (91 =? 123) with false.
    change (91 =? 91) with true. cbn beta iota.
    rewrite skip_ws_newline_indent, skip_ws_iterencode.
    pose proof (@parse_items_encoded level rest xs x f IHl Hnat Hsize) as Hp.
    destruct (iterencode_head x (S level)
                (flat_map (fun y => 44 :: Json.newline_indent (S level)
                                    ++ Json.iterencode y (S level)) xs
                 ++ Json.newline_indent level ++ 93 :: rest))
      as (c & t & Heq & _ & Hc & _).
    rewrite Heq in Hp |- *.
    destruct (N.eqb_spec c 93); [contradiction|].
    rewrite Hp. reflexivity.
  - destruct d as [|[k x] kxs]; [reflexivity|].
    rewrite iterencode_dict. cbn [native] in Hnat.
    apply andb_true_iff in Hnat. destruct Hnat as [Hdist Hnat].
    cbn [value_size] in Hsize. apply le_S_n in Hsize.
    repeat first [rewrite <- List.app_assoc | progress cbn [Datatypes.app]].
    rewrite scan_once_S.
    change (123 =? 34) with false. change (123 =? 123) with true.
    cbn beta iota. rewrite skip_ws_newline_indent.
    pose proof (@parse_members_encoded level rest kxs k x f IHd Hnat Hsize)
      as Hp.
    cbn [Datatypes.app] in Hp.
    change (Json.encode_basestring_ascii k ++ ?r)
      with (34 :: (flat_map Json.escape_char k ++ [34]) ++ r) in Hp |- *.
    rewrite skip_ws_stop by reflexivity.
    change (34 =? 125) with false. cbn beta iota.
    rewrite Hp. rewrite dict_of_pairs_distinct by exact Hdist. reflexivity.
Qed.

Lemma length_newline_indent level :
  (1 <= List.length (Json.newline_indent level))%nat.
Proof. unfold Json.newline_indent. cbn [List.length]. lia. Qed.

Lemma value_size_le_length :
  forall v level, (value_size v <= List.length (Json.iterencode v level))%nat.
Proof.
  induction v as [| b | z | s | l IHl | d IHd] using value_ind'; intros level.
  - vm_compute. lia.
  - destruct b; vm_compute; lia.
  - cbn [Json.iterencode value_size].
    destruct (int_repr_head z []) as (c & t & Heq & _).
    rewrite List.app_nil_r in Heq. rewrite Heq. cbn [List.length]. lia.
  - cbn [Json.iterencode value_size]. unfold Json.encode_basestring_ascii.
    cbn [List.length]. lia.
  - destruct l as [|x xs]; [vm_compute; lia|].
    rewrite iterencode_list. cbn [value_size fold_right].
    inversion IHl as [|? ? Hx Hxs]; subst.
    cbn [List.length]. rewrite !length_app. cbn [List.length].
    pose proof (length_newline_indent (S level)).
    pose proof (length_newline_indent level).
    specialize (Hx (S level)).
    assert (Hsum :
      le (fold_right (fun y n => S (value_size y + n)%nat) O xs)
         (List.length
            (flat_map (fun y => 44 :: Json.newline_indent (S level)
                                ++ Json.iterencode y (S level)) xs))).
    { clear Hx IHl. induction Hxs as [|y ys Hy Hys IH]; [cbn; lia|].
      cbn [fold_right flat_map]. rewrite length_app.
      cbn [List.length]. rewrite length_app.
      specialize (Hy (S level)). lia. }
    lia.
  - destruct d as [|[k x] kxs]; [vm_compute; lia|].
    rewrite iterencode_dict. cbn [value_size fold_right].
    inversion IHd as [|? ? Hx Hxs]; subst. cbn [snd] in Hx.
    cbn [List.length]. rewrite !length_app. cbn [List.length].
    pose proof (length_newline_indent (S level)).
    pose proof (length_newline_indent level).
    specialize (Hx (S level)).
    assert (Hsum :
      le (fold_right (fun kv n => match kv with
                                  | (_, y) => S (value_size y + n)%nat
                                  end) O kxs)
         (List.length
            (flat_map (fun kv => 44 :: Json.newline_indent (S level)
                                 ++ Json.encode_basestring_ascii (fst kv)
                                 ++ [58; 32]
                                 ++ Json.iterencode (snd kv) (S level)) kxs))).
    { clear Hx IHd. induction Hxs as [|[k' y] ys Hy Hys IH]; [cbn; lia|].
      cbn [fold_right flat_map fst snd] in *. rewrite length_app.
      cbn [List.length]. rewrite !length_app.
      specialize (Hy (S level)). lia. }
    lia.
Qed.

(** What [json.loads] makes of the text [json.dump] wrote. *)
Lemma loads_dumps v : native v = true -> Json.loads (Json.dumps v) = Some v.
Proof.
  intros Hnat. unfold Json.loads, Json.dumps.
  pose proof (skip_ws_iterencode v 0 []) as Hws.
  rewrite List.app_nil_r in Hws. rewrite Hws.
  pose proof (@iterencode_decodes v 0%nat
                (S (List.length (Json.iterencode v 0))) [] Hnat) as Hdec.
  rewrite List.app_nil_r in Hdec. rewrite Hdec.
  - reflexivity.
  - pose proof (value_size_le_length v 0). lia.
  - reflexivity.
Qed.

Lemma fs_read_write fs path content :
  fs_read (fs_write fs path content) path = Some content.
Proof.
  induction fs as [|[p c] fs IH]; cbn [fs_write fs_read].
  - rewrite str_eqb_refl. reflexivity.
  - destruct (str_eqb p path) eqn:E; cbn [fs_read]; rewrite E;
      [reflexivity | exact IH].
Qed.

(** C6: the file [save_to_file] writes, read and parsed back, is the
    record sequence it was given, for every sequence of records such as
    [response.json()] yields them (unique keys, no surrogate pair left
    unjoined). *)
Theorem snapshot_round_trip :
  forall records filename w,
    forallb native records = true ->
    let w' := snd (save_to_file filename (VList records) w) in
    fs_read (files w') filename = Some (Json.dumps (VList records)) /\
    Json.loads (Json.dumps (VList records)) = Some (VList records).
Proof.
  intros records filename w Hnat w'. split.
  - subst w'. unfold save_to_file. cbn [snd files set_files].
    apply fs_read_write.
  - apply loads_dumps. exact Hnat.
Qed.

Lemma snapshot_round_trip_witness :
  let w := snd (save_to_file (u "systems_data_20240307.json")
                  (VList sample_records) (example_world [] [])) in
  fs_read (files w) (u "systems_data_20240307.json")
  = Some (Json.dumps (VList sample_records)) /\
  Json.loads (Json.dumps (VList sample_records)) = Some (VList sample_records).
Proof.
  exact (@snapshot_round_trip sample_records (u "systems_data_20240307.json")
           (example_world [] []) eq_refl).
Defined.

(** *** The loop budget is never used up *)

Lemma within_budget_ret {A} (a : A) : within_budget (ret a).
Proof. intros w. discriminate. Qed.

Lemma within_budget_lift {A} (r : result A) :
  r <> Raise OutOfFuel -> within_budget (lift r).
Proof. intros H w. exact H. Qed.

Lemma within_budget_bind {A B} (c : M A) (k : A -> M B) :
  within_budget c -> (forall a, within_budget (k a)) ->
  within_budget (bind c k).
Proof.
  intros Hc Hk w. unfold bind. specialize (Hc w).
  destruct (c w) as [[a|e] w']; cbn [fst] in *.
  - apply Hk.
  - intros H. apply Hc. injection H as ->. reflexivity.
Qed.

Lemma within_budget_print line : within_budget (print line).
Proof. intros w. discriminate. Qed.

Lemma within_budget_input prompt : within_budget (input prompt).
Proof. intros w. unfold input. destruct (stdin w); discriminate. Qed.

Lemma within_budget_query query variables :
  within_budget (opslevel_graphql_query query variables).
Proof.
  intros w. rewrite opslevel_graphql_query_run. cbn zeta.
  destruct (net w) as [|[|st text|st text] rest]; try discriminate.
  all: destruct (Z.eqb st 200); [|discriminate].
  all: unfold response_json; destruct (Json.loads text); discriminate.
Qed.

Lemma subscript_budget o k : subscript o k <> Raise OutOfFuel.
Proof.
  destruct o as [| | | | |d]; try discriminate.
  cbn [subscript]. destruct (dict_get d k); discriminate.
Qed.

Lemma get_budget o k default : get o k default <> Raise OutOfFuel.
Proof.
  destruct o as [| | | | |d]; try discriminate.
  cbn [get]. destruct (dict_get d k); discriminate.
Qed.

Lemma str_add_budget a b : str_add a b <> Raise OutOfFuel.
Proof. destruct b; discriminate. Qed.

Lemma iterate_budget o : iterate o <> Raise OutOfFuel.
Proof. destruct o; discriminate. Qed.

Lemma within_budget_for_each items body :
  (forall x, within_budget (body x)) -> within_budget (for_each items body).
Proof.
  intros Hb. induction items as [|x items IH]; cbn [for_each].
  - apply within_budget_ret.
  - apply within_budget_bind; [apply Hb | intros _; exact IH].
Qed.

Ltac budget_tac :=
  repeat first
    [ apply within_budget_ret | apply within_budget_print
    | apply within_budget_input | apply within_budget_query
    | apply within_budget_lift;
      first [apply subscript_budget | apply get_budget
            | apply str_add_budget | apply iterate_budget]
    | apply within_budget_bind; [|intros ?]
    | match goal with
      | |- within_budget (if ?b then _ else _) => destruct b
      end ].

Lemma consumes_ret {A} (a : A) : consumes (ret a).
Proof. intros w. apply le_n. Qed.

Lemma consumes_lift {A} (r : result A) : consumes (lift r).
Proof. intros w. apply le_n. Qed.

Lemma consumes_print line : consumes (print line).
Proof. intros w. apply le_n. Qed.

Lemma consumes_bind {A B} (c : M A) (k : A -> M B) :
  consumes c -> (forall a, consumes (k a)) -> consumes (bind c k).
Proof.
  intros Hc Hk w. unfold bind. specialize (Hc w).
  destruct (c w) as [[a|e] w']; cbn [snd] in *.
  - specialize (Hk a w'). lia.
  - exact Hc.
Qed.

Lemma consumes_query query variables :
  consumes (opslevel_graphql_query query variables).
Proof.
  intros w. rewrite opslevel_graphql_query_run. cbn zeta.
  destruct (net w) as [|[|st text|st text] rest] eqn:E;
    try destruct (Z.eqb st 200);
    cbn [snd net set_net set_sent]; rewrite ?E; cbn [List.length]; lia.
Qed.

Lemma consumes_for_each items body :
  (forall x, consumes (body x)) -> consumes (for_each items body).
Proof.
  intros Hb. induction items as [|x items IH]; cbn [for_each].
  - apply consumes_ret.
  - apply consumes_bind; [apply Hb | intros _; exact IH].
Qed.

Ltac consumes_tac :=
  repeat first
    [ apply consumes_ret | apply consumes_print | apply consumes_lift
    | apply consumes_query
    | apply consumes_bind; [|intros ?]
    | match goal with
      | |- consumes (if ?b then _ else _) => destruct b
      end ].

(** A request that returns has used up one answer. *)
Lemma query_then_consumes {B} query variables (k : value -> M B) w b w' :
  (forall a, consumes (k a)) ->
  bind (opslevel_graphql_query query variables) k w = (Ok b, w') ->
  (List.length (net w') < List.length (net w))%nat.
Proof.
  intros Hk. unfold bind. rewrite opslevel_graphql_query_run. cbn zeta.
  destruct (net w) as [|[|st text|st text] rest] eqn:E; cbn beta iota;
    try (intros H; discriminate H).
  all: destruct (Z.eqb st 200); cbn beta iota; [|intros H; discriminate H].
  all: destruct (response_json text) as [a|e]; cbn beta iota;
    [|intros H; discriminate H].
  all: intros H; specialize (Hk a (set_net (set_sent w (sent w ++
     [graphql_request (api_token w) query variables])) rest)).
  all: rewrite H in Hk; cbn [snd net set_net set_sent List.length] in *; lia.
Qed.

Lemma while_fuel_within_budget {S} cond (body : S -> M S) :
  (forall s, within_budget (body s)) ->
  (forall s w s' w', body s w = (Ok s', w') ->
                     (List.length (net w') < List.length (net w))%nat) ->
  forall fuel s w,
    (List.length (net w) < fuel)%nat ->
    fst (while_fuel fuel cond body s w) <> Raise OutOfFuel.
Proof.
  intros Hb Hdec. induction fuel as [|fuel IH]; intros s w Hfuel; [lia|].
  cbn [while_fuel]. destruct (cond s); [|discriminate].
  unfold bind. specialize (Hb s w). specialize (Hdec s w).
  destruct (body s w) as [[s'|e] w']; cbn [fst] in *.
  - apply IH. specialize (Hdec s' w' eq_refl). lia.
  - intros H. apply Hb. injection H as ->. reflexivity.
Qed.

Lemma while_within_budget {S} cond (body : S -> M S) s :
  (forall s, within_budget (body s)) ->
  (forall s w s' w', body s w = (Ok s', w') ->
                     (List.length (net w') < List.length (net w))%nat) ->
  within_budget (while_ cond body s).
Proof.
  intros Hb Hdec w. unfold while_.
  apply while_fuel_within_budget; [exact Hb | exact Hdec | lia].
Qed.

Lemma within_budget_create_service system :
  within_budget (create_service system).
Proof. unfold create_service. budget_tac. Qed.

Lemma consumes_create_service system : consumes (create_service system).
Proof. unfold create_service. consumes_tac. Qed.

Lemma within_budget_convert_domain_to_system domain :
  within_budget (convert_domain_to_system domain).
Proof. unfold convert_domain_to_system. budget_tac. Qed.

Lemma consumes_convert_domain_to_system domain :
  consumes (convert_domain_to_system domain).
Proof. unfold convert_domain_to_system. consumes_tac. Qed.

Lemma within_budget_update_systems_with_services :
  within_budget update_systems_with_services.
Proof.
  intros w. unfold update_systems_with_services,
    update_systems_with_services_in, bind, input, try_, call_global.
  destruct (stdin w); discriminate.
Qed.

Ltac loop_budget :=
  apply while_within_budget;
  [ intros ?; budget_tac;
    try (apply within_budget_for_each; intros ?;
         first [apply within_budget_create_service
               | apply within_budget_convert_domain_to_system]);
    budget_tac
  | intros ? ? ? ?; apply query_then_consumes; intros ?; consumes_tac;
    try (apply consumes_for_each; intros ?;
         first [apply consumes_create_service
               | apply consumes_convert_domain_to_system]);
    consumes_tac ].

(** No run of the script ends on the budget marker: the loops stop
    because the endpoint says so, or because a request fails. *)
Theorem main_within_budget : within_budget main.
Proof.
  unfold main.
  do 5 (apply within_budget_bind; [apply within_budget_print | intros _]).
  apply within_budget_bind; [apply within_budget_input | intros choice].
  repeat match goal with
         | |- within_budget (if ?b then _ else _) => destruct b
         end.
  - apply within_budget_bind; [|intros; apply within_budget_ret].
    unfold fetch_and_save_systems.
    apply within_budget_bind; [loop_budget | intros st].
    intros w. discriminate.
  - apply within_budget_bind; [|intros; apply within_budget_ret].
    unfold convert_systems_to_services.
    apply within_budget_bind; [loop_budget | intros; apply within_budget_ret].
  - apply within_budget_bind; [|intros; apply within_budget_ret].
    unfold fetch_and_save_domains.
    apply within_budget_bind; [loop_budget | intros st].
    intros w. discriminate.
  - apply within_budget_bind; [|intros; apply within_budget_ret].
    unfold convert_domains_to_systems.
    apply within_budget_bind; [loop_budget | intros; apply within_budget_ret].
  - apply within_budget_bind; [|intros; apply within_budget_ret].
    apply within_budget_update_systems_with_services.
  - apply within_budget_bind; [apply within_budget_print | intros _].
    apply within_budget_ret.
Qed.

(** *** What [json.loads] returns is native *)

Lemma cons_char_Some c o x r :
  Json.cons_char c o = Some (x, r) ->
  exists x', o = Some (x', r) /\ x = c :: x'.
Proof.
  destruct o as [[x' r']|]; cbn [Json.cons_char]; intros H;
    [|discriminate H].
  injection H as <- <-. exists x'. split; reflexivity.
Qed.

Lemma no_low_escape_short t :
  (List.length t < 6)%nat -> no_low_escape_ahead t.
Proof.
  intros H g1 g2 g3 g4 t' ->. cbn [List.length] in H. lia.
Qed.

Lemma scanstring_scanned s :
  forall x r, Json.scanstring s = Some (x, r) -> scanned s x r.
Proof.
  functional induction (Json.scanstring s) using scanstring_ind;
    intros x r H; try discriminate H;
    try (apply cons_char_Some in H; destruct H as (x' & H & ->)).
  all: repeat match goal with
              | E : _ && _ = true |- _ =>
                  apply andb_true_iff in E; destruct E
              | E : (_ =? _) = true |- _ => apply N.eqb_eq in E; subst
              end.
  all: try (injection H as <- <-; apply ScanQuote).
  all: try (apply ScanU; [assumption | | auto]; intros Hhigh;
            first [ congruence
                  | apply no_low_escape_short; cbn [List.length]; lia
                  | intros ? ? ? ? ? Heq; injection Heq; intros; subst;
                    first [ discriminate
                          | congruence
                          | eexists; split; [eassumption | assumption] ] ]).
  all: try (eapply ScanPair; eauto; fail).
  all: try (apply ScanShort; auto; fail).
  all: try (apply ScanLiteral; auto;
            repeat match goal with
                   | E : (_ =? _) = false |- _ => apply N.eqb_neq in E
                   | E : (_ <? _) = false |- _ => apply N.ltb_ge in E
                   end; assumption).
Qed.

Lemma is_high_surrogate_iff c :
  Json.is_high_surrogate c = true <-> 55296 <= c <= 56319.
Proof.
  unfold Json.is_high_surrogate. rewrite andb_true_iff, !N.leb_le. tauto.
Qed.

Lemma is_low_surrogate_iff c :
  Json.is_low_surrogate c = true <-> 56320 <= c <= 57343.
Proof.
  unfold Json.is_low_surrogate. rewrite andb_true_iff, !N.leb_le. tauto.
Qed.

Lemma is_scalar_iff c :
  is_scalar c = true <-> c < 55296 \/ (57343 < c /\ c < 1114112).
Proof.
  unfold is_scalar. rewrite orb_true_iff, andb_true_iff, !N.ltb_lt. tauto.
Qed.

Lemma not_low_surrogate c :
  c < 56320 \/ 57343 < c -> Json.is_low_surrogate c = false.
Proof.
  intros H. destruct (Json.is_low_surrogate c) eqn:E; [|reflexivity].
  apply is_low_surrogate_iff in E. lia.
Qed.

Lemma not_high_surrogate c :
  c < 55296 \/ 56319 < c -> Json.is_high_surrogate c = false.
Proof.
  intros H. destruct (Json.is_high_surrogate c) eqn:E; [|reflexivity].
  apply is_high_surrogate_iff in E. lia.
Qed.

Lemma unescape_bound e ch : Json.unescape e = Some ch -> ch <= 92.
Proof.
  unfold Json.unescape.
  repeat match goal with
         | |- context [if ?b then _ else _] => destruct b
         end; intros H; try discriminate H; injection H as <-; lia.
Qed.

Lemma unhex_bound c d : Json.unhex c = Some d -> d < 16.
Proof.
  unfold Json.unhex.
  destruct ((48 <=? c) && (c <=? 57)) eqn:E1.
  { apply andb_true_iff in E1. destruct E1 as [H1 H2].
    apply N.leb_le in H1, H2. intros H. injection H as <-. lia. }
  destruct ((97 <=? c) && (c <=? 102)) eqn:E2.
  { apply andb_true_iff in E2. destruct E2 as [H1 H2].
    apply N.leb_le in H1, H2. intros H. injection H as <-. lia. }
  destruct ((65 <=? c) && (c <=? 70)) eqn:E3.
  { apply andb_true_iff in E3. destruct E3 as [H1 H2].
    apply N.leb_le in H1, H2. intros H. injection H as <-. lia. }
  discriminate.
Qed.

Lemma unhex4_bound a b c d n :
  Json.unhex4 a b c d = Some n -> n < 65536.
Proof.
  unfold Json.unhex4.
  destruct (Json.unhex a) as [x|] eqn:Ea; [|discriminate].
  destruct (Json.unhex b) as [y|] eqn:Eb; [|discriminate].
  destruct (Json.unhex c) as [z|] eqn:Ec; [|discriminate].
  destruct (Json.unhex d) as [w|] eqn:Ed; [|discriminate].
  apply unhex_bound in Ea, Eb, Ec, Ed. intros H. injection H as <-. lia.
Qed.

Lemma joined_bounds uni uni2 :
  Json.is_high_surrogate uni = true ->
  Json.is_low_surrogate uni2 = true ->
  let c := 65536 + N.lor (N.shiftl (uni - 55296) 10) (uni2 - 56320) in
  65536 <= c /\ c < 1114112.
Proof.
  intros Hh Hl. apply is_high_surrogate_iff in Hh.
  apply is_low_surrogate_iff in Hl. cbn zeta.
  rewrite lor_shiftl_add by (change (2 ^ 10) with 1024; lia).
  change (2 ^ 10) with 1024. nia.
Qed.

Lemma suffix_refl s : suffix s s.
Proof. exists []. reflexivity. Qed.

Lemma suffix_cons c r s : suffix r s -> suffix r (c :: s).
Proof. intros [p ->]. exists (c :: p). reflexivity. Qed.

Lemma suffix_trans r s t : suffix r s -> suffix s t -> suffix r t.
Proof.
  intros [p ->] [q ->]. exists (q ++ p). rewrite List.app_assoc. reflexivity.
Qed.

Lemma suffix_length r s : suffix r s -> (List.length r <= List.length s)%nat.
Proof. intros [p ->]. rewrite length_app. lia. Qed.

Lemma suffix_scalar r s :
  suffix r s -> scalar_text s = true -> scalar_text r = true.
Proof.
  intros [p ->]. unfold scalar_text. rewrite forallb_app.
  intros H. apply andb_true_iff in H. apply H.
Qed.

Lemma scanned_suffix s x r :
  scanned s x r -> suffix r s /\ (List.length r < List.length s)%nat.
Proof.
  induction 1 as [s1|c s1 x r _ _ _ _ [IH1 IH2]|e ch s2 x r _ _ [IH1 IH2]
                 |h1 h2 h3 h4 uni s3 x r _ _ _ [IH1 IH2]
                 |h1 h2 h3 h4 g1 g2 g3 g4 uni uni2 joined s4 x r
                    _ _ _ _ _ _ [IH1 IH2]];
    (split; [repeat apply suffix_cons; first [apply suffix_refl | exact IH1]
            | cbn [List.length]; lia]).
Qed.

Lemma scanned_head_low s c x r :
  scanned s (c :: x) r ->
  scalar_text s = true ->
  Json.is_low_surrogate c = true ->
  exists g1 g2 g3 g4 t,
    s = 92 :: 117 :: g1 :: g2 :: g3 :: g4 :: t /\
    Json.unhex4 g1 g2 g3 g4 = Some c.
Proof.
  intros Hs Hscalar Hlow. apply is_low_surrogate_iff in Hlow.
  inversion Hs as [|c' s1 x' r' _ _ _ _|e ch s2 x' r' He _
                  |h1 h2 h3 h4 uni s3 x' r' Hu _ _
                  |h1 h2 h3 h4 g1 g2 g3 g4 uni uni2 joined s4 x' r'
                     _ Hh _ Hl Hj _];
    subst.
  - cbn [scalar_text forallb] in Hscalar. apply andb_true_iff in Hscalar.
    destruct Hscalar as [Hc _]. apply is_scalar_iff in Hc. lia.
  - apply unescape_bound in He. lia.
  - do 5 eexists. split; [reflexivity | exact Hu].
  - pose proof (joined_bounds _ _ Hh Hl) as Hb. cbn zeta in Hb. lia.
Qed.

Lemma scanned_native s x r :
  scanned s x r -> scalar_text s = true -> str_native x = true.
Proof.
  induction 1 as [s1|c s1 x r Hc1 Hc2 Hc3 Hs IH|e ch s2 x r He Hs IH
                 |h1 h2 h3 h4 uni s3 x r Hu Hnext Hs IH
                 |h1 h2 h3 h4 g1 g2 g3 g4 uni uni2 joined s4 x r
                    Hu Hh Hu2 Hl Hj Hs IH];
    intros Hscalar.
  - reflexivity.
  - cbn [scalar_text forallb] in Hscalar. apply andb_true_iff in Hscalar.
    destruct Hscalar as [Hc Hrest]. apply is_scalar_iff in Hc.
    cbn [str_native]. rewrite not_high_surrogate by lia.
    rewrite (IH Hrest), andb_true_r, andb_true_r. apply N.ltb_lt. lia.
  - pose proof (unescape_bound _ He) as Hb.
    cbn [str_native]. rewrite not_high_surrogate by lia.
    rewrite IH, andb_true_r, andb_true_r; [apply N.ltb_lt; lia|].
    apply (@suffix_scalar s2 (92 :: e :: s2)); [|exact Hscalar].
    do 2 apply suffix_cons. apply suffix_refl.
  - pose proof (unhex4_bound _ _ _ _ Hu) as Hb.
    assert (Hs3 : scalar_text s3 = true).
    { apply (@suffix_scalar s3 (92 :: 117 :: h1 :: h2 :: h3 :: h4 :: s3));
        [|exact Hscalar].
      do 6 apply suffix_cons. apply suffix_refl. }
    cbn [str_native]. rewrite (IH Hs3), andb_true_r.
    apply andb_true_iff. split; [apply N.ltb_lt; lia|].
    destruct (Json.is_high_surrogate uni) eqn:Hh; [|reflexivity].
    destruct x as [|c' x']; [reflexivity|].
    destruct (Json.is_low_surrogate c') eqn:Hl; [|reflexivity].
    exfalso.
    destruct (scanned_head_low Hs Hs3 Hl) as (g1 & g2 & g3 & g4 & t & -> & Hg).
    destruct (Hnext eq_refl g1 g2 g3 g4 t eq_refl) as (uni2 & Hg' & Hl').
    congruence.
  - pose proof (joined_bounds _ _ Hh Hl) as Hb. cbn zeta in Hb.
    rewrite <- Hj in Hb.
    cbn [str_native]. rewrite not_high_surrogate by lia.
    rewrite IH, andb_true_r, andb_true_r; [apply N.ltb_lt; lia|].
    apply (@suffix_scalar s4 (92 :: 117 :: h1 :: h2 :: h3 :: h4
                              :: 92 :: 117 :: g1 :: g2 :: g3 :: g4 :: s4));
      [|exact Hscalar].
    do 12 apply suffix_cons. apply suffix_refl.
Qed.

Lemma consumed_cons c s : consumed s (c :: s).
Proof.
  split; [apply suffix_cons, suffix_refl | cbn [List.length]; lia].
Qed.

Lemma consumed_suffix r s t : consumed r s -> suffix s t -> consumed r t.
Proof.
  intros [H1 H2] H3. split; [exact (suffix_trans H1 H3)|].
  apply suffix_length in H3. lia.
Qed.

Lemma suffix_consumed r s t : suffix r s -> consumed s t -> consumed r t.
Proof.
  intros H1 [H2 H3]. split; [exact (suffix_trans H1 H2)|].
  apply suffix_length in H1. lia.
Qed.

Lemma consumed_trans r s t : consumed r s -> consumed s t -> consumed r t.
Proof. intros [H1 _] H2. exact (suffix_consumed H1 H2). Qed.

Lemma skip_ws_suffix s : suffix (Json.skip_ws s) s.
Proof.
  induction s as [|c s IH]; [apply suffix_refl|].
  cbn [Json.skip_ws]. destruct (Json.is_ws c);
    [apply suffix_cons, IH | apply suffix_refl].
Qed.

Lemma scan_digits_suffix s : suffix (snd (Json.scan_digits s)) s.
Proof.
  induction s as [|c s IH]; [apply suffix_refl|].
  cbn [Json.scan_digits]. destruct (Json.is_digit c); [|apply suffix_refl].
  destruct (Json.scan_digits s) as [d r]. apply suffix_cons, IH.
Qed.

Lemma strip_prefix_suffix p s r :
  Json.strip_prefix p s = Some r -> suffix r s.
Proof.
  revert s. induction p as [|a p IH]; intros s H.
  - injection H as <-. apply suffix_refl.
  - destruct s as [|b s]; [discriminate H|]. cbn [Json.strip_prefix] in H.
    destruct (a =? b); [|discriminate H]. apply suffix_cons, IH, H.
Qed.

Lemma literal_consumed word v c s v' r :
  Json.literal word v s = Some (v', r) -> v' = v /\ consumed r (c :: s).
Proof.
  unfold Json.literal.
  destruct (Json.strip_prefix (u word) s) as [r'|] eqn:E; [|discriminate].
  intros H. injection H as <- <-. split; [reflexivity|].
  apply (suffix_consumed (strip_prefix_suffix _ _ E)), consumed_cons.
Qed.

Lemma number_tail_consumed (neg : bool) s1 v r :
  match s1 with
  | [] => None
  | c :: t =>
      if c =? 48 then
        if Json.float_tail t then None else Some (VInt 0, t)
      else if Json.is_digit c then
        let (d, rest) := Json.scan_digits s1 in
        if Json.float_tail rest then None
        else
          let z := Z.of_uint d in
          Some (VInt (if neg then Z.opp z else z), rest)
      else None
  end = Some (v, r) ->
  native v = true /\ consumed r s1.
Proof.
  destruct s1 as [|c t]; [discriminate|].
  destruct (c =? 48).
  - destruct (Json.float_tail t); [discriminate|].
    intros H. injection H as <- <-. split; [reflexivity|].
    apply consumed_cons.
  - destruct (Json.is_digit c) eqn:Hd; [|discriminate].
    pose proof (scan_digits_suffix (c :: t)) as Hsd.
    assert (Hlen : (List.length (snd (Json.scan_digits (c :: t)))
                    < List.length (c :: t))%nat).
    { cbn [Json.scan_digits]. rewrite Hd.
      pose proof (scan_digits_suffix t) as Ht. apply suffix_length in Ht.
      destruct (Json.scan_digits t) as [d r']. cbn [snd List.length] in *.
      lia. }
    destruct (Json.scan_digits (c :: t)) as [d rest]. cbn [snd] in *.
    destruct (Json.float_tail rest); [discriminate|].
    intros H. injection H as <- <-. split; [reflexivity|].
    exact (conj Hsd Hlen).
Qed.

Lemma match_number_consumed s v r :
  Json.match_number s = Some (v, r) -> native v = true /\ consumed r s.
Proof.
  unfold Json.match_number. destruct s as [|c0 r0]; [discriminate|].
  cbn zeta. destruct (c0 =? 45); intros H;
    [apply (@number_tail_consumed true r0 v r) in H
    |apply (@number_tail_consumed false (c0 :: r0) v r) in H];
    destruct H as [H1 H2].
  - split; [exact H1|].
    exact (consumed_suffix H2 (suffix_cons c0 (suffix_refl r0))).
  - split; assumption.
Qed.

Lemma keys_dict_set d k v k' :
  existsb (str_eqb k') (List.map fst (dict_set d k v))
  = existsb (str_eqb k') (List.map fst d) || str_eqb k' k.
Proof.
  induction d as [|[k0 v0] d IH]; cbn [dict_set List.map fst existsb].
  - apply orb_false_r.
  - destruct (str_eqb k0 k) eqn:E; cbn [List.map fst existsb].
    + apply str_eqb_eq in E. subst k0.
      destruct (str_eqb k' k); [reflexivity|].
      cbn [orb]. rewrite orb_false_r. reflexivity.
    + rewrite IH, orb_assoc. reflexivity.
Qed.

Lemma dict_set_native d k v :
  distinct (List.map fst d) = true ->
  forallb entry_native d = true ->
  str_native k = true -> native v = true ->
  distinct (List.map fst (dict_set d k v)) = true /\
  forallb entry_native (dict_set d k v) = true.
Proof.
  intros Hd Hf Hk Hv.
  induction d as [|[k0 v0] d IH]; cbn [dict_set].
  - cbn [List.map fst distinct forallb entry_native existsb negb andb].
    rewrite Hk, Hv. split; reflexivity.
  - cbn [List.map fst distinct forallb] in Hd, Hf.
    apply andb_true_iff in Hd. destruct Hd as [Hk0 Hd].
    apply andb_true_iff in Hf. destruct Hf as [Hf0 Hf].
    destruct (str_eqb k0 k) eqn:E;
      cbn [List.map fst distinct forallb].
    + rewrite Hk0, Hd, Hf. cbn [entry_native] in *.
      apply andb_true_iff in Hf0. destruct Hf0 as [Hk0n _].
      rewrite Hk0n, Hv. split; reflexivity.
    + destruct (IH Hd Hf) as [IH1 IH2].
      rewrite keys_dict_set, E, IH1, IH2, Hf0.
      apply negb_true_iff in Hk0. rewrite Hk0. split; reflexivity.
Qed.

Lemma dict_of_pairs_native pairs :
  forallb entry_native pairs = true ->
  native (VDict (dict_of_pairs pairs)) = true.
Proof.
  intros Hp. unfold dict_of_pairs.
  assert (H : forall acc,
    distinct (List.map fst acc) = true ->
    forallb entry_native acc = true ->
    let d := fold_left (fun a kv => dict_set a (fst kv) (snd kv)) pairs acc in
    distinct (List.map fst d) = true /\ forallb entry_native d = true).
  { induction pairs as [|[k v] pairs IH]; intros acc Hd Hf; cbn zeta.
    - split; assumption.
    - cbn [forallb entry_native] in Hp.
      apply andb_true_iff in Hp. destruct Hp as [Hkv Hp].
      apply andb_true_iff in Hkv. destruct Hkv as [Hk Hv].
      cbn [fold_left fst snd].
      destruct (dict_set_native acc k v Hd Hf Hk Hv) as [H1 H2].
      exact (IH Hp _ H1 H2). }
  destruct (H [] eq_refl eq_refl) as [H1 H2].
  cbn [native]. fold entry_native.
  change (fun kv : str * value =>
            let (k, x) := kv in str_native k && native x) with entry_native.
  rewrite H1, H2. reflexivity.
Qed.

Lemma skip_ws_consumed_head s c t r :
  Json.skip_ws s = c :: t -> suffix r t -> consumed r s.
Proof.
  intros E H. pose proof (skip_ws_suffix s) as Hs. rewrite E in Hs.
  exact (consumed_suffix (suffix_consumed H (consumed_cons c t)) Hs).
Qed.

Lemma skip_ws_scalar s :
  scalar_text s = true -> scalar_text (Json.skip_ws s) = true.
Proof. apply suffix_scalar, skip_ws_suffix. Qed.

Lemma consumed_scalar r s :
  consumed r s -> scalar_text s = true -> scalar_text r = true.
Proof. intros [H _]. apply suffix_scalar, H. Qed.

Lemma cons_scalar c s : scalar_text (c :: s) = true -> scalar_text s = true.
Proof.
  unfold scalar_text. cbn [forallb]. intros H.
  apply andb_true_iff in H. apply H.
Qed.

(** The scanner, on scalar text: what it returns is native, and it
    returns after reading at least one character. *)
Lemma scan_native :
  forall fuel,
    (forall s v r,
        scalar_text s = true -> Json.scan_once fuel s = Some (v, r) ->
        native v = true /\ consumed r s) /\
    (forall s vs r,
        scalar_text s = true -> Json.parse_items fuel s = Some (vs, r) ->
        forallb native vs = true /\ consumed r s) /\
    (forall s kvs r,
        scalar_text s = true -> Json.parse_members fuel s = Some (kvs, r) ->
        forallb entry_native kvs = true /\ consumed r s).
Proof.
  induction fuel as [|f (IHv & IHi & IHm)].
  { repeat split; discriminate. }
  split; [|split].
  - intros [|c s1] v r Hsc H; [discriminate H|].
    rewrite scan_once_S in H. pose proof (cons_scalar _ _ Hsc) as Hsc1.
    destruct (c =? 34).
    { destruct (Json.scanstring s1) as [[x rest]|] eqn:Es; [|discriminate H].
      injection H as <- <-. apply scanstring_scanned in Es. split.
      - exact (scanned_native Es Hsc1).
      - destruct (scanned_suffix Es) as [Hs _].
        exact (suffix_consumed Hs (consumed_cons c s1)). }
    destruct (c =? 123).
    { destruct (Json.skip_ws s1) as [|c2 rest0] eqn:Ew; [discriminate H|].
      pose proof (skip_ws_scalar _ Hsc1) as Hsc2. rewrite Ew in Hsc2.
      destruct (c2 =? 125).
      - injection H as <- <-. split; [reflexivity|].
        exact (consumed_trans
                 (skip_ws_consumed_head _ Ew (suffix_refl _))
                 (consumed_cons c s1)).
      - destruct (Json.parse_members f (c2 :: rest0)) as [[pairs rest']|]
          eqn:Ep; [|discriminate H].
        injection H as <- <-.
        destruct (IHm _ _ _ Hsc2 Ep) as [Hn [Hc _]]. split.
        + apply dict_of_pairs_native, Hn.
        + pose proof (skip_ws_suffix s1) as Hs. rewrite Ew in Hs.
          exact (suffix_consumed (suffix_trans Hc Hs) (consumed_cons c s1)). }
    destruct (c =? 91).
    { destruct (Json.skip_ws s1) as [|c2 rest0] eqn:Ew; [discriminate H|].
      pose proof (skip_ws_scalar _ Hsc1) as Hsc2. rewrite Ew in Hsc2.
      destruct (c2 =? 93).
      - injection H as <- <-. split; [reflexivity|].
        exact (consumed_trans
                 (skip_ws_consumed_head _ Ew (suffix_refl _))
                 (consumed_cons c s1)).
      - destruct (Json.parse_items f (c2 :: rest0)) as [[items rest']|]
          eqn:Ep; [|discriminate H].
        injection H as <- <-.
        destruct (IHi _ _ _ Hsc2 Ep) as [Hn [Hc _]]. split.
        + exact Hn.
        + pose proof (skip_ws_suffix s1) as Hs. rewrite Ew in Hs.
          exact (suffix_consumed (suffix_trans Hc Hs) (consumed_cons c s1)). }
    destruct (c =? 110).
    { destruct (literal_consumed _ _ c _ H) as [-> Hc]. split; [reflexivity|exact Hc]. }
    destruct (c =? 116).
    { destruct (literal_consumed _ _ c _ H) as [-> Hc]. split; [reflexivity|exact Hc]. }
    destruct (c =? 102).
    { destruct (literal_consumed _ _ c _ H) as [-> Hc]. split; [reflexivity|exact Hc]. }
    exact (match_number_consumed _ H).
  - intros s vs r Hsc H. rewrite parse_items_S in H.
    destruct (Json.scan_once f s) as [[v0 r0]|] eqn:Ev; [|discriminate H].
    destruct (IHv _ _ _ Hsc Ev) as [Hn0 Hc0].
    pose proof (consumed_scalar Hc0 Hsc) as Hsc0.
    destruct (Json.skip_ws r0) as [|c r1] eqn:Ew; [discriminate H|].
    pose proof (skip_ws_consumed_head _ Ew (suffix_refl _)) as Hc1.
    destruct (c =? 93).
    + injection H as <- <-. cbn [forallb]. rewrite Hn0. split; [reflexivity|].
      exact (consumed_trans Hc1 Hc0).
    + destruct (c =? 44); [|discriminate H].
      destruct (Json.parse_items f (Json.skip_ws r1)) as [[vs' rest]|] eqn:Ep;
        [|discriminate H].
      injection H as <- <-.
      assert (Hsc1 : scalar_text (Json.skip_ws r1) = true).
      { apply skip_ws_scalar. exact (consumed_scalar Hc1 Hsc0). }
      destruct (IHi _ _ _ Hsc1 Ep) as [Hn [Hc _]].
      cbn [forallb]. rewrite Hn0, Hn. split; [reflexivity|].
      apply (consumed_trans
               (suffix_consumed (suffix_trans Hc (skip_ws_suffix r1)) Hc1) Hc0).
  - intros [|q s1] kvs r Hsc H; [discriminate H|].
    rewrite parse_members_S in H. pose proof (cons_scalar _ _ Hsc) as Hsc1.
    destruct (q =? 34); [|discriminate H].
    destruct (Json.scanstring s1) as [[k r0]|] eqn:Es; [|discriminate H].
    apply scanstring_scanned in Es.
    pose proof (scanned_native Es Hsc1) as Hk.
    destruct (scanned_suffix Es) as [Hs0 _].
    pose proof (suffix_scalar Hs0 Hsc1) as Hsc0.
    destruct (Json.skip_ws r0) as [|c r1] eqn:Ew; [discriminate H|].
    pose proof (skip_ws_consumed_head _ Ew (suffix_refl _)) as Hc1.
    destruct (c =? 58); [|discriminate H].
    destruct (Json.scan_once f (Json.skip_ws r1)) as [[v0 r2]|] eqn:Ev;
      [|discriminate H].
    assert (Hsc1' : scalar_text (Json.skip_ws r1) = true).
    { apply skip_ws_scalar. exact (consumed_scalar Hc1 Hsc0). }
    destruct (IHv _ _ _ Hsc1' Ev) as [Hn0 Hc2].
    pose proof (consumed_scalar Hc2 Hsc1') as Hsc2.
    assert (Hr2 : consumed r2 (q :: s1)).
    { apply (fun H => suffix_consumed H (consumed_cons q s1)).
      refine (suffix_trans _ Hs0).
      refine (suffix_trans _ (proj1 Hc1)).
      exact (suffix_trans (proj1 Hc2) (skip_ws_suffix r1)). }
    destruct (Json.skip_ws r2) as [|c' r3] eqn:Ew2; [discriminate H|].
    pose proof (skip_ws_consumed_head _ Ew2 (suffix_refl _)) as Hc3.
    destruct (c' =? 125).
    + injection H as <- <-. cbn [forallb entry_native].
      rewrite Hk, Hn0. split; [reflexivity|].
      exact (consumed_trans Hc3 Hr2).
    + destruct (c' =? 44); [|discriminate H].
      destruct (Json.parse_members f (Json.skip_ws r3)) as [[kvs' rest]|]
        eqn:Ep; [|discriminate H].
      injection H as <- <-.
      assert (Hsc3 : scalar_text (Json.skip_ws r3) = true).
      { apply skip_ws_scalar. exact (consumed_scalar Hc3 Hsc2). }
      destruct (IHm _ _ _ Hsc3 Ep) as [Hn [Hc _]].
      cbn [forallb entry_native]. rewrite Hk, Hn0, Hn.
      split; [reflexivity|].
      apply (consumed_trans
               (suffix_consumed (suffix_trans Hc (skip_ws_suffix r3)) Hc3) Hr2).
Qed.

(** Whatever [json.loads] makes of a response body is native. *)
Theorem loads_native text v :
  scalar_text text = true -> Json.loads text = Some v -> native v = true.
Proof.
  intros Hsc. unfold Json.loads.
  destruct (Json.scan_once (S (List.length text)) (Json.skip_ws text))
    as [[v' rest]|] eqn:E; [|discriminate].
  destruct (Json.skip_ws rest); [|discriminate].
  intros H. injection H as <-.
  exact (proj1 (proj1 (scan_native _) _ _ _ (skip_ws_scalar _ Hsc) E)).
Qed.

(** *** The scanner's fuel

    A scan that returns would return the same with any fuel above the
    number of characters it read. *)

Lemma skip_ws_length s : (List.length (Json.skip_ws s) <= List.length s)%nat.
Proof. apply suffix_length, skip_ws_suffix. Qed.

Lemma scan_fuel :
  forall fuel,
    (forall s v r,
        Json.scan_once fuel s = Some (v, r) ->
        (List.length r < List.length s)%nat /\
        forall fuel', (List.length s - List.length r < fuel')%nat ->
                      Json.scan_once fuel' s = Some (v, r)) /\
    (forall s vs r,
        Json.parse_items fuel s = Some (vs, r) ->
        (List.length r < List.length s)%nat /\
        forall fuel', (List.length s - List.length r < fuel')%nat ->
                      Json.parse_items fuel' s = Some (vs, r)) /\
    (forall s kvs r,
        Json.parse_members fuel s = Some (kvs, r) ->
        (List.length r < List.length s)%nat /\
        forall fuel', (List.length s - List.length r < fuel')%nat ->
                      Json.parse_members fuel' s = Some (kvs, r)).
Proof.
  induction fuel as [|f (IHv & IHi & IHm)].
  { repeat split; discriminate. }
  split; [|split].
  - intros [|c s1] v r H; [discriminate H|].
    rewrite scan_once_S in H. cbn [List.length].
    destruct (c =? 34) eqn:E34.
    { destruct (Json.scanstring s1) as [[x rest]|] eqn:Es; [|discriminate H].
      injection H as <- <-.
      destruct (scanned_suffix (scanstring_scanned _ Es)) as [_ Hl].
      split; [lia|]. intros [|g] Hg; [lia|].
      rewrite scan_once_S, E34, Es. reflexivity. }
    destruct (c =? 123) eqn:E123.
    { pose proof (skip_ws_length s1) as Hw.
      destruct (Json.skip_ws s1) as [|c2 rest0] eqn:Ew; [discriminate H|].
      cbn [List.length] in Hw.
      destruct (c2 =? 125) eqn:E125.
      - injection H as <- <-. split; [lia|]. intros [|g] Hg; [lia|].
        rewrite scan_once_S, E34, E123, Ew, E125. reflexivity.
      - destruct (Json.parse_members f (c2 :: rest0)) as [[pairs rest']|]
          eqn:Ep; [|discriminate H].
        injection H as <- <-.
        destruct (IHm _ _ _ Ep) as [Hl Hf]. cbn [List.length] in Hl, Hf.
        split; [lia|]. intros [|g] Hg; [lia|].
        rewrite scan_once_S, E34, E123, Ew, E125, Hf by lia. reflexivity. }
    destruct (c =? 91) eqn:E91.
    { pose proof (skip_ws_length s1) as Hw.
      destruct (Json.skip_ws s1) as [|c2 rest0] eqn:Ew; [discriminate H|].
      cbn [List.length] in Hw.
      destruct (c2 =? 93) eqn:E93.
      - injection H as <- <-. split; [lia|]. intros [|g] Hg; [lia|].
        rewrite scan_once_S, E34, E123, E91, Ew, E93. reflexivity.
      - destruct (Json.parse_items f (c2 :: rest0)) as [[items rest']|]
          eqn:Ep; [|discriminate H].
        injection H as <- <-.
        destruct (IHi _ _ _ Ep) as [Hl Hf]. cbn [List.length] in Hl, Hf.
        split; [lia|]. intros [|g] Hg; [lia|].
        rewrite scan_once_S, E34, E123, E91, Ew, E93, Hf by lia.
        reflexivity. }
    assert (Hsame : forall g,
               Json.scan_once (S g) (c :: s1) = Json.scan_once (S f) (c :: s1)).
    { intros g. rewrite !scan_once_S, E34, E123, E91. reflexivity. }
    assert (Hlen : (List.length r < S (List.length s1))%nat).
    { destruct (c =? 110);
        [destruct (literal_consumed _ _ c _ H) as [_ [_ Hl]]; exact Hl|].
      destruct (c =? 116);
        [destruct (literal_consumed _ _ c _ H) as [_ [_ Hl]]; exact Hl|].
      destruct (c =? 102);
        [destruct (literal_consumed _ _ c _ H) as [_ [_ Hl]]; exact Hl|].
      destruct (match_number_consumed _ H) as [_ [_ Hl]]. exact Hl. }
    split; [exact Hlen|]. intros [|g] Hg; [lia|].
    rewrite Hsame, scan_once_S, E34, E123, E91. exact H.
  - intros s vs r H. rewrite parse_items_S in H.
    destruct (Json.scan_once f s) as [[v0 r0]|] eqn:Ev; [|discriminate H].
    destruct (IHv _ _ _ Ev) as [Hl0 Hf0].
    pose proof (skip_ws_length r0) as Hw.
    destruct (Json.skip_ws r0) as [|c r1] eqn:Ew; [discriminate H|].
    cbn [List.length] in Hw.
    destruct (c =? 93) eqn:E93.
    + injection H as <- <-. split; [lia|]. intros [|g] Hg; [lia|].
      rewrite parse_items_S, Hf0, Ew, E93 by lia. reflexivity.
    + destruct (c =? 44) eqn:E44; [|discriminate H].
      pose proof (skip_ws_length r1) as Hw1.
      destruct (Json.parse_items f (Json.skip_ws r1)) as [[vs' rest]|] eqn:Ep;
        [|discriminate H].
      injection H as <- <-.
      destruct (IHi _ _ _ Ep) as [Hl Hf].
      split; [lia|]. intros [|g] Hg; [lia|].
      rewrite parse_items_S, Hf0, Ew, E93, E44, Hf by lia. reflexivity.
  - intros [|q s1] kvs r H; [discriminate H|].
    rewrite parse_members_S in H. cbn [List.length].
    destruct (q =? 34) eqn:E34; [|discriminate H].
    destruct (Json.scanstring s1) as [[k r0]|] eqn:Es; [|discriminate H].
    destruct (scanned_suffix (scanstring_scanned _ Es)) as [_ Hl0].
    pose proof (skip_ws_length r0) as Hw.
    destruct (Json.skip_ws r0) as [|c r1] eqn:Ew; [discriminate H|].
    cbn [List.length] in Hw.
    destruct (c =? 58) eqn:E58; [|discriminate H].
    pose proof (skip_ws_length r1) as Hw1.
    destruct (Json.scan_once f (Json.skip_ws r1)) as [[v0 r2]|] eqn:Ev;
      [|discriminate H].
    destruct (IHv _ _ _ Ev) as [Hl2 Hf2].
    pose proof (skip_ws_length r2) as Hw2.
    destruct (Json.skip_ws r2) as [|c' r3] eqn:Ew2; [discriminate H|].
    cbn [List.length] in Hw2.
    destruct (c' =? 125) eqn:E125.
    + injection H as <- <-. split; [lia|]. intros [|g] Hg; [lia|].
      rewrite parse_members_S, E34, Es, Ew, E58, Hf2, Ew2, E125 by lia.
      reflexivity.
    + destruct (c' =? 44) eqn:E44; [|discriminate H].
      pose proof (skip_ws_length r3) as Hw3.
      destruct (Json.parse_members f (Json.skip_ws r3)) as [[kvs' rest]|]
        eqn:Ep; [|discriminate H].
      injection H as <- <-.
      destruct (IHm _ _ _ Ep) as [Hl Hf].
      split; [lia|]. intros [|g] Hg; [lia|].
      rewrite parse_members_S, E34, Es, Ew, E58, Hf2, Ew2, E125, E44, Hf
        by lia.
      reflexivity.
Qed.

(** The fuel [Json.loads] passes is as good as any larger one: no text
    is rejected for want of fuel. *)
Theorem scan_once_fuel_enough s fuel :
  (List.length s < fuel)%nat ->
  Json.scan_once fuel s = Json.scan_once (S (List.length s)) s.
Proof.
  intros Hfuel.
  destruct (Json.scan_once fuel s) as [[v r]|] eqn:E1.
  - destruct (proj1 (scan_fuel fuel) _ _ _ E1) as [Hl Hf].
    symmetry. apply Hf. lia.
  - destruct (Json.scan_once (S (List.length s)) s) as [[v r]|] eqn:E2;
      [|reflexivity].
    destruct (proj1 (scan_fuel _) _ _ _ E2) as [Hl Hf].
    rewrite Hf in E1 by lia. discriminate E1.
Qed.

(** *** Snapshots of fetched records parse back *)

Lemma dict_get_native d k v :
  native (VDict d) = true -> dict_get d k = Some v -> native v = true.
Proof.
  cbn [native]. intros H. apply andb_true_iff in H. destruct H as [_ H].
  induction d as [|[k' x] d IH]; [discriminate|].
  cbn [forallb] in H. apply andb_true_iff in H. destruct H as [Hx H].
  apply andb_true_iff in Hx. destruct Hx as [_ Hx].
  cbn [dict_get]. destruct (str_eqb k' k).
  - intros E. injection E as <-. exact Hx.
  - apply IH, H.
Qed.

Lemma subscript_native o k v :
  native o = true -> subscript o k = Ok v -> native v = true.
Proof.
  destruct o as [| | | | |d]; try discriminate. cbn [subscript].
  destruct (dict_get d k) as [v'|] eqn:E; [|discriminate].
  intros Hn H. injection H as <-. exact (dict_get_native _ _ Hn E).
Qed.

Lemma str_native_chars s :
  str_native s = true ->
  forallb native (List.map (fun c => VStr [c]) s) = true.
Proof.
  induction s as [|c s IH]; [reflexivity|].
  cbn [str_native]. intros H.
  apply andb_true_iff in H. destruct H as [H Hs].
  apply andb_true_iff in H. destruct H as [Hc _].
  cbn [List.map forallb native str_native].
  rewrite Hc, (IH Hs). destruct (Json.is_high_surrogate c); reflexivity.
Qed.

Lemma iterate_native o items :
  native o = true -> iterate o = Ok items -> forallb native items = true.
Proof.
  destruct o as [| | | s | l | d]; try discriminate;
    cbn [iterate native]; intros Hn H; injection H as <-.
  - apply str_native_chars, Hn.
  - exact Hn.
  - apply andb_true_iff in Hn. destruct Hn as [_ Hn].
    induction d as [|[k x] d IH]; [reflexivity|].
    cbn [forallb] in Hn. apply andb_true_iff in Hn. destruct Hn as [Hk Hn].
    apply andb_true_iff in Hk. destruct Hk as [Hk _].
    cbn [List.map forallb fst native]. rewrite Hk. exact (IH Hn).
Qed.

Lemma query_scalar query variables w r w' :
  scalar_answers w ->
  opslevel_graphql_query query variables w = (Ok r, w') ->
  native r = true /\ scalar_answers w'.
Proof.
  unfold scalar_answers. intros Hw.
  rewrite opslevel_graphql_query_run. cbn zeta.
  destruct (net w) as [|[|st text|st text] rest] eqn:E; try discriminate.
  all: inversion Hw as [|? ? Ht Hrest]; subst.
  all: destruct (Z.eqb st 200); [|discriminate].
  all: unfold response_json; destruct (Json.loads text) as [v|] eqn:El;
    [|discriminate].
  all: intros H; injection H as <- <-; split;
    [exact (loads_native _ Ht El) | exact Hrest].
Qed.

Lemma fetch_page_native query kind st w st' w' :
  forallb native (data_acc st) = true ->
  scalar_answers w ->
  fetch_page query kind st w = (Ok st', w') ->
  forallb native (data_acc st') = true /\ scalar_answers w'.
Proof.
  intros Hacc Hw. unfold fetch_page. cbn zeta. unfold bind at 1.
  destruct (opslevel_graphql_query query
              (VDict [(u "endCursor", end_cursor st)]) w) as [[r|e] w1] eqn:Eq;
    [|discriminate].
  destruct (query_scalar _ _ Hw Eq) as [Hr Hw1].
  unfold bind, lift, ret.
  destruct (subscript r (u "data")) as [d|] eqn:E1; [|discriminate].
  destruct (subscript d (u "account")) as [a|] eqn:E2; [|discriminate].
  destruct (subscript a kind) as [c|] eqn:E3; [|discriminate].
  destruct (subscript c (u "nodes")) as [entities|] eqn:E4; [|discriminate].
  destruct (iterate entities) as [items|] eqn:E5; [|discriminate].
  destruct (subscript c (u "pageInfo")) as [page_info|]; [|discriminate].
  destruct (subscript page_info (u "endCursor")) as [cur|]; [|discriminate].
  destruct (subscript page_info (u "hasNextPage")) as [more|];
    [|discriminate].
  intros H. injection H as <- <-. cbn [data_acc]. split; [|exact Hw1].
  rewrite forallb_app, Hacc. cbn [andb].
  apply (iterate_native entities); [|exact E5].
  apply (subscript_native _ _ (subscript_native _ _
           (subscript_native _ _ (subscript_native _ _ Hr E1) E2) E3) E4).
Qed.

Lemma while_fuel_invariant {S} (I : S -> Prop) (J : world -> Prop)
      cond (body : S -> M S) :
  (forall s w s' w', I s -> J w -> body s w = (Ok s', w') -> I s' /\ J w') ->
  forall fuel s w s' w',
    I s -> J w ->
    while_fuel fuel cond body s w = (Ok s', w') -> I s' /\ J w'.
Proof.
  intros Hb. induction fuel as [|fuel IH]; intros s w s' w' Hs Hw;
    cbn [while_fuel]; destruct (cond s).
  - discriminate.
  - intros H. injection H as <- <-. split; assumption.
  - unfold bind. destruct (body s w) as [[s1|e] w1] eqn:E; [|discriminate].
    destruct (Hb _ _ _ _ Hs Hw E) as [Hs1 Hw1]. apply IH; assumption.
  - intros H. injection H as <- <-. split; assumption.
Qed.

Lemma snapshot_run_parses_back query kind prefix message w w' :
  scalar_answers w ->
  (st <- while_ (fun st => truthy (has_next_page st))
           (fetch_page query kind) loop_init ;;
   date_suffix <- date_suffix_now ;;
   let filename := prefix ++ date_suffix ++ u ".json" in
   save_to_file filename (VList (data_acc st)) ;;
   print [Text (message ++ filename)] ;;
   ret VNone) w = (Ok VNone, w') ->
  exists records,
    fetched_records query kind w = Some records /\
    fs_read (files w') (snapshot_name prefix (now w))
    = Some (Json.dumps (VList records)) /\
    Json.loads (Json.dumps (VList records)) = Some (VList records).
Proof.
  intros Hw. unfold fetched_records. unfold bind at 1. unfold while_.
  destruct (while_fuel (S (List.length (net w)))
              (fun st => truthy (has_next_page st))
              (fetch_page query kind) loop_init w) as [[st|e] w1] eqn:E;
    [|discriminate].
  assert (Hst : forallb native (data_acc st) = true).
  { eapply (@while_fuel_invariant _
              (fun st => forallb native (data_acc st) = true)
              scalar_answers); [| | exact Hw | exact E].
    - intros s w0 s' w0' Hs Hw0 H. eapply fetch_page_native; eassumption.
    - reflexivity. }
  assert (Hnow : now w1 = now w).
  { pose proof (@preserves_while_fuel _ now _ (S (List.length (net w)))
                  (fun st => truthy (has_next_page st))
                  (fetch_page query kind) loop_init) as Hp.
    rewrite <- (Hp ltac:(intros s'; unfold fetch_page; cbn zeta;
                         apply preserves_bind;
                         [intros w0; rewrite opslevel_graphql_query_run;
                          cbn zeta;
                          destruct (net w0) as [|[|s0 t0|s0 t0] r0];
                          try destruct (Z.eqb s0 200); reflexivity
                         |intros ?; preserves_tac]) w).
    rewrite E. reflexivity. }
  intros H. exists (data_acc st).
  unfold bind, date_suffix_now, save_to_file, print, ret in H.
  cbn beta iota in H. injection H as <-.
  cbn [files set_stdout set_files]. unfold snapshot_name.
  rewrite <- Hnow. split; [reflexivity|]. split; [apply fs_read_write|].
  apply loads_dumps. exact Hst.
Qed.

(** X20: whatever the endpoint serves (bodies being text as HTTP carries
    it), a successful run of [fetch_and_save_systems] or
    [fetch_and_save_domains] leaves a snapshot that parses back to the
    very records the run handed to [save_to_file], the ones its loop had
    accumulated: the file holds their dump, and [json.loads] of it is
    the list of them. *)
Theorem fetched_snapshot_parses_back w w' :
  scalar_answers w ->
  (fetch_and_save_systems w = (Ok VNone, w') ->
   exists records,
     fetched_records OL_SYSTEMS_QUERY (u "systems") w = Some records /\
     fs_read (files w') (snapshot_name (u "systems_data_") (now w))
     = Some (Json.dumps (VList records)) /\
     Json.loads (Json.dumps (VList records)) = Some (VList records)) /\
  (fetch_and_save_domains w = (Ok VNone, w') ->
   exists records,
     fetched_records OL_DOMAINS_QUERY (u "domains") w = Some records /\
     fs_read (files w') (snapshot_name (u "domains_data_") (now w))
     = Some (Json.dumps (VList records)) /\
     Json.loads (Json.dumps (VList records)) = Some (VList records)).
Proof.
  intros Hw. split.
  - rewrite fetch_and_save_systems_rounds.
    apply (@snapshot_run_parses_back OL_SYSTEMS_QUERY (u "systems")
             (u "systems_data_") (u "Systems data saved to ") w w' Hw).
  - rewrite fetch_and_save_domains_rounds.
    apply (@snapshot_run_parses_back OL_DOMAINS_QUERY (u "domains")
             (u "domains_data_") (u "Domains data saved to ") w w' Hw).
Qed.

Lemma fetched_snapshot_parses_back_witness :
  let w := example_world (three_answers "systems") [] in
  let records := List.concat (List.map nodes (first_two_pages ++ [third_page])) in
  fetched_records OL_SYSTEMS_QUERY (u "systems") w = Some records
  /\ fs_read (files (snd (fetch_and_save_systems w)))
       (snapshot_name (u "systems_data_") (now w))
     = Some (Json.dumps (VList records))
  /\ Json.loads (Json.dumps (VList records)) = Some (VList records).
Proof.
  intros w records.
  assert (Hw : scalar_answers w).
  { repeat (apply Forall_cons || apply Forall_nil); vm_compute; reflexivity. }
  assert (Hrun : fetch_and_save_systems w
                 = (Ok VNone, snd (fetch_and_save_systems w)))
    by (vm_compute; reflexivity).
  destruct (proj1 (@fetched_snapshot_parses_back w
                     (snd (fetch_and_save_systems w)) Hw) Hrun)
    as (records' & Hf & Hfile & Hload).
  assert (E : records' = records).
  { assert (Hf' : fetched_records OL_SYSTEMS_QUERY (u "systems") w
                  = Some records) by (vm_compute; reflexivity).
    rewrite Hf' in Hf. injection Hf as <-. reflexivity. }
  rewrite E in Hfile, Hload. repeat split; assumption.
Defined.

(** *** Sample runs of the codec and of the file names *)

Example dumps_indent :
  Json.dumps (VList [VDict [(u "name", VStr (u "A")); (u "tags", VList [])];
                     VNone])
  = jtext "[
    {
        'name': 'A',
        'tags': []
    },
    null
]".
Proof. reflexivity. Qed.

Example dumps_escapes :
  Json.dumps (VStr [233; 10; 128512]) = jtext "'\u00e9\n\ud83d\ude00'".
Proof. reflexivity. Qed.

Example loads_compact :
  Json.loads (jtext " {'a': [1, -20, {'b': null}], 'c': '\u00e9x', 'a': true} ")
  = Some (VDict [(u "a", VBool true); (u "c", VStr [233; 120])]).
Proof. reflexivity. Qed.

(** A string outside [native]: two code points that form a surrogate pair
    come back as one. *)
Example surrogate_pair_joined :
  native (VStr [55357; 56832]) = false /\
  Json.loads (Json.dumps (VStr [55357; 56832])) = Some (VStr [128512]).
Proof. split; reflexivity. Qed.

Example snapshot_name_example :
  snapshot_name (u "systems_data_") {| year := 2024; month := 3; day := 7 |}
  = u "systems_data_20240307.json".
Proof. reflexivity. Qed.

(** ** Further properties of the script *)

(** *** The transport, beyond its status test *)

(** X1: whatever the endpoint does, one call of [opslevel_graphql_query]
    posts exactly one request, to the fixed endpoint, with the bearer
    token and the body [{query, variables}]; it uses up the next pending
    answer and touches neither the files nor the console. *)
Theorem opslevel_graphql_query_one_request :
  forall query variables w,
    let w' := snd (opslevel_graphql_query query variables w) in
    sent w' = sent w ++
              [{| req_url := u "https://app.opslevel.com/graphql";
                  req_json := VDict [(u "query", VStr query);
                                     (u "variables", variables)];
                  req_headers :=
                    [(u "Content-Type", u "application/json");
                     (u "Authorization", u "Bearer " ++ api_token w)] |}]
    /\ net w' = tl (net w)
    /\ files w' = files w /\ stdout w' = stdout w /\ stdin w' = stdin w
    /\ api_token w' = api_token w /\ now w' = now w.
Proof.
  intros query variables w. cbn zeta.
  rewrite opslevel_graphql_query_run. cbn zeta.
  destruct (net w) as [|[|st text|st text] rest] eqn:E;
    try destruct (Z.eqb st 200);
    cbn [snd sent net files stdout stdin api_token now set_net set_sent tl];
    rewrite ?E; repeat split; reflexivity.
Qed.


(** *** The snapshot writer *)

Lemma fs_write_twice fs path c1 c2 :
  fs_write (fs_write fs path c1) path c2 = fs_write fs path c2.
Proof.
  induction fs as [|[p c] fs IH]; cbn [fs_write].
  - rewrite str_eqb_refl. reflexivity.
  - destruct (str_eqb p path) eqn:E; cbn [fs_write]; rewrite E;
      [reflexivity | rewrite IH; reflexivity].
Qed.













(** *** The converters and the records they are given *)

(** [create_service] is: build the variables, post, return [None]. *)
Lemma create_service_factors system w :
  create_service system w
  = match service_variables system with
    | Ok variables =>
        (opslevel_graphql_query OL_SERVICE_MUTATION variables ;; ret VNone) w
    | Raise e => (Raise e, w)
    end.
Proof.
  unfold create_service, service_variables, bind, lift, and_then.
  destruct (get system (u "owner") (VStr [])) as [owner|e]; [|reflexivity].
  destruct (truthy owner).
  - destruct (subscript system (u "owner")) as [o|e]; [|reflexivity].
    destruct (subscript o (u "id")) as [i|e]; [|reflexivity].
    unfold ret.
    destruct (subscript system (u "name")) as [name|e]; [|reflexivity].
    destruct (str_add (u "SEARCH-") name) as [alias|e]; [|reflexivity].
    destruct (get system (u "description") (VStr [])) as [description|e];
      reflexivity.
  - unfold ret.
    destruct (subscript system (u "name")) as [name|e]; [|reflexivity].
    destruct (str_add (u "SEARCH-") name) as [alias|e]; [|reflexivity].
    destruct (get system (u "description") (VStr [])) as [description|e];
      reflexivity.
Qed.

(** What [convert_domain_to_system] does with the response. *)
Lemma convert_domain_to_system_factors domain w :
  convert_domain_to_system domain w
  = match system_variables domain with
    | Ok variables =>
        (result <- opslevel_graphql_query OL_SYSTEM_MUTATION variables ;;
         print [Text (u "RESULT,"); Text (u " "); format result] ;;
         d <- lift (subscript result (u "data")) ;;
         c <- lift (subscript d (u "systemCreate")) ;;
         s <- lift (subscript c (u "system")) ;;
         system_id <- lift (subscript s (u "id")) ;;
         name' <- lift (subscript domain (u "name")) ;;
         print [Text (u "Domain "); format name';
                Text (u " converted to system with ID "); format system_id] ;;
         ret VNone) w
    | Raise e => (Raise e, w)
    end.
Proof.
  unfold convert_domain_to_system, system_variables, bind, lift, and_then.
  destruct (get domain (u "owner") (VStr [])) as [owner|e]; [|reflexivity].
  destruct (truthy owner).
  - destruct (subscript domain (u "owner")) as [o|e]; [|reflexivity].
    destruct (subscript o (u "id")) as [i|e]; [|reflexivity].
    destruct (subscript domain (u "name")) as [name|e]; [|reflexivity].
    destruct (get domain (u "description") (VStr [])) as [description|e];
      [|reflexivity].
    destruct (get domain (u "note") (VStr [])) as [note|e]; reflexivity.
  - unfold ret.
    destruct (subscript domain (u "name")) as [name|e]; [|reflexivity].
    destruct (get domain (u "description") (VStr [])) as [description|e];
      [|reflexivity].
    destruct (get domain (u "note") (VStr [])) as [note|e]; reflexivity.
Qed.

Lemma subscript_key_error o k e :
  subscript o k = Raise e -> e = TypeError \/ e = KeyError k.
Proof.
  destruct o as [| | | | |d]; cbn [subscript];
    try (intros H; injection H as <-; left; reflexivity).
  destruct (dict_get d k); [discriminate|].
  intros H. injection H as <-. right. reflexivity.
Qed.

Lemma get_error o k default e :
  get o k default = Raise e -> e = AttributeError /\ is_dict o = false.
Proof.
  destruct o as [| | | | |d]; cbn [get is_dict];
    try (intros H; injection H as <-; split; reflexivity).
  destruct (dict_get d k); discriminate.
Qed.

Lemma get_dict o k default v :
  get o k default = Ok v -> is_dict o = true.
Proof. destruct o; cbn [get is_dict]; try discriminate. reflexivity. Qed.

Lemma subscript_dict_error o k e :
  is_dict o = true -> subscript o k = Raise e -> e = KeyError k.
Proof.
  destruct o as [| | | | |d]; cbn [is_dict subscript]; try discriminate.
  intros _. destruct (dict_get d k); [discriminate|].
  intros H. injection H as <-. reflexivity.
Qed.

Lemma str_add_error a b e : str_add a b = Raise e -> e = TypeError.
Proof. destruct b; cbn [str_add]; congruence. Qed.

Ltac record_error_tac :=
  unfold record_error;
  repeat match goal with
         | |- Raise _ = Raise _ -> _ =>
             let H := fresh in intros H; injection H as <-
         | |- Ok _ = Raise _ -> _ => discriminate
         | H : subscript _ _ = Raise _ |- _ =>
             apply subscript_key_error in H; destruct H as [-> | ->]
         | H : str_add _ _ = Raise _ |- _ => apply str_add_error in H; subst
         end;
  try tauto.

Lemma service_variables_error system e :
  service_variables system = Raise e -> record_error e.
Proof.
  unfold service_variables, and_then.
  destruct system as [| | | | |d]; cbn [get]; try record_error_tac.
  cbn [subscript].
  destruct (dict_get d (u "owner")) as [owner|]; cbn [truthy].
  - destruct (truthy owner).
    + destruct (subscript owner (u "id")) as [i|e0] eqn:Ei;
        [|record_error_tac].
      destruct (dict_get d (u "name")) as [name|]; [|record_error_tac].
      destruct (str_add (u "SEARCH-") name) as [alias|e0] eqn:Ea;
        [|record_error_tac].
      destruct (dict_get d (u "description")); discriminate.
    + destruct (dict_get d (u "name")) as [name|]; [|record_error_tac].
      destruct (str_add (u "SEARCH-") name) as [alias|e0] eqn:Ea;
        [|record_error_tac].
      destruct (dict_get d (u "description")); discriminate.
  - destruct (dict_get d (u "name")) as [name|]; [|record_error_tac].
    destruct (str_add (u "SEARCH-") name) as [alias|e0] eqn:Ea;
      [|record_error_tac].
    destruct (dict_get d (u "description")); discriminate.
Qed.

Lemma system_variables_error domain e :
  system_variables domain = Raise e -> record_error e.
Proof.
  unfold system_variables, and_then.
  destruct domain as [| | | | |d]; cbn [get]; try record_error_tac.
  cbn [subscript].
  destruct (dict_get d (u "owner")) as [owner|]; cbn [truthy].
  - destruct (truthy owner).
    + destruct (subscript owner (u "id")) as [i|e0] eqn:Ei;
        [|record_error_tac].
      destruct (dict_get d (u "name")) as [name|]; [|record_error_tac].
      destruct (dict_get d (u "description")), (dict_get d (u "note"));
        discriminate.
    + destruct (dict_get d (u "name")) as [name|]; [|record_error_tac].
      destruct (dict_get d (u "description")), (dict_get d (u "note"));
        discriminate.
  - destruct (dict_get d (u "name")) as [name|]; [|record_error_tac].
    destruct (dict_get d (u "description")), (dict_get d (u "note"));
      discriminate.
Qed.

(** X5: a record either makes a converter fail before anything is sent,
    with [AttributeError], [TypeError], [KeyError('id')] or
    [KeyError('name')] and the world untouched, or the converter gets as
    far as posting its mutation, once; this holds for [create_service]
    and for [convert_domain_to_system] alike. *)
Theorem converters_fail_before_posting_or_post :
  forall record w,
    ((exists e, record_error e /\ create_service record w = (Raise e, w))
     \/ (exists variables,
            sent (snd (create_service record w))
            = sent w ++ [graphql_request (api_token w) OL_SERVICE_MUTATION
                           variables]))
    /\
    ((exists e, record_error e
                /\ convert_domain_to_system record w = (Raise e, w))
     \/ (exists variables,
            sent (snd (convert_domain_to_system record w))
            = sent w ++ [graphql_request (api_token w) OL_SYSTEM_MUTATION
                           variables])).
Proof.
  intros record w. split.
  - rewrite create_service_factors.
    destruct (service_variables record) as [variables|e] eqn:E.
    + right. exists variables. apply query_then_sent.
      intros r. apply preserves_ret.
    + left. exists e. split; [|reflexivity].
      exact (service_variables_error _ E).
  - rewrite convert_domain_to_system_factors.
    destruct (system_variables record) as [variables|e] eqn:E.
    + right. exists variables. apply query_then_sent.
      intros r. preserves_tac.
    + left. exists e. split; [|reflexivity].
      exact (system_variables_error _ E).
Qed.

(** X6: a record without the key ['name'] (its owner being usable) makes
    both converters raise [KeyError('name')] before anything is posted or
    printed: the world is as it was. *)
Theorem record_without_name_raises :
  forall d owner w,
    owner_variable d = Some owner ->
    dict_get d (u "name") = None ->
    create_service (VDict d) w = (Raise (KeyError (u "name")), w)
    /\ convert_domain_to_system (VDict d) w
       = (Raise (KeyError (u "name")), w).
Proof.
  intros d owner w Ho Hn. unfold owner_variable in Ho.
  rewrite create_service_factors, convert_domain_to_system_factors.
  unfold service_variables, system_variables, and_then.
  cbn [get subscript].
  destruct (dict_get d (u "owner")) as [o|]; cbn [truthy].
  - destruct (truthy o).
    + destruct o as [| | | | |od]; try discriminate Ho. cbn [subscript].
      rewrite Ho, Hn. split; reflexivity.
    + rewrite Hn. split; reflexivity.
  - rewrite Hn. split; reflexivity.
Qed.

Lemma record_without_name_raises_witness :
  let w := example_world [Response 200 system_created_body] [] in
  create_service nameless_record w = (Raise (KeyError (u "name")), w)
  /\ convert_domain_to_system nameless_record w
     = (Raise (KeyError (u "name")), w).
Proof.
  intros w.
  apply (@record_without_name_raises
           [(u "id", VStr (u "Z2lk")); (u "description", VStr (u "d"))]
           VNone w); reflexivity.
Defined.

(** X7: an owner that tests true and has no ['id'] to give stops both
    converters before anything is posted, also when the record has no
    name: with [TypeError] when the owner is no mapping (a string, a
    number, a list), with [KeyError('id')] when it is a mapping without
    that key. *)
Theorem malformed_owner_raises :
  forall d owner w,
    dict_get d (u "owner") = Some owner ->
    truthy owner = true ->
    lookup_path owner [u "id"] = None ->
    let e := if is_dict owner then KeyError (u "id") else TypeError in
    create_service (VDict d) w = (Raise e, w)
    /\ convert_domain_to_system (VDict d) w = (Raise e, w).
Proof.
  intros d owner w Ho Ht Hid. cbn zeta.
  rewrite create_service_factors, convert_domain_to_system_factors.
  unfold service_variables, system_variables, and_then.
  cbn [get subscript]. rewrite Ho, Ht.
  destruct owner as [| | | | |od]; cbn [subscript is_dict];
    try (split; reflexivity).
  cbn [lookup_path] in Hid.
  destruct (dict_get od (u "id")); [discriminate Hid|].
  split; reflexivity.
Qed.

Lemma malformed_owner_raises_witness :
  let w := example_world [Response 200 system_created_body] [] in
  create_service flat_owner_record w = (Raise TypeError, w)
  /\ convert_domain_to_system flat_owner_record w = (Raise TypeError, w).
Proof.
  intros w.
  apply (@malformed_owner_raises
           [(u "name", VStr (u "Checkout")); (u "owner", VStr (u "team-a"))]
           (VStr (u "team-a")) w); reflexivity.
Defined.

(** X8: a name that is no string (say [None]) is treated differently by
    the two converters: [create_service] concatenates it to ["SEARCH-"]
    and raises [TypeError] with nothing posted, while
    [convert_domain_to_system] posts it as the alias unchanged. *)
Theorem name_not_text_diverges :
  forall d owner name w,
    owner_variable d = Some owner ->
    dict_get d (u "name") = Some name ->
    is_text name = false ->
    create_service (VDict d) w = (Raise TypeError, w)
    /\ sent (snd (convert_domain_to_system (VDict d) w))
       = sent w ++ [graphql_request (api_token w) OL_SYSTEM_MUTATION
                      (VDict [(u "alias", name);
                              (u "description", carried d (u "description"));
                              (u "ownerId", owner);
                              (u "note", carried d (u "note"))])].
Proof.
  intros d owner name w Ho Hn Ht. unfold owner_variable in Ho.
  rewrite create_service_factors, convert_domain_to_system_factors.
  assert (Hs : service_variables (VDict d) = Raise TypeError).
  { unfold service_variables, and_then. cbn [get subscript].
    destruct (dict_get d (u "owner")) as [o|]; cbn [truthy].
    - destruct (truthy o).
      + destruct o as [| | | | |od]; try discriminate Ho. cbn [subscript].
        rewrite Ho, Hn. destruct name; try reflexivity. discriminate Ht.
      + rewrite Hn. destruct name; try reflexivity. discriminate Ht.
    - rewrite Hn. destruct name; try reflexivity. discriminate Ht. }
  assert (Hd : system_variables (VDict d)
               = Ok (VDict [(u "alias", name);
                            (u "description", carried d (u "description"));
                            (u "ownerId", owner);
                            (u "note", carried d (u "note"))])).
  { unfold system_variables, and_then, carried. cbn [get subscript].
    destruct (dict_get d (u "owner")) as [o|]; cbn [truthy].
    - destruct (truthy o).
      + destruct o as [| | | | |od]; try discriminate Ho. cbn [subscript].
        rewrite Ho, Hn.
        destruct (dict_get d (u "description")), (dict_get d (u "note"));
          reflexivity.
      + rewrite Hn. injection Ho as <-.
        destruct (dict_get d (u "description")), (dict_get d (u "note"));
          reflexivity.
    - rewrite Hn. injection Ho as <-.
      destruct (dict_get d (u "description")), (dict_get d (u "note"));
        reflexivity. }
  rewrite Hs, Hd. split; [reflexivity|].
  apply query_then_sent. intros r. preserves_tac.
Qed.

Lemma name_not_text_diverges_witness :
  let w := example_world [] [] in
  create_service null_name_record w = (Raise TypeError, w)
  /\ sent (snd (convert_domain_to_system null_name_record w))
     = [graphql_request (u "secret") OL_SYSTEM_MUTATION
          (VDict [(u "alias", VNone); (u "description", VStr []);
                  (u "ownerId", VNone); (u "note", VStr (u "n"))])].
Proof.
  intros w.
  apply (@name_not_text_diverges
           [(u "name", VNone); (u "note", VStr (u "n"))] VNone VNone w);
    reflexivity.
Defined.

(** *** The conversion loops *)

Lemma after_requests_here w :
  after_requests w [] (net w) [] = w.
Proof.
  destruct w. unfold after_requests. cbn. rewrite !List.app_nil_r.
  reflexivity.
Qed.

Lemma after_requests_twice w r1 n1 p1 r2 n2 p2 :
  after_requests (after_requests w r1 n1 p1) r2 n2 p2
  = after_requests w (r1 ++ r2) n2 (p1 ++ p2).
Proof.
  unfold after_requests. cbn. rewrite <- !List.app_assoc. reflexivity.
Qed.

Lemma query_accepted query variables w text r rest :
  net w = Response 200 text :: rest ->
  Json.loads text = Some r ->
  opslevel_graphql_query query variables w
  = (Ok r, after_requests w [graphql_request (api_token w) query variables]
             rest []).
Proof.
  intros Hnet Hr. rewrite opslevel_graphql_query_run, Hnet. cbn.
  unfold response_json. rewrite Hr. f_equal.
  unfold after_requests, set_net, set_sent. cbn.
  rewrite List.app_nil_r. reflexivity.
Qed.

Lemma query_refused query variables w status_code text rest :
  net w = Response status_code text :: rest ->
  status_code <> 200%Z ->
  opslevel_graphql_query query variables w
  = (Raise (Exception (u "OpsLevel request failed: " ++ text)),
     after_requests w [graphql_request (api_token w) query variables]
       rest []).
Proof.
  intros Hnet Hst. rewrite opslevel_graphql_query_run, Hnet. cbn zeta.
  cbn beta iota. destruct (Z.eqb_spec status_code 200); [contradiction|].
  f_equal. unfold after_requests, set_net, set_sent. cbn.
  rewrite List.app_nil_r. reflexivity.
Qed.

Lemma for_each_converts convert mutation :
  forall cs w rest,
    Forall (converts convert mutation) cs ->
    net w = List.map conv_answer cs ++ rest ->
    for_each (List.map conv_source cs) convert w
    = (Ok tt,
       after_requests w
         (List.map (mutation_request (api_token w) mutation) cs) rest
         (flat_map conv_output cs)).
Proof.
  induction cs as [|c cs IH]; intros w rest Hcs Hnet.
  - cbn in Hnet. subst rest. cbn. unfold ret.
    rewrite after_requests_here. reflexivity.
  - inversion Hcs as [|? ? Hc Hcs']; subst.
    cbn [List.map Datatypes.app] in Hnet.
    cbn [List.map for_each flat_map]. unfold bind.
    rewrite (Hc w _ Hnet).
    rewrite (IH _ rest Hcs') by reflexivity.
    rewrite after_requests_twice. reflexivity.
Qed.

(** The records up to one that stops the loop are converted, the ones
    after it are not looked at. *)
Lemma for_each_stops convert mutation record used requests printed e :
  stops convert record used requests printed e ->
  forall done later w rest,
    Forall (converts convert mutation) done ->
    net w = List.map conv_answer done ++ used ++ rest ->
    for_each (List.map conv_source done ++ record :: later) convert w
    = (Raise e,
       after_requests w
         (List.map (mutation_request (api_token w) mutation) done
          ++ requests (api_token w)) rest
         (flat_map conv_output done ++ printed)).
Proof.
  intros Hstop. induction done as [|c cs IH]; intros later w rest Hcs Hnet.
  - cbn [List.map Datatypes.app flat_map] in *.
    cbn [for_each]. unfold bind. rewrite (Hstop w rest Hnet). reflexivity.
  - inversion Hcs as [|? ? Hc Hcs']; subst.
    cbn [List.map Datatypes.app] in Hnet.
    cbn [List.map for_each flat_map Datatypes.app]. unfold bind.
    rewrite (Hc w _ Hnet).
    rewrite (IH later _ rest Hcs') by reflexivity.
    rewrite after_requests_twice, <- List.app_assoc. reflexivity.
Qed.

Lemma page_subscripts kind r entities cur more :
  lookup_path r [u "data"; u "account"; kind; u "nodes"] = Some entities ->
  lookup_path r [u "data"; u "account"; kind; u "pageInfo"; u "endCursor"]
  = Some cur ->
  lookup_path r [u "data"; u "account"; kind; u "pageInfo"; u "hasNextPage"]
  = Some more ->
  exists d a c page_info,
    subscript r (u "data") = Ok d
    /\ subscript d (u "account") = Ok a
    /\ subscript a kind = Ok c
    /\ subscript c (u "nodes") = Ok entities
    /\ subscript c (u "pageInfo") = Ok page_info
    /\ subscript page_info (u "endCursor") = Ok cur
    /\ subscript page_info (u "hasNextPage") = Ok more.
Proof.
  intros Hn Hc Hm. cbn [lookup_path] in Hn, Hc, Hm.
  destruct r as [| | | | |dr]; try discriminate Hn. cbn [subscript].
  destruct (dict_get dr (u "data")) as [r1|]; [|discriminate Hn].
  destruct r1 as [| | | | |d1]; try discriminate Hn.
  destruct (dict_get d1 (u "account")) as [r2|] eqn:E2; [|discriminate Hn].
  destruct r2 as [| | | | |d2]; try discriminate Hn.
  destruct (dict_get d2 kind) as [r3|] eqn:E3; [|discriminate Hn].
  destruct r3 as [| | | | |d3]; try discriminate Hn.
  destruct (dict_get d3 (u "nodes")) as [r5|] eqn:E5; [|discriminate Hn].
  injection Hn as ->.
  destruct (dict_get d3 (u "pageInfo")) as [r4|] eqn:E4; [|discriminate Hc].
  destruct r4 as [| | | | |d4]; try discriminate Hc.
  destruct (dict_get d4 (u "endCursor")) as [r6|] eqn:E6; [|discriminate Hc].
  injection Hc as ->.
  destruct (dict_get d4 (u "hasNextPage")) as [r7|] eqn:E7;
    [|discriminate Hm].
  injection Hm as ->.
  exists (VDict d1), (VDict d2), (VDict d3), (VDict d4).
  cbn [subscript]. rewrite E2, E3, E5, E4, E6, E7. repeat split.
Qed.

Section Conversion_loop.

Variables query kind mutation : str.
Variable convert : value -> M value.

(** A round of the loop on a page whose records all convert. *)
Lemma convert_page_round r st w rest :
  serves kind (page_answer r) (round_page r) ->
  Forall (converts convert mutation) (conversions r) ->
  net w = round_script r ++ rest ->
  convert_page query kind convert st w
  = (Ok {| data_acc := []; end_cursor := next_cursor r;
           has_next_page := VBool (more_pages r) |},
     after_requests w
       (page_request (api_token w) query (end_cursor st)
        :: List.map (mutation_request (api_token w) mutation) (conversions r))
       rest (flat_map conv_output (conversions r))).
Proof.
  intros (text & v & Ho & Hv & Hn & Hc & Hm) Hcs Hnet.
  unfold round_script in Hnet. rewrite Ho in Hnet.
  cbn [Datatypes.app] in Hnet.
  destruct (page_subscripts _ _ Hn Hc Hm)
    as (d & a & c & page_info & Hd & Ha & Hk & Hnodes & Hpi & Hcur & Hmore).
  unfold convert_page. cbn zeta. unfold bind at 1.
  rewrite (query_accepted _ _ _ Hnet Hv).
  unfold bind, lift. rewrite Hd, Ha, Hk, Hnodes.
  cbn [round_page nodes iterate].
  rewrite (@for_each_converts convert mutation (conversions r) _ rest Hcs)
    by reflexivity.
  rewrite Hpi, Hcur, Hmore. unfold ret.
  rewrite after_requests_twice. reflexivity.
Qed.

(** A round of the loop on a page with a record that stops it. *)
Lemma convert_page_stops o done record later cur more st w rest
      used requests printed e :
  serves kind o {| nodes := List.map conv_source done ++ record :: later;
                   endCursor := cur; hasNextPage := more |} ->
  Forall (converts convert mutation) done ->
  stops convert record used requests printed e ->
  net w = o :: List.map conv_answer done ++ used ++ rest ->
  convert_page query kind convert st w
  = (Raise e,
     after_requests w
       (page_request (api_token w) query (end_cursor st)
        :: List.map (mutation_request (api_token w) mutation) done
        ++ requests (api_token w))
       rest (flat_map conv_output done ++ printed)).
Proof.
  intros (text & v & Ho & Hv & Hn & Hc & Hm) Hcs Hstop Hnet.
  rewrite Ho in Hnet.
  destruct (page_subscripts _ _ Hn Hc Hm)
    as (d & a & c & page_info & Hd & Ha & Hk & Hnodes & Hpi & Hcur & Hmore).
  unfold convert_page. cbn zeta. unfold bind at 1.
  rewrite (query_accepted _ _ _ Hnet Hv).
  unfold bind, lift. rewrite Hd, Ha, Hk, Hnodes.
  cbn [nodes iterate].
  rewrite (@for_each_stops convert mutation record used requests printed e
             Hstop done later _ rest Hcs) by reflexivity.
  rewrite after_requests_twice. reflexivity.
Qed.

Lemma length_round_scripts rounds :
  (List.length rounds <= List.length (flat_map round_script rounds))%nat.
Proof.
  induction rounds as [|r rounds IH]; [apply le_n|].
  cbn [flat_map round_script Datatypes.app List.length].
  rewrite length_app. lia.
Qed.

(** The rounds before the last one. *)
Lemma while_rounds :
  forall init st w rest fuel,
    Forall (fun r => serves kind (page_answer r) (round_page r)
                     /\ Forall (converts convert mutation) (conversions r))
           init ->
    Forall (fun r => more_pages r = true) init ->
    truthy (has_next_page st) = true ->
    net w = flat_map round_script init ++ rest ->
    exists st',
      truthy (has_next_page st') = true
      /\ end_cursor st' = cursor_after (end_cursor st) init
      /\ while_fuel (List.length init + fuel)
           (fun st => truthy (has_next_page st))
           (convert_page query kind convert) st w
         = while_fuel fuel (fun st => truthy (has_next_page st))
             (convert_page query kind convert) st'
             (after_requests w
                (round_requests (api_token w) query mutation
                   (end_cursor st) init)
                rest (round_output init)).
Proof.
  induction init as [|r init IH]; intros st w rest fuel Hok Hmore Hst Hnet.
  - exists st. cbn in Hnet. subst rest. cbn.
    rewrite after_requests_here. repeat split. exact Hst.
  - inversion Hok as [|? ? [Hpage Hcs] Hok']; subst.
    inversion Hmore as [|? ? Hm Hmore']; subst.
    cbn [flat_map] in Hnet. rewrite <- List.app_assoc in Hnet.
    cbn [List.length Nat.add while_fuel]. cbn beta. rewrite Hst.
    unfold bind.
    rewrite (@convert_page_round r st w _ Hpage Hcs Hnet).
    destruct (IH {| data_acc := []; end_cursor := next_cursor r;
                    has_next_page := VBool (more_pages r) |}
                 (after_requests w
                    (page_request (api_token w) query (end_cursor st)
                     :: List.map (mutation_request (api_token w) mutation)
                          (conversions r))
                    (flat_map round_script init ++ rest)
                    (flat_map conv_output (conversions r)))
                 rest fuel Hok' Hmore')
      as (st' & Hst' & Hcur' & Hrun).
    + cbn [has_next_page truthy]. exact Hm.
    + reflexivity.
    + exists st'. split; [exact Hst'|]. split; [exact Hcur'|].
      rewrite Hrun, after_requests_twice. reflexivity.
Qed.

(** All the rounds of a run that ends. *)
Lemma while_rounds_end init last w rest :
  Forall (fun r => serves kind (page_answer r) (round_page r)
                   /\ Forall (converts convert mutation) (conversions r))
         (init ++ [last]) ->
  Forall (fun r => more_pages r = true) init ->
  more_pages last = false ->
  net w = flat_map round_script (init ++ [last]) ++ rest ->
  (while_ (fun st => truthy (has_next_page st))
     (convert_page query kind convert) loop_init ;;
   ret VNone) w
  = (Ok VNone,
     after_requests w
       (round_requests (api_token w) query mutation VNone (init ++ [last]))
       rest (round_output (init ++ [last]))).
Proof.
  intros Hok Hmore Hlast Hnet.
  apply Forall_app in Hok. destruct Hok as [Hinit Hl].
  inversion Hl as [|? ? [Hpage Hcs] _]; subst.
  pose proof (length_round_scripts (init ++ [last])) as Hlen.
  rewrite length_app in Hlen. cbn [List.length] in Hlen.
  assert (Hfuel : exists fuel,
             S (List.length (net w)) = (List.length init + S (S fuel))%nat).
  { exists (List.length (net w) - List.length init - 1)%nat.
    rewrite Hnet, length_app. lia. }
  destruct Hfuel as [fuel Hfuel].
  unfold bind at 1. unfold while_. rewrite Hfuel.
  rewrite flat_map_app, <- List.app_assoc in Hnet.
  destruct (@while_rounds init loop_init w
              (flat_map round_script [last] ++ rest) (S (S fuel))
              Hinit Hmore eq_refl Hnet) as (st' & Hst' & Hcur' & Hrun).
  rewrite Hrun. cbn [while_fuel]. cbn beta. rewrite Hst'.
  unfold bind.
  cbn [flat_map] in *. rewrite List.app_nil_r.
  rewrite (@convert_page_round last st' (after_requests w _ _ _) rest
             Hpage Hcs) by reflexivity.
  cbn [while_fuel has_next_page truthy]. rewrite Hlast.
  unfold ret. f_equal. rewrite after_requests_twice.
  cbn [api_token after_requests]. rewrite Hcur'.
  cbn [end_cursor loop_init].
  f_equal.
  - clear. generalize (api_token w), VNone.
    induction init as [|r init IH]; intros token cursor.
    + cbn. rewrite List.app_nil_r. reflexivity.
    + cbn [round_requests Datatypes.app cursor_after fold_left].
      rewrite <- List.app_assoc, <- IH. reflexivity.
  - unfold round_output. rewrite flat_map_app. cbn [flat_map].
    rewrite List.app_nil_r. reflexivity.
Qed.

(** A run that a record stops, some rounds in. *)
Lemma while_rounds_stop init o done record later cur more w rest
      used requests printed e :
  Forall (fun r => serves kind (page_answer r) (round_page r)
                   /\ Forall (converts convert mutation) (conversions r))
         init ->
  Forall (fun r => more_pages r = true) init ->
  serves kind o {| nodes := List.map conv_source done ++ record :: later;
                   endCursor := cur; hasNextPage := more |} ->
  Forall (converts convert mutation) done ->
  stops convert record used requests printed e ->
  net w = flat_map round_script init
          ++ o :: List.map conv_answer done ++ used ++ rest ->
  (while_ (fun st => truthy (has_next_page st))
     (convert_page query kind convert) loop_init ;;
   ret VNone) w
  = (Raise e,
     after_requests w
       (round_requests (api_token w) query mutation VNone init
        ++ page_request (api_token w) query (cursor_after VNone init)
        :: List.map (mutation_request (api_token w) mutation) done
        ++ requests (api_token w))
       rest (round_output init ++ flat_map conv_output done ++ printed)).
Proof.
  intros Hinit Hmore Hpage Hcs Hstop Hnet.
  pose proof (length_round_scripts init) as Hlen.
  assert (Hfuel : exists fuel,
             S (List.length (net w)) = (List.length init + S fuel)%nat).
  { exists (List.length (net w) - List.length init)%nat.
    rewrite Hnet, length_app. cbn [List.length]. lia. }
  destruct Hfuel as [fuel Hfuel].
  unfold bind at 1. unfold while_. rewrite Hfuel.
  destruct (@while_rounds init loop_init w _ (S fuel)
              Hinit Hmore eq_refl Hnet) as (st' & Hst' & Hcur' & Hrun).
  rewrite Hrun. cbn [while_fuel]. cbn beta. rewrite Hst'.
  unfold bind.
  rewrite (@convert_page_stops o done record later cur more st'
             (after_requests w _ _ _) rest used requests printed e
             Hpage Hcs Hstop) by reflexivity.
  f_equal. rewrite after_requests_twice.
  cbn [api_token after_requests]. rewrite Hcur'.
  cbn [end_cursor loop_init]. reflexivity.
Qed.

End Conversion_loop.

Lemma convert_systems_to_services_rounds :
  convert_systems_to_services
  = (while_ (fun st => truthy (has_next_page st))
       (convert_page OL_SYSTEMS_QUERY (u "systems") create_service)
       loop_init ;;
     ret VNone).
Proof. reflexivity. Qed.

Lemma convert_domains_to_systems_rounds :
  convert_domains_to_systems
  = (while_ (fun st => truthy (has_next_page st))
       (convert_page OL_DOMAINS_QUERY (u "domains") convert_domain_to_system)
       loop_init ;;
     ret VNone).
Proof. reflexivity. Qed.

Lemma create_service_converts c :
  service_conversion c -> converts create_service OL_SERVICE_MUTATION c.
Proof.
  intros (Hv & (text & r & Ha & Hr) & Hout) w rest Hnet.
  rewrite create_service_factors, Hv. unfold bind.
  rewrite Ha in Hnet. rewrite (query_accepted _ _ _ Hnet Hr).
  unfold ret, mutation_request. rewrite Hout. reflexivity.
Qed.

Lemma convert_domain_to_system_converts c :
  system_conversion c ->
  converts convert_domain_to_system OL_SYSTEM_MUTATION c.
Proof.
  intros (Hv & text & r & name & system_id & Ha & Hr & Hid & Hname & Hout)
         w rest Hnet.
  rewrite convert_domain_to_system_factors, Hv. unfold bind at 1.
  rewrite Ha in Hnet. rewrite (query_accepted _ _ _ Hnet Hr).
  unfold bind at 1. rewrite print_run.
  assert (Hsub : forall w1 (k : value -> M value),
             (d <- lift (subscript r (u "data")) ;;
              c <- lift (subscript d (u "systemCreate")) ;;
              s <- lift (subscript c (u "system")) ;;
              i <- lift (subscript s (u "id")) ;; k i) w1 = k system_id w1).
  { intros w1 k. unfold system_id_path in Hid. cbn [lookup_path] in Hid.
    unfold bind, lift.
    destruct r as [| | | | |dr]; try discriminate Hid. cbn [subscript].
    destruct (dict_get dr (u "data")) as [r1|]; [|discriminate Hid].
    destruct r1 as [| | | | |d1]; try discriminate Hid. cbn [subscript].
    destruct (dict_get d1 (u "systemCreate")) as [r2|]; [|discriminate Hid].
    destruct r2 as [| | | | |d2]; try discriminate Hid. cbn [subscript].
    destruct (dict_get d2 (u "system")) as [r3|]; [|discriminate Hid].
    destruct r3 as [| | | | |d3]; try discriminate Hid. cbn [subscript].
    destruct (dict_get d3 (u "id")) as [r4|]; [|discriminate Hid].
    injection Hid as ->. reflexivity. }
  rewrite Hsub. unfold bind at 1, lift at 1.
  assert (Hn : subscript (conv_source c) (u "name") = Ok name).
  { cbn [lookup_path] in Hname.
    destruct (conv_source c) as [| | | | |d]; try discriminate Hname.
    cbn [subscript]. destruct (dict_get d (u "name")); [|discriminate Hname].
    injection Hname as ->. reflexivity. }
  rewrite Hn. unfold bind. rewrite print_run. unfold ret. f_equal.
  rewrite Hout. unfold after_requests, set_stdout, mutation_request. cbn.
  rewrite List.app_nil_r, <- List.app_assoc. reflexivity.
Qed.

Lemma round_served_converts kind conversion_ok convert mutation rounds :
  (forall c, conversion_ok c -> converts convert mutation c) ->
  Forall (round_served kind conversion_ok) rounds ->
  Forall (fun r => serves kind (page_answer r) (round_page r)
                   /\ Forall (converts convert mutation) (conversions r))
         rounds.
Proof.
  intros Hc. apply Forall_impl. intros r [Hpage Hcs].
  split; [exact Hpage|]. revert Hcs. apply Forall_impl. exact Hc.
Qed.

Lemma service_round_output rounds :
  Forall (round_served (u "systems") service_conversion) rounds ->
  round_output rounds = [].
Proof.
  unfold round_output.
  induction 1 as [|r rounds [_ Hcs] _ IH]; [reflexivity|].
  cbn [flat_map]. rewrite IH, List.app_nil_r.
  induction Hcs as [|c cs (_ & _ & Hout) _ IHc]; [reflexivity|].
  cbn [flat_map]. rewrite Hout, IHc. reflexivity.
Qed.

(** X9: when the endpoint serves well-formed pages of systems, all but
    the last with [hasNextPage] true, and accepts every mutation,
    [convert_systems_to_services] returns after it has posted, page by
    page, the page request (the first with an absent cursor, each next
    one with the cursor of the page before) followed by one service
    mutation per system in the order served; it prints nothing and
    writes no file. *)
Theorem convert_systems_to_services_run :
  forall w init last rest,
    Forall (round_served (u "systems") service_conversion) (init ++ [last]) ->
    Forall (fun r => more_pages r = true) init ->
    more_pages last = false ->
    net w = flat_map round_script (init ++ [last]) ++ rest ->
    convert_systems_to_services w
    = (Ok VNone,
       after_requests w
         (round_requests (api_token w) OL_SYSTEMS_QUERY OL_SERVICE_MUTATION
            VNone (init ++ [last]))
         rest []).
Proof.
  intros w init last rest Hok Hmore Hlast Hnet.
  rewrite convert_systems_to_services_rounds.
  rewrite (@while_rounds_end OL_SYSTEMS_QUERY (u "systems")
             OL_SERVICE_MUTATION create_service init last w rest
             (round_served_converts create_service_converts Hok)
             Hmore Hlast Hnet).
  rewrite (service_round_output Hok). reflexivity.
Qed.

Lemma convert_systems_to_services_run_witness :
  let rounds := [first_round "systems" service_of;
                 last_round "systems" service_of] in
  let w := example_world (flat_map round_script rounds) [] in
  convert_systems_to_services w
  = (Ok VNone,
     after_requests w
       (round_requests (u "secret") OL_SYSTEMS_QUERY OL_SERVICE_MUTATION
          VNone rounds)
       [] []).
Proof.
  intros rounds w.
  assert (Hok : Forall (round_served (u "systems") service_conversion)
                  ([first_round "systems" service_of]
                   ++ [last_round "systems" service_of])).
  { repeat (apply Forall_cons || apply Forall_nil);
      (split;
       [ eexists; eexists; split; [reflexivity|];
         split; [vm_compute; reflexivity | repeat split]
       | repeat (apply Forall_cons || apply Forall_nil);
         (split; [reflexivity|]; split; [|reflexivity];
          eexists; eexists; split; [reflexivity | vm_compute; reflexivity])
       ]). }
  assert (Hmore : Forall (fun r => more_pages r = true)
                    [first_round "systems" service_of]).
  { repeat constructor. }
  exact (@convert_systems_to_services_run w
           [first_round "systems" service_of]
           (last_round "systems" service_of) []
           Hok Hmore eq_refl (eq_sym (List.app_nil_r _))).
Defined.

(** X10: under the same conditions on pages of domains, with every
    creation answered by a response that names the new system,
    [convert_domains_to_systems] returns after the same sequence of
    requests (page request, then one creation mutation per domain, page
    by page) and has printed, per domain and in that order, the result
    line and the confirmation line. *)
Theorem convert_domains_to_systems_run :
  forall w init last rest,
    Forall (round_served (u "domains") system_conversion) (init ++ [last]) ->
    Forall (fun r => more_pages r = true) init ->
    more_pages last = false ->
    net w = flat_map round_script (init ++ [last]) ++ rest ->
    convert_domains_to_systems w
    = (Ok VNone,
       after_requests w
         (round_requests (api_token w) OL_DOMAINS_QUERY OL_SYSTEM_MUTATION
            VNone (init ++ [last]))
         rest (round_output (init ++ [last]))).
Proof.
  intros w init last rest Hok Hmore Hlast Hnet.
  rewrite convert_domains_to_systems_rounds.
  exact (@while_rounds_end OL_DOMAINS_QUERY (u "domains")
           OL_SYSTEM_MUTATION convert_domain_to_system init last w rest
           (round_served_converts convert_domain_to_system_converts Hok)
           Hmore Hlast Hnet).
Qed.

Lemma convert_domains_to_systems_run_witness :
  let rounds := [first_round "domains" system_of;
                 last_round "domains" system_of] in
  let w := example_world (flat_map round_script rounds) [] in
  convert_domains_to_systems w
  = (Ok VNone,
     after_requests w
       (round_requests (u "secret") OL_DOMAINS_QUERY OL_SYSTEM_MUTATION
          VNone rounds)
       [] (round_output rounds)).
Proof.
  intros rounds w.
  assert (Hok : Forall (round_served (u "domains") system_conversion)
                  ([first_round "domains" system_of]
                   ++ [last_round "domains" system_of])).
  { repeat (apply Forall_cons || apply Forall_nil);
      (split;
       [ eexists; eexists; split; [reflexivity|];
         split; [vm_compute; reflexivity | repeat split]
       | repeat (apply Forall_cons || apply Forall_nil);
         (split; [reflexivity|];
          exists system_created_body, system_created_response;
          eexists; eexists;
          repeat (split; [vm_compute; reflexivity|]);
          vm_compute; reflexivity)
       ]). }
  assert (Hmore : Forall (fun r => more_pages r = true)
                    [first_round "domains" system_of]).
  { repeat constructor. }
  exact (@convert_domains_to_systems_run w
           [first_round "domains" system_of]
           (last_round "domains" system_of) []
           Hok Hmore eq_refl (eq_sym (List.app_nil_r _))).
Defined.

Lemma refused_mutation_stops record variables status_code text :
  service_variables record = Ok variables ->
  status_code <> 200%Z ->
  stops create_service record [Response status_code text]
    (fun token => [graphql_request token OL_SERVICE_MUTATION variables]) []
    (Exception (u "OpsLevel request failed: " ++ text)).
Proof.
  intros Hv Hst w rest Hnet. cbn [Datatypes.app] in Hnet.
  rewrite create_service_factors, Hv. unfold bind.
  rewrite (query_refused _ _ _ Hnet Hst). reflexivity.
Qed.

Lemma bad_record_stops record e :
  system_variables record = Raise e ->
  stops convert_domain_to_system record [] (fun _ => []) [] e.
Proof.
  intros Hv w rest Hnet. cbn [Datatypes.app] in Hnet. subst rest.
  rewrite convert_domain_to_system_factors, Hv, after_requests_here.
  reflexivity.
Qed.

(** X11: [convert_systems_to_services] does not isolate a failing record.
    When the endpoint refuses the mutation of one system (a status other
    than 200), the exception with the response body leaves the function;
    the systems served before it, on this page and the pages before,
    have had their mutations posted, the refused mutation is the last
    request, and the systems after it on the page get no request: the
    answers past the refusal stay unused. *)
Theorem refused_mutation_aborts_batch :
  forall w init o done record later cur more variables status_code text rest,
    Forall (round_served (u "systems") service_conversion) init ->
    Forall (fun r => more_pages r = true) init ->
    serves (u "systems") o
      {| nodes := List.map conv_source done ++ record :: later;
         endCursor := cur; hasNextPage := more |} ->
    Forall service_conversion done ->
    service_variables record = Ok variables ->
    status_code <> 200%Z ->
    net w = flat_map round_script init
            ++ o :: List.map conv_answer done
            ++ Response status_code text :: rest ->
    convert_systems_to_services w
    = (Raise (Exception (u "OpsLevel request failed: " ++ text)),
       after_requests w
         (round_requests (api_token w) OL_SYSTEMS_QUERY OL_SERVICE_MUTATION
            VNone init
          ++ page_request (api_token w) OL_SYSTEMS_QUERY
               (cursor_after VNone init)
          :: List.map (mutation_request (api_token w) OL_SERVICE_MUTATION)
               done
          ++ [graphql_request (api_token w) OL_SERVICE_MUTATION variables])
         rest []).
Proof.
  intros w init o done record later cur more variables status_code text rest
         Hinit Hmore Hpage Hdone Hv Hst Hnet.
  rewrite convert_systems_to_services_rounds.
  rewrite (@while_rounds_stop OL_SYSTEMS_QUERY (u "systems")
             OL_SERVICE_MUTATION create_service init o done record later
             cur more w rest _ _ _ _
             (round_served_converts create_service_converts Hinit) Hmore
             Hpage (Forall_impl _ create_service_converts Hdone)
             (@refused_mutation_stops record variables status_code text Hv Hst)
             Hnet).
  rewrite (service_round_output Hinit). f_equal. f_equal.
  cbn [Datatypes.app]. rewrite List.app_nil_r.
  clear - Hdone.
  induction Hdone as [|c cs (_ & _ & Hout) _ IH]; [reflexivity|].
  cbn [flat_map]. rewrite Hout, IH. reflexivity.
Qed.

Lemma refused_mutation_aborts_batch_witness :
  let pending := [Response 200 service_created_body] in
  let w := example_world
             (three_record_page "systems" "{'name': 'B'}"
              :: Response 200 service_created_body
              :: Response 422 (u "Name taken") :: pending) [] in
  convert_systems_to_services w
  = (Raise (Exception (u "OpsLevel request failed: Name taken")),
     after_requests w
       [page_request (u "secret") OL_SYSTEMS_QUERY VNone;
        mutation_request (u "secret") OL_SERVICE_MUTATION (service_of "A");
        mutation_request (u "secret") OL_SERVICE_MUTATION (service_of "B")]
       pending []).
Proof.
  intros pending w.
  assert (Hpage : serves (u "systems")
                    (three_record_page "systems" "{'name': 'B'}")
                    {| nodes := List.map conv_source [service_of "A"]
                                ++ conv_source (service_of "B")
                                   :: [conv_source (service_of "E")];
                       endCursor := VNone; hasNextPage := false |}).
  { eexists; eexists; split; [reflexivity|];
      split; [vm_compute; reflexivity | repeat split]. }
  assert (Hdone : Forall service_conversion [service_of "A"]).
  { repeat (apply Forall_cons || apply Forall_nil).
    split; [reflexivity|]. split; [|reflexivity].
    eexists; eexists; split; [reflexivity | vm_compute; reflexivity]. }
  assert (Hst : 422%Z <> 200%Z) by discriminate.
  exact (@refused_mutation_aborts_batch w [] _ [service_of "A"]
           (conv_source (service_of "B")) [conv_source (service_of "E")]
           VNone false (conv_variables (service_of "B")) 422
           (u "Name taken") pending
           (Forall_nil _) (Forall_nil _) Hpage Hdone eq_refl Hst eq_refl).
Defined.

(** X12: nor does [convert_domains_to_systems].  When a domain on a page
    makes building the variables fail (say it has no name), the
    exception leaves the function; the domains before it have been
    created and confirmed, and neither the bad record nor any domain
    after it gets a request. *)
Theorem bad_record_aborts_batch :
  forall w init o done record later cur more e rest,
    Forall (round_served (u "domains") system_conversion) init ->
    Forall (fun r => more_pages r = true) init ->
    serves (u "domains") o
      {| nodes := List.map conv_source done ++ record :: later;
         endCursor := cur; hasNextPage := more |} ->
    Forall system_conversion done ->
    system_variables record = Raise e ->
    net w = flat_map round_script init
            ++ o :: List.map conv_answer done ++ rest ->
    convert_domains_to_systems w
    = (Raise e,
       after_requests w
         (round_requests (api_token w) OL_DOMAINS_QUERY OL_SYSTEM_MUTATION
            VNone init
          ++ page_request (api_token w) OL_DOMAINS_QUERY
               (cursor_after VNone init)
          :: List.map (mutation_request (api_token w) OL_SYSTEM_MUTATION)
               done)
         rest (round_output init ++ flat_map conv_output done)).
Proof.
  intros w init o done record later cur more e rest
         Hinit Hmore Hpage Hdone Hv Hnet.
  rewrite convert_domains_to_systems_rounds.
  rewrite (@while_rounds_stop OL_DOMAINS_QUERY (u "domains")
             OL_SYSTEM_MUTATION convert_domain_to_system init o done record
             later cur more w rest _ _ _ _
             (round_served_converts convert_domain_to_system_converts Hinit)
             Hmore Hpage
             (Forall_impl _ convert_domain_to_system_converts Hdone)
             (@bad_record_stops record e Hv) Hnet).
  rewrite !List.app_nil_r. reflexivity.
Qed.

Lemma bad_record_aborts_batch_witness :
  let pending := [Response 200 system_created_body] in
  let w := example_world
             (three_record_page "domains" "{'description': 'd'}"
              :: Response 200 system_created_body :: pending) [] in
  convert_domains_to_systems w
  = (Raise (KeyError (u "name")),
     after_requests w
       [page_request (u "secret") OL_DOMAINS_QUERY VNone;
        mutation_request (u "secret") OL_SYSTEM_MUTATION (system_of "A")]
       pending (conv_output (system_of "A"))).
Proof.
  intros pending w.
  assert (Hpage : serves (u "domains")
                    (three_record_page "domains" "{'description': 'd'}")
                    {| nodes := List.map conv_source [system_of "A"]
                                ++ VDict [(u "description", VStr (u "d"))]
                                   :: [conv_source (system_of "E")];
                       endCursor := VNone; hasNextPage := false |}).
  { eexists; eexists; split; [reflexivity|];
      split; [vm_compute; reflexivity | repeat split]. }
  assert (Hdone : Forall system_conversion [system_of "A"]).
  { repeat (apply Forall_cons || apply Forall_nil).
    split; [reflexivity|].
    exists system_created_body, system_created_response.
    eexists; eexists.
    repeat (split; [vm_compute; reflexivity|]). vm_compute; reflexivity. }
  exact (@bad_record_aborts_batch w [] _ [system_of "A"]
           (VDict [(u "description", VStr (u "d"))])
           [conv_source (system_of "E")]
           VNone false (KeyError (u "name")) pending
           (Forall_nil _) (Forall_nil _) Hpage Hdone eq_refl eq_refl).
Defined.

(** *** What the operations leave alone *)

Lemma print_preserves_stdin line : preserves stdin (print line).
Proof. intros w. reflexivity. Qed.

Lemma opslevel_graphql_query_preserves_stdin query variables :
  preserves stdin (opslevel_graphql_query query variables).
Proof.
  intros w. rewrite opslevel_graphql_query_run. cbn zeta.
  destruct (net w) as [|[|st text|st text] rest]; try reflexivity;
    destruct (Z.eqb st 200); reflexivity.
Qed.

Lemma opslevel_graphql_query_preserves_stdout query variables :
  preserves stdout (opslevel_graphql_query query variables).
Proof.
  intros w. rewrite opslevel_graphql_query_run. cbn zeta.
  destruct (net w) as [|[|st text|st text] rest]; try reflexivity;
    destruct (Z.eqb st 200); reflexivity.
Qed.

Ltac untouched_tac :=
  repeat first
    [ apply preserves_ret | apply preserves_raise | apply preserves_lift
    | apply print_preserves_files | apply print_preserves_stdin
    | apply opslevel_graphql_query_preserves_files
    | apply opslevel_graphql_query_preserves_stdin
    | apply opslevel_graphql_query_preserves_stdout
    | apply preserves_bind; [|intros ?]
    | apply preserves_if
    | apply preserves_while; intros ?
    | apply preserves_for_each; intros ? ].

(** X13: the two conversion operations work on the network alone.
    However the endpoint behaves and whether they return or raise,
    [convert_systems_to_services] leaves the files, the input and the
    console as they were, and [convert_domains_to_systems] leaves the
    files and the input as they were. *)
Theorem conversions_touch_no_file :
  forall w,
    (files (snd (convert_systems_to_services w)) = files w
     /\ stdin (snd (convert_systems_to_services w)) = stdin w
     /\ stdout (snd (convert_systems_to_services w)) = stdout w)
    /\ (files (snd (convert_domains_to_systems w)) = files w
        /\ stdin (snd (convert_domains_to_systems w)) = stdin w).
Proof.
  intros w. repeat split.
  - revert w. change (preserves files convert_systems_to_services).
    unfold convert_systems_to_services, create_service. untouched_tac.
  - revert w. change (preserves stdin convert_systems_to_services).
    unfold convert_systems_to_services, create_service. untouched_tac.
  - revert w. change (preserves stdout convert_systems_to_services).
    unfold convert_systems_to_services, create_service. untouched_tac.
  - revert w. change (preserves files convert_domains_to_systems).
    unfold convert_domains_to_systems, convert_domain_to_system.
    untouched_tac.
  - revert w. change (preserves stdin convert_domains_to_systems).
    unfold convert_domains_to_systems, convert_domain_to_system.
    untouched_tac.
Qed.

Lemma update_systems_with_services_run w :
  update_systems_with_services w
  = match stdin w with
    | [] =>
        (Raise EOFError,
         set_stdout w
           (stdout w ++
            [Prompt
               (u "Please enter the path to the domains_data.json file: ")]))
    | path :: rest =>
        (Raise (NameError (u "load_domains_from_file")),
         set_stdin
           (set_stdout w
              (stdout w ++
               [Prompt
                  (u "Please enter the path to the domains_data.json file: ")]))
           rest)
    end.
Proof.
  unfold update_systems_with_services, update_systems_with_services_in.
  unfold bind, input. destruct (stdin w) as [|path rest]; [reflexivity|].
  unfold try_, call_global.
  rewrite (proj2 load_domains_from_file_unbound). reflexivity.
Qed.

(** X14: [update_systems_with_services] never gets past its second
    statement, in any world.  It prompts for the path; at the end of the
    input the prompt raises [EOFError], and otherwise the call of the
    unbound name [load_domains_from_file] raises [NameError], whatever
    was typed and whether or not the named file exists.  Nothing is
    posted, no answer is used, no file is read or written, and no
    not-found message is printed. *)
Theorem reconciliation_never_starts :
  forall w,
    let run := update_systems_with_services w in
    ((fst run = Raise EOFError /\ stdin w = [] /\ stdin (snd run) = [])
     \/ (fst run = Raise (NameError (u "load_domains_from_file"))
         /\ exists path, stdin w = path :: stdin (snd run)))
    /\ sent (snd run) = sent w
    /\ net (snd run) = net w
    /\ files (snd run) = files w
    /\ stdout (snd run)
       = stdout w
         ++ [Prompt (u "Please enter the path to the domains_data.json file: ")].
Proof.
  intros w. cbn zeta. rewrite update_systems_with_services_run.
  destruct (stdin w) as [|path rest] eqn:E; cbn [fst snd].
  - split; [left; repeat split; exact E|]. repeat split.
  - split; [right; split; [reflexivity | exists path; reflexivity]|].
    repeat split.
Qed.

(** *** The dispatcher *)

Lemma main_after_menu w choice lines :
  stdin w = choice :: lines ->
  main w
  = (if str_eqb choice (u "1") then fetch_and_save_systems ;; ret VNone
     else if str_eqb choice (u "2")
          then convert_systems_to_services ;; ret VNone
     else if str_eqb choice (u "3") then fetch_and_save_domains ;; ret VNone
     else if str_eqb choice (u "4")
          then convert_domains_to_systems ;; ret VNone
     else if str_eqb choice (u "5")
          then update_systems_with_services ;; ret VNone
     else
       print [Text (u "Invalid choice. Please enter 1, 2, 3, 4, or 5.")] ;;
       ret VNone) (after_menu w lines).
Proof.
  intros Hin. unfold main.
  do 5 (unfold bind at 1; rewrite print_run; cbn beta iota;
        rewrite ?set_stdout_twice, ?stdout_set_stdout).
  unfold bind at 1. unfold input.
  rewrite stdin_set_stdout, Hin, stdout_set_stdout, set_stdout_twice.
  cbn beta iota.
  rewrite set_stdin_set_stdout.
  unfold after_menu, menu_output. rewrite <- !List.app_assoc. reflexivity.
Qed.

Lemma main_end_of_input w :
  stdin w = [] ->
  main w = (Raise EOFError, set_stdout w (stdout w ++ menu_output)).
Proof.
  intros Hin. unfold main.
  do 5 (unfold bind at 1; rewrite print_run; cbn beta iota;
        rewrite ?set_stdout_twice, ?stdout_set_stdout).
  unfold bind at 1. unfold input.
  rewrite stdin_set_stdout, Hin, stdout_set_stdout, set_stdout_twice.
  cbn beta iota.
  unfold menu_output. rewrite <- !List.app_assoc. reflexivity.
Qed.

(** X15: [main] goes to the network for the choices 1 to 4 only.  At the
    end of the input (where the prompt raises [EOFError] once the menu
    is printed), on the choice 5 and on any other line, the run posts no
    request, uses no answer and writes no file, whatever answers are
    pending and whatever files exist. *)
Theorem main_offline_unless_1_to_4 :
  forall w,
    (forall choice lines,
        stdin w = choice :: lines -> ~ In choice online_choices) ->
    sent (snd (main w)) = sent w
    /\ net (snd (main w)) = net w
    /\ files (snd (main w)) = files w
    /\ (stdin w = [] -> fst (main w) = Raise EOFError).
Proof.
  intros w Hoff.
  destruct (stdin w) as [|choice lines] eqn:Hin.
  - rewrite (main_end_of_input w Hin). repeat split.
  - specialize (Hoff choice lines eq_refl).
    unfold online_choices in Hoff. cbn [List.map In] in Hoff.
    rewrite (main_after_menu w Hin).
    rewrite !str_eqb_false by (intros ->; apply Hoff; auto 10).
    destruct (str_eqb choice (u "5")).
    + unfold bind.
      rewrite update_systems_with_services_run.
      unfold after_menu. rewrite stdin_set_stdout. cbn [stdin set_stdin].
      destruct lines; repeat split; discriminate.
    + repeat split. discriminate.
Qed.

Lemma main_offline_unless_1_to_4_witness :
  sent (snd (main reconciliation_world)) = []
  /\ net (snd (main reconciliation_world)) = three_answers "systems"
  /\ files (snd (main reconciliation_world))
     = [(u "domains_data_20240307.json", u "[]")].
Proof.
  assert (Hoff : forall choice lines,
             stdin reconciliation_world = choice :: lines ->
             ~ In choice online_choices).
  { intros choice lines H. injection H as <- _.
    vm_compute. intros [H1|[H1|[H1|[H1|[]]]]]; discriminate H1. }
  destruct (@main_offline_unless_1_to_4 reconciliation_world Hoff)
    as (Hs & Hn & Hf & _).
  repeat split; assumption.
Defined.

(** X16: the choices 1 and 3 of [main] take the run from the menu to the
    snapshot.  With the line [1] (or [3]) on the input and well-formed
    pages of systems (or domains) served, [main] prints the menu, reads
    that one line, posts one request per page, writes the concatenated
    records to the snapshot of the day, prints the saved-to line and
    returns. *)
Theorem main_fetches_and_saves :
  forall w lines answers rest init last,
    net w = answers ++ rest ->
    Forall (fun p => hasNextPage p = true) init ->
    hasNextPage last = false ->
    (stdin w = u "1" :: lines ->
     Forall2 (serves (u "systems")) answers (init ++ [last]) ->
     main w
     = (Ok VNone,
        after_snapshot (after_menu w lines) OL_SYSTEMS_QUERY
          (u "systems_data_") (u "Systems data saved to ") rest init last))
    /\ (stdin w = u "3" :: lines ->
        Forall2 (serves (u "domains")) answers (init ++ [last]) ->
        main w
        = (Ok VNone,
           after_snapshot (after_menu w lines) OL_DOMAINS_QUERY
             (u "domains_data_") (u "Domains data saved to ") rest init
             last)).
Proof.
  intros w lines answers rest init last Hnet Hmore Hlast.
  split; intros Hin Hserve; rewrite (main_after_menu w Hin).
  - rewrite str_eqb_refl. unfold bind at 1.
    rewrite fetch_and_save_systems_rounds.
    rewrite (@snapshot_run OL_SYSTEMS_QUERY (u "systems") (u "systems_data_")
               (u "Systems data saved to ") (after_menu w lines) answers
               rest init last Hnet Hserve Hmore Hlast).
    reflexivity.
  - rewrite !(@str_eqb_false (u "3"))
      by (intros H; vm_compute in H; discriminate H).
    rewrite str_eqb_refl. unfold bind at 1.
    rewrite fetch_and_save_domains_rounds.
    rewrite (@snapshot_run OL_DOMAINS_QUERY (u "domains") (u "domains_data_")
               (u "Domains data saved to ") (after_menu w lines) answers
               rest init last Hnet Hserve Hmore Hlast).
    reflexivity.
Qed.

Lemma main_fetches_and_saves_witness :
  let w := example_world (three_answers "domains") [u "3"] in
  main w
  = (Ok VNone,
     after_snapshot (after_menu w []) OL_DOMAINS_QUERY
       (u "domains_data_") (u "Domains data saved to ") [] first_two_pages
       third_page).
Proof.
  intros w.
  assert (Hmore : Forall (fun p => hasNextPage p = true) first_two_pages).
  { repeat constructor. }
  assert (Hserve : Forall2 (serves (u "domains")) (three_answers "domains")
                     (first_two_pages ++ [third_page])).
  { repeat (apply Forall2_cons || apply Forall2_nil);
      (eexists; eexists; split; [reflexivity|];
       split; [vm_compute; reflexivity | repeat split]). }
  exact (proj2 (@main_fetches_and_saves w [] (three_answers "domains") []
                  first_two_pages third_page
                  (eq_sym (List.app_nil_r _)) Hmore eq_refl)
           eq_refl Hserve).
Defined.

(** X17: snapshots are not versioned.  Two runs of
    [fetch_and_save_systems] (or of [fetch_and_save_domains]) one after
    the other on the same day, each served its pages, leave the files as
    a single run that fetched the second run's records would: the first
    snapshot is replaced, and every other file is as it was. *)
Theorem second_snapshot_replaces_first :
  forall w answers1 answers2 rest init1 last1 init2 last2,
    net w = answers1 ++ answers2 ++ rest ->
    Forall (fun p => hasNextPage p = true) init1 ->
    hasNextPage last1 = false ->
    Forall (fun p => hasNextPage p = true) init2 ->
    hasNextPage last2 = false ->
    (Forall2 (serves (u "systems")) answers1 (init1 ++ [last1]) ->
     Forall2 (serves (u "systems")) answers2 (init2 ++ [last2]) ->
     let run := (fetch_and_save_systems ;; fetch_and_save_systems) w in
     fst run = Ok VNone
     /\ files (snd run)
        = fs_write (files w) (snapshot_name (u "systems_data_") (now w))
            (Json.dumps
               (VList (List.concat (List.map nodes (init2 ++ [last2]))))))
    /\ (Forall2 (serves (u "domains")) answers1 (init1 ++ [last1]) ->
        Forall2 (serves (u "domains")) answers2 (init2 ++ [last2]) ->
        let run := (fetch_and_save_domains ;; fetch_and_save_domains) w in
        fst run = Ok VNone
        /\ files (snd run)
           = fs_write (files w) (snapshot_name (u "domains_data_") (now w))
               (Json.dumps
                  (VList (List.concat (List.map nodes (init2 ++ [last2])))))).
Proof.
  intros w answers1 answers2 rest init1 last1 init2 last2
         Hnet Hmore1 Hlast1 Hmore2 Hlast2.
  split; intros Hserve1 Hserve2; cbn zeta; unfold bind at 1 2.
  - rewrite fetch_and_save_systems_rounds.
    rewrite (@snapshot_run OL_SYSTEMS_QUERY (u "systems") (u "systems_data_")
               (u "Systems data saved to ") w answers1 (answers2 ++ rest)
               init1 last1 Hnet Hserve1 Hmore1 Hlast1).
    rewrite (@snapshot_run OL_SYSTEMS_QUERY (u "systems") (u "systems_data_")
               (u "Systems data saved to ")
               (after_snapshot w OL_SYSTEMS_QUERY (u "systems_data_")
                  (u "Systems data saved to ") (answers2 ++ rest) init1 last1)
               answers2 rest init2 last2 eq_refl Hserve2 Hmore2 Hlast2).
    split; [reflexivity|]. unfold after_snapshot.
    cbn [snd files now set_stdout set_files set_net set_sent].
    apply fs_write_twice.
  - rewrite fetch_and_save_domains_rounds.
    rewrite (@snapshot_run OL_DOMAINS_QUERY (u "domains") (u "domains_data_")
               (u "Domains data saved to ") w answers1 (answers2 ++ rest)
               init1 last1 Hnet Hserve1 Hmore1 Hlast1).
    rewrite (@snapshot_run OL_DOMAINS_QUERY (u "domains") (u "domains_data_")
               (u "Domains data saved to ")
               (after_snapshot w OL_DOMAINS_QUERY (u "domains_data_")
                  (u "Domains data saved to ") (answers2 ++ rest) init1 last1)
               answers2 rest init2 last2 eq_refl Hserve2 Hmore2 Hlast2).
    split; [reflexivity|]. unfold after_snapshot.
    cbn [snd files now set_stdout set_files set_net set_sent].
    apply fs_write_twice.
Qed.

Lemma second_snapshot_replaces_first_witness :
  let w := example_world
             (three_answers "systems"
              ++ [Response 200 (page_body "systems" "" "null" "false")]) [] in
  files (snd ((fetch_and_save_systems ;; fetch_and_save_systems) w))
  = [(u "systems_data_20240307.json", u "[]")].
Proof.
  intros w.
  assert (Hmore : Forall (fun p => hasNextPage p = true) first_two_pages).
  { repeat constructor. }
  assert (Hserve1 : Forall2 (serves (u "systems")) (three_answers "systems")
                      (first_two_pages ++ [third_page])).
  { repeat (apply Forall2_cons || apply Forall2_nil);
      (eexists; eexists; split; [reflexivity|];
       split; [vm_compute; reflexivity | repeat split]). }
  assert (Hserve2 : Forall2 (serves (u "systems"))
                      [Response 200 (page_body "systems" "" "null" "false")]
                      ([] ++ [{| nodes := []; endCursor := VNone;
                                 hasNextPage := false |}])).
  { repeat (apply Forall2_cons || apply Forall2_nil);
      (eexists; eexists; split; [reflexivity|];
       split; [vm_compute; reflexivity | repeat split]). }
  exact (proj2 (proj1 (@second_snapshot_replaces_first w
                  (three_answers "systems")
                  [Response 200 (page_body "systems" "" "null" "false")] []
                  first_two_pages third_page []
                  {| nodes := []; endCursor := VNone; hasNextPage := false |}
                  eq_refl Hmore eq_refl (Forall_nil _) eq_refl)
                Hserve1 Hserve2)).
Defined.

(** *** The names of the snapshots *)

Lemma below_spec n k : n < k -> In n (below k).
Proof.
  intros H. unfold below. rewrite <- (N2Nat.id n).
  apply in_map, in_seq. lia.
Qed.

Lemma pads_exactly_4 n : n < 10000 -> pads_exactly 4 n = true.
Proof.
  intros H.
  assert (Hall : forallb (pads_exactly 4) (below 10000) = true)
    by (vm_compute; reflexivity).
  rewrite forallb_forall in Hall. apply Hall, below_spec. exact H.
Qed.

Lemma pads_exactly_2 n : n < 100 -> pads_exactly 2 n = true.
Proof.
  intros H.
  assert (Hall : forallb (pads_exactly 2) (below 100) = true)
    by (vm_compute; reflexivity).
  rewrite forallb_forall in Hall. apply Hall, below_spec. exact H.
Qed.

Lemma app_same_length {A} (a1 a2 r1 r2 : list A) :
  List.length a1 = List.length a2 ->
  a1 ++ r1 = a2 ++ r2 -> a1 = a2 /\ r1 = r2.
Proof.
  revert a2. induction a1 as [|x a1 IH]; intros [|y a2] Hl H;
    try discriminate Hl.
  - split; [reflexivity | exact H].
  - cbn [Datatypes.app] in H. injection H as -> H. injection Hl as Hl.
    destruct (IH a2 Hl H) as [-> ->]. split; reflexivity.
Qed.

Lemma pads_exactly_spec width n :
  pads_exactly width n = true ->
  List.length (zero_pad width n) = width
  /\ forallb Json.is_digit (zero_pad width n) = true
  /\ digits_value (zero_pad width n) = n.
Proof.
  unfold pads_exactly. rewrite !andb_true_iff, Nat.eqb_eq, N.eqb_eq. tauto.
Qed.

Lemma zero_pad_inj width a b :
  pads_exactly width a = true -> pads_exactly width b = true ->
  forall r1 r2,
    zero_pad width a ++ r1 = zero_pad width b ++ r2 -> a = b /\ r1 = r2.
Proof.
  intros Ha Hb r1 r2 H.
  apply pads_exactly_spec in Ha, Hb.
  destruct Ha as (La & _ & Va), Hb as (Lb & _ & Vb).
  destruct (app_same_length _ _ _ _ (eq_trans La (eq_sym Lb)) H) as [E ->].
  split; [|reflexivity]. rewrite <- Va, <- Vb, E. reflexivity.
Qed.

Lemma is_date_bounds d :
  is_date d = true -> year d < 10000 /\ month d < 100 /\ day d < 100.
Proof.
  unfold is_date. rewrite !andb_true_iff, !N.leb_le. lia.
Qed.

(** The eight characters of the date are decimal digits that write the
    year, the month and the day. *)
Lemma date_digits y m d :
  pads_exactly 4 y = true -> pads_exactly 2 m = true ->
  pads_exactly 2 d = true ->
  let digits := zero_pad 4 y ++ zero_pad 2 m ++ zero_pad 2 d in
  List.length digits = 8%nat
  /\ forallb Json.is_digit digits = true
  /\ digits_value digits = y * 10000 + m * 100 + d.
Proof.
  intros Py Pm Pd. cbn zeta.
  apply pads_exactly_spec in Py, Pm, Pd.
  destruct Py as (Ly & Dy & Vy), Pm as (Lm & Dm & Vm), Pd as (Ld & Dd & Vd).
  split; [|split].
  - rewrite !length_app, Ly, Lm, Ld. reflexivity.
  - rewrite !forallb_app, Dy, Dm, Dd. reflexivity.
  - destruct (zero_pad 4 y) as [|a [|b [|c [|e [|? ?]]]]]; try discriminate Ly.
    destruct (zero_pad 2 m) as [|f [|g [|? ?]]]; try discriminate Lm.
    destruct (zero_pad 2 d) as [|h [|i [|? ?]]]; try discriminate Ld.
    unfold digits_value in *. cbn [Datatypes.app fold_left] in *. lia.
Qed.

(** X18: the file name tells the day and the kind.  For dates with a
    four-digit year, two snapshots of one kind have the same name only
    when taken on the same day, so a run never replaces the snapshot of
    another day; a snapshot of systems and one of domains never share a
    name; and the name is the prefix, then eight decimal digits that
    write the year, the month and the day, then [.json]. *)
Theorem snapshot_names_tell_days_apart :
  forall prefix d1 d2,
    is_date d1 = true -> is_date d2 = true ->
    (snapshot_name prefix d1 = snapshot_name prefix d2 -> d1 = d2)
    /\ snapshot_name (u "systems_data_") d1
       <> snapshot_name (u "domains_data_") d2
    /\ exists digits,
         snapshot_name prefix d1 = prefix ++ digits ++ u ".json"
         /\ List.length digits = 8%nat
         /\ forallb Json.is_digit digits = true
         /\ digits_value digits
            = year d1 * 10000 + month d1 * 100 + day d1.
Proof.
  intros prefix d1 d2 H1 H2.
  apply is_date_bounds in H1, H2.
  destruct H1 as (Hy1 & Hm1 & Hd1), H2 as (Hy2 & Hm2 & Hd2).
  pose proof (pads_exactly_4 Hy1) as Py1. pose proof (pads_exactly_4 Hy2) as Py2.
  pose proof (pads_exactly_2 Hm1) as Pm1. pose proof (pads_exactly_2 Hm2) as Pm2.
  pose proof (pads_exactly_2 Hd1) as Pd1. pose proof (pads_exactly_2 Hd2) as Pd2.
  split; [|split].
  - unfold snapshot_name. intros H. apply app_inv_head in H.
    rewrite <- !List.app_assoc in H.
    destruct (@zero_pad_inj 4 _ _ Py1 Py2 _ _ H) as [Ey H'].
    destruct (@zero_pad_inj 2 _ _ Pm1 Pm2 _ _ H') as [Em H''].
    destruct (@zero_pad_inj 2 _ _ Pd1 Pd2 _ _ H'') as [Ed _].
    destruct d1, d2. cbn [year month day] in *. congruence.
  - intros H. apply (f_equal (@hd N 0)) in H. vm_compute in H.
    discriminate H.
  - exists (zero_pad 4 (year d1) ++ zero_pad 2 (month d1)
            ++ zero_pad 2 (day d1)).
    split; [reflexivity|]. exact (@date_digits _ _ _ Py1 Pm1 Pd1).
Qed.

Lemma snapshot_names_tell_days_apart_witness :
  let d1 := {| year := 2024; month := 3; day := 7 |} in
  let d2 := {| year := 2024; month := 11; day := 30 |} in
  snapshot_name (u "systems_data_") d1
  <> snapshot_name (u "domains_data_") d2
  /\ exists digits,
       snapshot_name (u "systems_data_") d1
       = u "systems_data_" ++ digits ++ u ".json"
       /\ List.length digits = 8%nat
       /\ forallb Json.is_digit digits = true
       /\ digits_value digits = 20240307.
Proof.
  intros d1 d2.
  exact (proj2 (@snapshot_names_tell_days_apart (u "systems_data_") d1 d2
                  eq_refl eq_refl)).
Defined.

(** *** The test of [hasNextPage] *)

Lemma fetch_page_accepted query kind st w text r rest items cur more :
  net w = Response 200 text :: rest ->
  Json.loads text = Some r ->
  lookup_path r [u "data"; u "account"; kind; u "nodes"]
  = Some (VList items) ->
  lookup_path r [u "data"; u "account"; kind; u "pageInfo"; u "endCursor"]
  = Some cur ->
  lookup_path r [u "data"; u "account"; kind; u "pageInfo"; u "hasNextPage"]
  = Some more ->
  fetch_page query kind st w
  = (Ok {| data_acc := data_acc st ++ items; end_cursor := cur;
           has_next_page := more |},
     after_requests w [page_request (api_token w) query (end_cursor st)]
       rest []).
Proof.
  intros Hnet Hr Hn Hc Hm.
  destruct (page_subscripts _ _ Hn Hc Hm)
    as (d & a & c & page_info & Hd & Ha & Hk & Hnodes & Hpi & Hcur & Hmore).
  unfold fetch_page. cbn zeta. unfold bind at 1.
  rewrite (query_accepted _ _ _ Hnet Hr).
  unfold bind, lift. rewrite Hd, Ha, Hk, Hnodes. cbn [iterate].
  rewrite Hpi, Hcur, Hmore. reflexivity.
Qed.

Lemma fetch_page_sent query kind st w :
  sent (snd (fetch_page query kind st w))
  = sent w ++ [page_request (api_token w) query (end_cursor st)].
Proof.
  unfold fetch_page. cbn zeta. apply query_then_sent.
  intros r. preserves_tac.
Qed.

Lemma while_fetch_sent_extends query kind fuel :
  forall st w,
    exists later,
      sent (snd (while_fuel fuel (fun st => truthy (has_next_page st))
                   (fetch_page query kind) st w))
      = sent w ++ later.
Proof.
  induction fuel as [|fuel IH]; intros st w; cbn [while_fuel];
    destruct (truthy (has_next_page st));
    try (exists []; cbn [snd]; rewrite List.app_nil_r; reflexivity).
  unfold bind. pose proof (fetch_page_sent query kind st w) as Hs.
  destruct (fetch_page query kind st w) as [[st1|e] w1]; cbn [snd] in *.
  - destruct (IH st1 w1) as [later Hl]. rewrite Hl, Hs.
    rewrite <- List.app_assoc. eexists. reflexivity.
  - rewrite Hs. eexists. reflexivity.
Qed.

Lemma while_fuel_step {S} fuel cond (body : S -> M S) s w :
  cond s = true ->
  while_fuel (Datatypes.S fuel) cond body s w
  = bind (body s) (while_fuel fuel cond body) w.
Proof. intros H. cbn [while_fuel]. rewrite H. reflexivity. Qed.

Lemma while_fuel_stop {S} fuel cond (body : S -> M S) s w :
  cond s = false -> while_fuel fuel cond body s w = (Ok s, w).
Proof. intros H. destruct fuel; cbn [while_fuel]; rewrite H; reflexivity. Qed.

(** X19: the pagination loops test [hasNextPage] for truth, not for being
    [true].  After a first page of systems whose flag is false, [None],
    zero or empty, [fetch_and_save_systems] posts nothing more and saves
    that page alone, whatever cursor came with it; after a first page
    whose flag is anything else (the string ["false"], say), the next
    request goes out with the cursor of that page. *)
Theorem pagination_tests_truth :
  forall w text r rest items cur more,
    net w = Response 200 text :: rest ->
    Json.loads text = Some r ->
    lookup_path r [u "data"; u "account"; u "systems"; u "nodes"]
    = Some (VList items) ->
    lookup_path r [u "data"; u "account"; u "systems"; u "pageInfo";
                   u "endCursor"] = Some cur ->
    lookup_path r [u "data"; u "account"; u "systems"; u "pageInfo";
                   u "hasNextPage"] = Some more ->
    let run := fetch_and_save_systems w in
    let first := page_request (api_token w) OL_SYSTEMS_QUERY VNone in
    (truthy more = false ->
     fst run = Ok VNone
     /\ sent (snd run) = sent w ++ [first]
     /\ net (snd run) = rest
     /\ fs_read (files (snd run)) (snapshot_name (u "systems_data_") (now w))
        = Some (Json.dumps (VList items)))
    /\ (truthy more = true ->
        exists later,
          sent (snd run)
          = sent w ++ first
            :: page_request (api_token w) OL_SYSTEMS_QUERY cur :: later).
Proof.
  intros w text r rest items cur more Hnet Hr Hn Hc Hm. cbn zeta.
  rewrite fetch_and_save_systems_rounds.
  pose proof (@fetch_page_accepted OL_SYSTEMS_QUERY (u "systems") loop_init
                w text r rest items cur more Hnet Hr Hn Hc Hm) as Hpage.
  assert (Hloop : while_ (fun st => truthy (has_next_page st))
                    (fetch_page OL_SYSTEMS_QUERY (u "systems")) loop_init w
                  = while_fuel (S (List.length rest))
                      (fun st => truthy (has_next_page st))
                      (fetch_page OL_SYSTEMS_QUERY (u "systems"))
                      {| data_acc := data_acc loop_init ++ items;
                         end_cursor := cur; has_next_page := more |}
                      (after_requests w
                         [page_request (api_token w) OL_SYSTEMS_QUERY
                            (end_cursor loop_init)] rest [])).
  { unfold while_. rewrite Hnet. cbn [List.length].
    rewrite while_fuel_step by reflexivity.
    unfold bind. rewrite Hpage. reflexivity. }
  split; intros Ht.
  - match goal with
    | |- fst (?prog w) = _ /\ _ =>
        assert (Hrun : exists w',
                   prog w = (Ok VNone, w')
                   /\ sent w' = sent w
                                ++ [page_request (api_token w)
                                      OL_SYSTEMS_QUERY VNone]
                   /\ net w' = rest
                   /\ fs_read (files w')
                        (snapshot_name (u "systems_data_") (now w))
                      = Some (Json.dumps (VList items)))
    end.
    { unfold bind at 1. rewrite Hloop.
      rewrite while_fuel_stop by exact Ht.
      unfold bind, date_suffix_now, save_to_file, print, ret.
      eexists. split; [reflexivity|].
      cbn [sent net files now after_requests set_stdout set_files
           data_acc loop_init end_cursor Datatypes.app].
      repeat split. apply fs_read_write. }
    destruct Hrun as (w' & -> & Hs & Hn' & Hf). cbn [fst snd].
    repeat split; assumption.
  - assert (Htail : forall c : M loop_state,
               sent (snd ((st <- c ;;
                           date_suffix <- date_suffix_now ;;
                           let filename :=
                             u "systems_data_" ++ date_suffix ++ u ".json" in
                           save_to_file filename (VList (data_acc st)) ;;
                           print [Text (u "Systems data saved to "
                                        ++ filename)] ;;
                           ret VNone) w))
               = sent (snd (c w))).
    { intros c. unfold bind at 1. destruct (c w) as [[st|e] w1];
        reflexivity. }
    rewrite Htail, Hloop.
    rewrite while_fuel_step by exact Ht.
    unfold bind.
    pose proof (fetch_page_sent OL_SYSTEMS_QUERY (u "systems")
                  {| data_acc := data_acc loop_init ++ items;
                     end_cursor := cur; has_next_page := more |}
                  (after_requests w
                     [page_request (api_token w) OL_SYSTEMS_QUERY
                        (end_cursor loop_init)] rest [])) as Hs.
    destruct (fetch_page OL_SYSTEMS_QUERY (u "systems")
                {| data_acc := data_acc loop_init ++ items;
                   end_cursor := cur; has_next_page := more |}
                (after_requests w
                   [page_request (api_token w) OL_SYSTEMS_QUERY
                      (end_cursor loop_init)] rest []))
      as [[st2|e] w2]; cbn [snd] in *.
    + destruct (while_fetch_sent_extends OL_SYSTEMS_QUERY (u "systems")
                  (List.length rest) st2 w2) as [later Hl].
      exists later. rewrite Hl, Hs.
      cbn [sent after_requests api_token end_cursor loop_init].
      rewrite <- !List.app_assoc. reflexivity.
    + exists []. rewrite Hs.
      cbn [sent after_requests api_token end_cursor loop_init].
      rewrite <- !List.app_assoc. reflexivity.
Qed.

Lemma pagination_tests_truth_witness :
  let pending := [Response 200 (page_body "systems" "" "null" "false")] in
  (let w := example_world (Response 200 null_flag_page :: pending) [] in
   sent (snd (fetch_and_save_systems w))
   = [page_request (u "secret") OL_SYSTEMS_QUERY VNone]
   /\ net (snd (fetch_and_save_systems w)) = pending)
  /\ (let w := example_world (Response 200 text_flag_page :: pending) [] in
      exists later,
        sent (snd (fetch_and_save_systems w))
        = page_request (u "secret") OL_SYSTEMS_QUERY VNone
          :: page_request (u "secret") OL_SYSTEMS_QUERY (VStr (u "c1"))
          :: later).
Proof.
  intros pending. split; intros w.
  - assert (Hr : Json.loads null_flag_page
                 = Some (match Json.loads null_flag_page with
                         | Some r => r
                         | None => VNone
                         end)) by (vm_compute; reflexivity).
    destruct (proj1 (@pagination_tests_truth w null_flag_page _ pending
                       [VDict [(u "name", VStr (u "A"))]] (VStr (u "c1"))
                       VNone eq_refl Hr eq_refl eq_refl eq_refl) eq_refl)
      as (_ & Hs & Hn & _).
    split; assumption.
  - assert (Hr : Json.loads text_flag_page
                 = Some (match Json.loads text_flag_page with
                         | Some r => r
                         | None => VNone
                         end)) by (vm_compute; reflexivity).
    exact (proj2 (@pagination_tests_truth w text_flag_page _ pending
                    [VDict [(u "name", VStr (u "A"))]] (VStr (u "c1"))
                    (VStr (u "false")) eq_refl Hr eq_refl eq_refl eq_refl)
             eq_refl).
Defined.

(** *** What the transport hands to its callers *)



(** X22: the text of a snapshot determines its records: two different
    values of the kind the endpoint's responses are made of never give
    the same file content. *)
Theorem different_records_different_text :
  forall filename data1 data2 w,
    native data1 = true -> native data2 = true ->
    data1 <> data2 ->
    fs_read (files (snd (save_to_file filename data1 w))) filename
    <> fs_read (files (snd (save_to_file filename data2 w))) filename.
Proof.
  intros filename data1 data2 w H1 H2 Hne.
  unfold save_to_file. cbn [snd files set_files].
  rewrite !fs_read_write. intros H. injection H as H.
  apply Hne.
  pose proof (loads_dumps _ H1) as L1. pose proof (loads_dumps _ H2) as L2.
  rewrite H in L1. rewrite L1 in L2. injection L2 as ->. reflexivity.
Qed.

Lemma different_records_different_text_witness :
  let w := example_world [] [] in
  let name := u "systems_data_20240307.json" in
  fs_read (files (snd (save_to_file name (VList [VStr (u "1")]) w))) name
  <> fs_read (files (snd (save_to_file name (VList [VInt 1]) w))) name.
Proof.
  intros w name.
  apply (@different_records_different_text name (VList [VStr (u "1")])
           (VList [VInt 1]) w eq_refl eq_refl).
  discriminate.
Defined.

(** *** The handler of the reconciliation *)

(** X23: the [except] clause of [update_systems_with_services] catches
    [FileNotFoundError] and nothing else.  Were [load_domains_from_file]
    bound to a function, a [FileNotFoundError] from it would be answered
    with the not-found message and a normal return, while any other
    exception from it (a snapshot that does not parse, say) would leave
    the function unchanged, with no message and no request. *)
Theorem handler_catches_only_file_not_found :
  forall globals load w path lines e w1,
    stdin w = path :: lines ->
    globals (u "load_domains_from_file") = Some load ->
    load (VStr path) (after_prompt w lines) = (Raise e, w1) ->
    update_systems_with_services_in globals w
    = match e with
      | FileNotFoundError =>
          (Ok VNone,
           set_stdout w1
             (stdout w1 ++ [Print [Text (u "File " ++ path
                                         ++ u " not found. Please try again.")]]))
      | _ => (Raise e, w1)
      end.
Proof.
  intros globals load w path lines e w1 Hin Hg Hload.
  unfold update_systems_with_services_in.
  unfold bind at 1. unfold input. rewrite Hin.
  unfold bind at 1. unfold try_, call_global. rewrite Hg.
  unfold after_prompt in Hload. rewrite Hload.
  destruct e; reflexivity.
Qed.

Lemma handler_catches_only_file_not_found_witness :
  let w := example_world (three_answers "systems")
             [u "domains_data_20240307.json"] in
  update_systems_with_services_in loader_corrupt_file w
  = (Raise JSONDecodeError, after_prompt w []).
Proof.
  intros w.
  exact (@handler_catches_only_file_not_found loader_corrupt_file
           (fun _ => raise JSONDecodeError) w
           (u "domains_data_20240307.json") [] JSONDecodeError
           (after_prompt w []) eq_refl eq_refl eq_refl).
Defined.

Lemma unbound_name_stops globals name record :
  globals name = None ->
  stops (call_global globals name) record [] (fun _ => []) []
        (NameError name).
Proof.
  intros Hg w rest Hnet. cbn [Datatypes.app] in Hnet. subst rest.
  unfold call_global. rewrite Hg, after_requests_here. reflexivity.
Qed.

(** X24: the loop of [update_systems_with_services] calls a second name
    the file never binds.  Were the loader bound and the snapshot
    loaded, the first system of the first page served would raise
    [NameError] for [update_system_with_service]: one page request has
    gone out, and no system is updated. *)
Theorem update_system_with_service_unbound :
  forall globals load w path lines data w1 o record later cur more rest,
    stdin w = path :: lines ->
    globals (u "load_domains_from_file") = Some load ->
    load (VStr path) (after_prompt w lines) = (Ok data, w1) ->
    globals (u "update_system_with_service") = None ->
    net w1 = o :: rest ->
    serves (u "systems") o
      {| nodes := record :: later; endCursor := cur; hasNextPage := more |} ->
    module_globals (u "update_system_with_service") = None
    /\ update_systems_with_services_in globals w
       = (Raise (NameError (u "update_system_with_service")),
          after_requests w1
            [page_request (api_token w1) OL_SYSTEMS_QUERY VNone] rest []).
Proof.
  intros globals load w path lines data w1 o record later cur more rest
         Hin Hg Hload Hu Hnet Hpage.
  split; [reflexivity|].
  unfold update_systems_with_services_in.
  unfold bind at 1. unfold input. rewrite Hin.
  unfold bind at 1. unfold try_, call_global at 1. rewrite Hg.
  unfold after_prompt in Hload. rewrite Hload.
  exact (@while_rounds_stop OL_SYSTEMS_QUERY (u "systems") (u "")
           (call_global globals (u "update_system_with_service"))
           [] o [] record later cur more w1 rest [] (fun _ => []) []
           (NameError (u "update_system_with_service"))
           (Forall_nil _) (Forall_nil _) Hpage (Forall_nil _)
           (unbound_name_stops globals _ record Hu) Hnet).
Qed.

Lemma update_system_with_service_unbound_witness :
  let w := example_world (three_answers "systems")
             [u "domains_data_20240307.json"] in
  update_systems_with_services_in loader_only w
  = (Raise (NameError (u "update_system_with_service")),
     after_requests (after_prompt w [])
       [page_request (u "secret") OL_SYSTEMS_QUERY VNone]
       (tl (three_answers "systems")) []).
Proof.
  intros w.
  assert (Hpage : serves (u "systems") (hd Unreachable (three_answers "systems"))
                    {| nodes := [VDict [(u "name", VStr (u "A"))];
                                 VDict [(u "name", VStr (u "B"))]];
                       endCursor := VStr (u "c1"); hasNextPage := true |}).
  { eexists; eexists; split; [reflexivity|];
      split; [vm_compute; reflexivity | repeat split]. }
  exact (proj2 (@update_system_with_service_unbound loader_only
                  (fun _ => ret (VList [])) w
                  (u "domains_data_20240307.json") [] (VList [])
                  (after_prompt w []) _ _ _ _ _ _
                  eq_refl eq_refl eq_refl eq_refl eq_refl Hpage)).
Defined.
